(** * UPI fraud detection: decision engine and orchestration pipeline

    A shallow embedding of [models/decision_engine.py], [models/fraud_pipeline.py]
    and [config/config.py], and the properties of the decision core.

    Conventions of the embedding.
    - A Python [dict] with string keys is a [gmap string value].
    - A Python number is a [num]: a finite number is a rational, next to the
      three non-finite floats.  An [int] is the integer it is.  A [float] is
      an IEEE 754 double, held as a decimal that denotes it: the float is
      the double nearest to the decimal ([to_double]), and the decimal is
      the one Python writes for the float, the shortest that reads back as
      the same double ([shortest]).  Floats held so compare as their
      decimals do, so the comparisons are those of the rationals.
      Arithmetic goes through the doubles: the operands are read as
      doubles, the exact result is rounded to the nearest double, ties to
      the even significand, overflow to an infinity, and the result is held
      as its shortest decimal.  The sign of zero is not tracked.
    - A function that can raise returns a [res]; [Raise e] is the exception
      leaving the function.
    - The wall clock ([datetime.now()]) and Python's shortest [repr] of a
      float are parameters of the development.
    - Log output is not part of the model. *)

From Stdlib Require Import QArith Qpower Qround Qabs Qminmax Lia Lqa.
From stdpp Require Import gmap strings list pretty functions.

Local Open Scope string_scope.
Local Open Scope list_scope.

(** ** Python numbers *)

Module Py.

Inductive num : Type :=
  | Fin (q : Q)
  | PInf
  | NInf
  | NaN.

Definition Qlt_bool (x y : Q) : bool := negb (Qle_bool y x).

(** [a < b] on floats: false as soon as one side is NaN. *)
Definition num_ltb (a b : num) : bool :=
  match a, b with
  | NaN, _ | _, NaN => false
  | Fin x, Fin y => Qlt_bool x y
  | NInf, NInf => false
  | NInf, _ => true
  | _, NInf => false
  | PInf, _ => false
  | Fin _, PInf => true
  end.

Definition num_leb (a b : num) : bool :=
  match a, b with
  | NaN, _ | _, NaN => false
  | Fin x, Fin y => Qle_bool x y
  | NInf, _ => true
  | _, PInf => true
  | _, NInf => false
  | PInf, _ => false
  end.

Definition num_eqb (a b : num) : bool :=
  match a, b with
  | Fin x, Fin y => Qeq_bool x y
  | PInf, PInf | NInf, NInf => true
  | _, _ => false
  end.

Definition num_opp (a : num) : num :=
  match a with
  | Fin x => Fin (- x)
  | PInf => NInf
  | NInf => PInf
  | NaN => NaN
  end.

Definition num_abs (a : num) : num :=
  match a with
  | Fin x => Fin (Qabs x)
  | PInf | NInf => PInf
  | NaN => NaN
  end.

Definition Qsgn (x : Q) : Z := Z.sgn (Qnum x).

(** The builtins [min(a, b)] and [max(a, b)]: the first argument is kept
    unless the second one is strictly smaller (larger). *)
Definition py_min (a b : num) : num := if num_ltb b a then b else a.
Definition py_max (a b : num) : num := if num_ltb a b then b else a.

(** Rounding to the nearest integer, ties to the even one. *)
Definition round_half_even (q : Q) : Z :=
  let f := Qfloor q in
  match (q - inject_Z f ?= 1 # 2)%Q with
  | Lt => f
  | Gt => (f + 1)%Z
  | Eq => if Z.even f then f else (f + 1)%Z
  end.

Definition pow10 (n : nat) : Z := (10 ^ Z.of_nat n)%Z.

Definition Qround_dec (q : Q) (ndigits : nat) : Q :=
  (inject_Z (round_half_even (q * inject_Z (pow10 ndigits)))
     / inject_Z (pow10 ndigits))%Q.

(** *** Doubles *)

(** The floor of the binary logarithm of [|q|], for [q] other than 0. *)
Definition Qlog2 (q : Q) : Z :=
  let k := (Z.log2 (Z.abs (Qnum q)) - Z.log2 (Zpos (Qden q)))%Z in
  if Qle_bool (2 ^ k) (Qabs q) then k else (k - 1)%Z.

(** The exponent of the unit in the last place of the doubles around [q]:
    53 significant bits, and the fixed exponent -1074 of the subnormal
    range. *)
Definition ulp_exponent (q : Q) : Z := Z.max (Qlog2 q - 52) (-1074).

(** The double nearest to [q], ties to the even significand; from 2^1024
    on the result is an infinity. *)
Definition to_double (q : Q) : num :=
  if Qeq_bool q 0 then Fin 0
  else
    let e := ulp_exponent q in
    let d := Qred (inject_Z (round_half_even (q / 2 ^ e)) * 2 ^ e) in
    if Qle_bool (2 ^ 1024) (Qabs d) then (if Qle_bool 0 q then PInf else NInf)
    else Fin d.

Definition Qlog10_from (q : Q) (k : Z) : Z :=
  if Qle_bool (10 ^ (k + 1)) (Qabs q) then (k + 1)%Z
  else if Qle_bool (10 ^ k) (Qabs q) then k
  else (k - 1)%Z.

(** The floor of the decimal logarithm of [|q|], for [q] other than 0: an
    estimate from the binary logarithm, corrected twice. *)
Definition Qlog10 (q : Q) : Z :=
  Qlog10_from q (Qlog10_from q (Qlog2 q * 30103 / 100000)).

(** [q] rounded to [k] significant decimal digits. *)
Definition round_sig (q : Q) (k : Z) : Q :=
  let s := (10 ^ (k - 1 - Qlog10 q))%Q in
  Qred (inject_Z (round_half_even (q * s)) / s).

Fixpoint shortest_from (d : Q) (k : Z) (fuel : nat) : Q :=
  match fuel with
  | O => d
  | S fuel' =>
      let c := round_sig d k in
      match to_double c with
      | Fin d' => if Qeq_bool d' d then c else shortest_from d (k + 1) fuel'
      | _ => shortest_from d (k + 1) fuel'
      end
  end.

(** The decimal Python writes for the double [d]: the shortest one, of at
    most 17 significant digits, that reads back as [d]. *)
Definition shortest (d : Q) : Q :=
  if Qeq_bool d 0 then 0 else shortest_from d 1 17.

(** The double a float denotes, and the float that holds a double. *)
Definition decode (a : num) : num :=
  match a with
  | Fin q => to_double q
  | _ => a
  end.

Definition literal (a : num) : num :=
  match a with
  | Fin d => Fin (shortest d)
  | _ => a
  end.

(** Sum and product of doubles. *)
Definition double_add (a b : num) : num :=
  match a, b with
  | NaN, _ | _, NaN => NaN
  | Fin x, Fin y => to_double (x + y)
  | PInf, NInf | NInf, PInf => NaN
  | PInf, _ | _, PInf => PInf
  | NInf, _ | _, NInf => NInf
  end.

Definition double_mul (a b : num) : num :=
  match a, b with
  | NaN, _ | _, NaN => NaN
  | Fin x, Fin y => to_double (x * y)
  | Fin x, PInf | PInf, Fin x =>
      match Qsgn x with Z0 => NaN | Zpos _ => PInf | Zneg _ => NInf end
  | Fin x, NInf | NInf, Fin x =>
      match Qsgn x with Z0 => NaN | Zpos _ => NInf | Zneg _ => PInf end
  | PInf, PInf | NInf, NInf => PInf
  | PInf, NInf | NInf, PInf => NInf
  end.

(** [a - b] and [a * b] on floats. *)
Definition float_sub (a b : num) : num :=
  literal (double_add (decode a) (num_opp (decode b))).

Definition float_mul (a b : num) : num :=
  literal (double_mul (decode a) (decode b)).

(** [a / c] on floats for a positive literal [c], the one division of the
    engine ([min_distance / 0.2]): an infinity or NaN stays what it is. *)
Definition float_div_pos (a : num) (c : Q) : num :=
  match decode a, to_double c with
  | Fin x, Fin y => literal (to_double (x / y))
  | x, _ => x
  end.

(** [round(x, ndigits)] of a float: the double is rounded to the decimal
    with [ndigits] places nearest to it, ties to the even digit, and the
    result is the float that decimal denotes. *)
Definition py_round (a : num) (ndigits : nat) : num :=
  match decode a with
  | Fin d => Fin (Qround_dec d ndigits)
  | x => x
  end.

(** Zero padding on the left, as [%04d] does. *)
Definition zfill (width : nat) (s : string) : string :=
  String.concat "" (replicate (width - String.length s) "0") +:+ s.

(** [f"{x:.4f}"] *)
Definition format_4f (a : num) : string :=
  match decode a with
  | Fin x =>
      let n := round_half_even (x * inject_Z (pow10 4)) in
      let m := Z.abs n in
      (if (n <? 0)%Z then "-" else "")
        +:+ pretty (m / pow10 4)%Z +:+ "." +:+ zfill 4 (pretty (m mod pow10 4)%Z)
  | PInf => "inf"
  | NInf => "-inf"
  | NaN => "nan"
  end.

(** ** Python values, exceptions and dictionaries *)

(** The values a transaction or a threshold payload holds: [None], [bool],
    [int], [float] and [str]. *)
Inductive value : Type :=
  | VNone
  | VBool (b : bool)
  | VInt (z : Z)
  | VFloat (x : num)
  | VStr (s : string).

Inductive exn : Type :=
  | ValueError (msg : string)
  | TypeError (msg : string)
  | KeyError (key : string)
  | RuntimeError (msg : string)
  | OverflowError (msg : string)
  | OtherError (msg : string).

(** [str(e)] *)
Definition str_exn (e : exn) : string :=
  match e with
  | ValueError m | TypeError m | RuntimeError m | OverflowError m | OtherError m => m
  | KeyError k => "'" +:+ k +:+ "'"
  end.

Inductive res (A : Type) : Type :=
  | Ok (a : A)
  | Raise (e : exn).
Arguments Ok {A} a.
Arguments Raise {A} e.

Definition bind {A B : Type} (m : res A) (k : A → res B) : res B :=
  match m with
  | Ok a => k a
  | Raise e => Raise e
  end.

Notation "'let*' x ':=' m 'in' k" := (bind m (fun x => k))
  (at level 10, x pattern, m at level 100, k at level 200).

Definition type_name (v : value) : string :=
  match v with
  | VNone => "NoneType"
  | VBool _ => "bool"
  | VInt _ => "int"
  | VFloat _ => "float"
  | VStr _ => "str"
  end.

(** [isinstance(v, (int, float))]; [bool] is a subclass of [int]. *)
Definition is_number (v : value) : bool :=
  match v with
  | VBool _ | VInt _ | VFloat _ => true
  | _ => false
  end.

(** The numeric value of a number. *)
Definition as_num (v : value) : option num :=
  match v with
  | VBool b => Some (Fin (if b then 1 else 0))
  | VInt z => Some (Fin (inject_Z z))
  | VFloat x => Some x
  | _ => None
  end.

Definition compare_error (op : string) (a b : value) : exn :=
  TypeError ("'" +:+ op +:+ "' not supported between instances of '"
               +:+ type_name a +:+ "' and '" +:+ type_name b +:+ "'").

Definition operand_error (op : string) (a b : value) : exn :=
  TypeError ("unsupported operand type(s) for " +:+ op +:+ ": '"
               +:+ type_name a +:+ "' and '" +:+ type_name b +:+ "'").

(** An ordering comparison: numbers by value, strings lexicographically,
    anything else is a [TypeError]. *)
Definition py_compare (op : string) (fnum : num → num → bool)
    (fstr : string → string → bool) (a b : value) : res bool :=
  match as_num a, as_num b with
  | Some x, Some y => Ok (fnum x y)
  | _, _ =>
      match a, b with
      | VStr s, VStr t => Ok (fstr s t)
      | _, _ => Raise (compare_error op a b)
      end
  end.

Definition py_lt : value → value → res bool :=
  py_compare "<" num_ltb String.ltb.
Definition py_le : value → value → res bool :=
  py_compare "<=" num_leb String.leb.
Definition py_gt : value → value → res bool :=
  py_compare ">" (fun x y => num_ltb y x) (fun s t => String.ltb t s).
Definition py_ge : value → value → res bool :=
  py_compare ">=" (fun x y => num_leb y x) (fun s t => String.leb t s).

(** [a == b] never raises on these values. *)
Definition py_eq (a b : value) : bool :=
  match as_num a, as_num b with
  | Some x, Some y => num_eqb x y
  | _, _ =>
      match a, b with
      | VStr s, VStr t => String.eqb s t
      | VNone, VNone => true
      | _, _ => false
      end
  end.

Definition py_ne (a b : value) : bool := negb (py_eq a b).

(** The int an [int] or a [bool] is. *)
Definition as_int (v : value) : option Z :=
  match v with
  | VBool b => Some (if b then 1 else 0)%Z
  | VInt z => Some z
  | _ => None
  end.

(** [float(z)] of an int, as mixed arithmetic does it: the nearest double,
    and an [OverflowError] beyond the doubles. *)
Definition float_of_int (z : Z) : res num :=
  match to_double (inject_Z z) with
  | Fin d => Ok (literal (Fin d))
  | _ => Raise (OverflowError "int too large to convert to float")
  end.

(** The float operand a number is in arithmetic with a float. *)
Definition as_float (v : value) : option (res num) :=
  match v with
  | VFloat x => Some (Ok x)
  | VBool _ | VInt _ =>
      match as_int v with
      | Some z => Some (float_of_int z)
      | None => None
      end
  | _ => None
  end.

(** [v * n] for an int literal [n]: a product of ints, a product of
    floats, or a string repeated. *)
Definition py_mul_int (v : value) (n : Z) : res value :=
  match v with
  | VBool b => Ok (VInt ((if b then 1 else 0) * n))
  | VInt z => Ok (VInt (z * n))
  | VFloat x => let* y := float_of_int n in Ok (VFloat (float_mul x y))
  | VStr s => Ok (VStr (String.concat "" (replicate (Z.to_nat n) s)))
  | VNone => Raise (operand_error "*" v (VInt n))
  end.

(** [a - b], defined on numbers only: the difference of two ints is an
    int; with a float among them both are floats. *)
Definition py_sub (a b : value) : res value :=
  match as_int a, as_int b with
  | Some x, Some y => Ok (VInt (x - y))
  | _, _ =>
      match as_float a, as_float b with
      | Some x, Some y => let* x := x in let* y := y in Ok (VFloat (float_sub x y))
      | _, _ => Raise (operand_error "-" a b)
      end
  end.

(** [abs(v)] *)
Definition py_abs (v : value) : res value :=
  match v with
  | VBool b => Ok (VInt (if b then 1 else 0))
  | VInt z => Ok (VInt (Z.abs z))
  | VFloat x => Ok (VFloat (num_abs x))
  | _ => Raise (TypeError ("bad operand type for abs(): '" +:+ type_name v +:+ "'"))
  end.

(** [min(xs)] of a non-empty list: from left to right, the element kept
    is replaced by a later one that is strictly smaller. *)
Fixpoint py_min_list (x : value) (xs : list value) : res value :=
  match xs with
  | [] => Ok x
  | y :: rest =>
      let* smaller := py_lt y x in
      py_min_list (if smaller then y else x) rest
  end.

(** [v / c] for a positive float literal [c]: a float. *)
Definition py_div_pos (v : value) (c : Q) : res num :=
  match as_float v with
  | Some x => let* x := x in Ok (float_div_pos x c)
  | None => Raise (operand_error "/" v (VFloat (Fin c)))
  end.

Abbreviation dict := (gmap string value).

(** [d.get(k, default)] *)
Definition get (d : dict) (k : string) (default : value) : value :=
  match d !! k with
  | Some v => v
  | None => default
  end.

(** [d[k]] *)
Definition getitem (d : dict) (k : string) : res value :=
  match d !! k with
  | Some v => Ok v
  | None => Raise (KeyError k)
  end.

(** [k in d] *)
Definition contains (d : dict) (k : string) : bool :=
  match d !! k with
  | Some _ => true
  | None => false
  end.

(** [sep.join(parts)] *)
Definition join (sep : string) (parts : list string) : string :=
  String.concat sep parts.

End Py.

Export Py.

(** ** Configuration ([config/config.py]) *)

Module Config.

(** [FRAUD_THRESHOLDS] *)
Definition FRAUD_THRESHOLDS : dict :=
  <["allow" := VFloat (Fin (4 # 10))]>
    (<["verify" := VFloat (Fin (7 # 10))]>
       (<["block" := VFloat (Fin (7 # 10))]> ∅)).

Record risk_band : Type := {
  band_min : value;
  band_max : value;
  band_action : string;
  band_color : string
}.

(** [RISK_LEVELS], in the insertion order its items are visited in. *)
Definition RISK_LEVELS : list (string * risk_band) :=
  [ ("LOW", {| band_min := VFloat (Fin 0); band_max := VFloat (Fin (4 # 10));
               band_action := "ALLOW"; band_color := "green" |});
    ("MEDIUM", {| band_min := VFloat (Fin (4 # 10)); band_max := VFloat (Fin (7 # 10));
                  band_action := "VERIFY"; band_color := "orange" |});
    ("HIGH", {| band_min := VFloat (Fin (7 # 10)); band_max := VFloat (Fin 1);
                band_action := "BLOCK"; band_color := "red" |}) ].

End Config.

Export Config.

(** ** The decision engine ([FraudDecisionEngine]) *)

(** The record [make_decision] returns. *)
Record decision : Type := {
  d_fraud_score : num;
  d_risk_level : string;
  d_action : string;
  d_reasoning : string;
  d_timestamp : string;
  d_confidence : num
}.

(** The argument of [update_thresholds]: a dict, or something else. *)
Inductive payload : Type :=
  | PDict (d : dict)
  | PValue (v : value).

Section Engine.

(** [repr] of a float and [datetime.now().isoformat()]. *)
Variable float_repr : num → string.
Variable now_iso : string.

(** [str(v)] of a number, as the f-string of the range error prints it. *)
Definition str_number (v : value) : string :=
  match v with
  | VBool b => if b then "True" else "False"
  | VInt z => pretty z
  | VFloat x => float_repr x
  | VStr s => s
  | VNone => "None"
  end.

(** The engine's state is its [thresholds] dict; [risk_levels] never
    changes. *)
Definition _get_base_action (thresholds : dict) (fraud_score : value) : res string :=
  let* allow := getitem thresholds "allow" in
  let* c := py_lt fraud_score allow in
  if c then Ok "ALLOW"
  else
    let* block := getitem thresholds "block" in
    let* c := py_lt fraud_score block in
    if c then Ok "VERIFY" else Ok "BLOCK".

Fixpoint first_band (levels : list (string * risk_band)) (fraud_score : value)
    : res (option string) :=
  match levels with
  | [] => Ok None
  | (level, config) :: rest =>
      let* lo := py_le (band_min config) fraud_score in
      let* inside := (if lo then py_lt fraud_score (band_max config) else Ok false) in
      if inside then Ok (Some level) else first_band rest fraud_score
  end.

Definition _get_risk_level (fraud_score : value) : res string :=
  let* found := first_band RISK_LEVELS fraud_score in
  match found with
  | Some level => Ok level
  | None => Ok "HIGH"
  end.

(** The state a business rule works on: the action so far and the reasons
    collected so far. *)
Definition rule_state : Type := string * list string.

(** Business rule 1: a high amount needs extra verification. *)
Definition business_rule_1 (amount avg_amount : value) (st : rule_state)
    : res rule_state :=
  let '(final_action, reasoning) := st in
  let* limit := py_mul_int avg_amount 5 in
  let* high := py_gt amount limit in
  if high && String.eqb final_action "ALLOW"
  then Ok ("VERIFY", reasoning ++ ["High amount transaction (>5x average)"])
  else Ok st.

(** Business rule 2: a new receiver with a significant amount. *)
Definition business_rule_2 (transaction_data : dict) (amount : value)
    (st : rule_state) : res rule_state :=
  let '(final_action, reasoning) := st in
  let receiver_age := get transaction_data "receiver_age_days" (VInt 365) in
  let* young := py_lt receiver_age (VInt 7) in
  let* large := (if young then py_gt amount (VInt 10000) else Ok false) in
  if large && String.eqb final_action "ALLOW"
  then Ok ("VERIFY", reasoning ++ ["New receiver (<7 days) with high amount"])
  else Ok st.

(** The five checks of business rule 3, each on the running count and
    reasons. *)
Definition tally : Type := nat * list string.

Definition count_if (hit : bool) (reason : string) (t : tally) : tally :=
  if hit then (S (fst t), snd t ++ [reason]) else t.

Definition check_unusual_hour (transaction_data : dict) (t : tally) : tally :=
  count_if (py_eq (get transaction_data "is_unusual_hour" (VInt 0)) (VInt 1))
    "Unusual transaction hour" t.

Definition check_new_device (transaction_data : dict) (t : tally) : tally :=
  count_if (py_ne (get transaction_data "device_id" VNone)
                  (get transaction_data "preferred_device" VNone))
    "New/different device" t.

Definition check_location (transaction_data : dict) (t : tally) : res tally :=
  let* far := py_gt (get transaction_data "geo_distance_from_last_txn" (VInt 0)) (VInt 100) in
  Ok (count_if far "Distant location" t).

Definition check_frequency (transaction_data : dict) (t : tally) : res tally :=
  let* often := py_gt (get transaction_data "transaction_frequency_last_24h" (VInt 0)) (VInt 10) in
  Ok (count_if often "High transaction frequency" t).

Definition check_receiver (transaction_data : dict) (t : tally) : res tally :=
  let* risky := py_gt (get transaction_data "receiver_fraud_reports" (VInt 0)) (VInt 3) in
  Ok (count_if risky "High-risk receiver" t).

Definition count_risk_indicators (transaction_data : dict) (reasoning : list string)
    : res tally :=
  let t := check_unusual_hour transaction_data (0, reasoning) in
  let t := check_new_device transaction_data t in
  let* t := check_location transaction_data t in
  let* t := check_frequency transaction_data t in
  check_receiver transaction_data t.

(** Business rule 3: several high-risk indicators. *)
Definition business_rule_3 (transaction_data : dict) (st : rule_state)
    : res rule_state :=
  let '(final_action, reasoning) := st in
  let* (risk_indicators, reasoning) := count_risk_indicators transaction_data reasoning in
  if (3 <=? risk_indicators)%nat && String.eqb final_action "ALLOW"
  then Ok ("VERIFY",
           reasoning ++ ["Multiple risk indicators (" +:+ pretty risk_indicators +:+ ")"])
  else if (4 <=? risk_indicators)%nat && String.eqb final_action "VERIFY"
  then Ok ("BLOCK",
           reasoning ++ ["Too many risk indicators (" +:+ pretty risk_indicators +:+ ")"])
  else Ok (final_action, reasoning).

(** Business rule 4: VIP protection. *)
Definition business_rule_4 (transaction_data : dict) (st : rule_state) : rule_state :=
  let '(final_action, reasoning) := st in
  let user_type := get transaction_data "user_type" (VStr "regular") in
  if py_eq user_type (VStr "vip") && String.eqb final_action "BLOCK"
  then ("VERIFY", reasoning ++ ["VIP user - downgraded to verification"])
  else st.

(** Business rule 5: micro transactions during the night. *)
Definition business_rule_5 (transaction_data : dict) (amount : value)
    (st : rule_state) : res rule_state :=
  let '(final_action, reasoning) := st in
  let transaction_hour := get transaction_data "transaction_time" (VInt 12) in
  let* micro := py_lt amount (VInt 50) in
  let* night :=
    (if micro then
       let* early := py_le transaction_hour (VInt 5) in
       if early then Ok true else py_ge transaction_hour (VInt 23)
     else Ok false) in
  if night && String.eqb final_action "ALLOW"
  then Ok ("VERIFY", reasoning ++ ["Micro transaction during night hours"])
  else Ok st.

(** [f"{fraud_score:.4f}"]; the score is a number when this runs. *)
Definition format_score (fraud_score : value) : string :=
  match as_num fraud_score with
  | Some x => format_4f x
  | None => str_number fraud_score
  end.

Definition _apply_business_rules (base_action : string) (fraud_score : value)
    (transaction_data : option dict) : res (string * string) :=
  let reasoning := ["Fraud score: " +:+ format_score fraud_score] in
  let final_action := base_action in
  match transaction_data with
  | None =>
      Ok (final_action, join " | " (reasoning ++ ["Base action: " +:+ base_action]))
  | Some td =>
      let amount := get td "amount" (VInt 0) in
      let avg_amount := get td "avg_amount_last_week" (VInt 0) in
      let* st := business_rule_1 amount avg_amount (final_action, reasoning) in
      let* st := business_rule_2 td amount st in
      let* st := business_rule_3 td st in
      let st := business_rule_4 td st in
      let* (final_action, reasoning) := business_rule_5 td amount st in
      Ok (final_action,
          join " | " (reasoning ++ ["Final action: " +:+ final_action]))
  end.

Definition _calculate_confidence (thresholds : dict) (fraud_score : value) : res num :=
  let* allow := getitem thresholds "allow" in
  let* d_allow := py_sub fraud_score allow in
  let* d_allow := py_abs d_allow in
  let* block := getitem thresholds "block" in
  let* d_block := py_sub fraud_score block in
  let* d_block := py_abs d_block in
  let* min_distance := py_min_list d_allow [d_block] in
  let* ratio := py_div_pos min_distance (2 # 10) in
  let confidence := py_min (Fin 1) ratio in
  Ok (py_round confidence 3).

(** [round(fraud_score, 4)] of a number. *)
Definition round_score (fraud_score : value) : num :=
  match as_num fraud_score with
  | Some x => py_round x 4
  | None => NaN
  end.

Definition make_decision (thresholds : dict) (fraud_score : value)
    (transaction_data : option dict) : res decision :=
  if negb (is_number fraud_score)
  then Raise (ValueError "Fraud score must be a number")
  else
    let* below := py_lt fraud_score (VInt 0) in
    let* above := (if below then Ok true else py_gt fraud_score (VInt 1)) in
    if above
    then Raise (ValueError ("Fraud score must be between 0 and 1, got "
                              +:+ str_number fraud_score))
    else
      let* base_action := _get_base_action thresholds fraud_score in
      let* risk_level := _get_risk_level fraud_score in
      let* (final_action, reasoning) :=
        _apply_business_rules base_action fraud_score transaction_data in
      let* confidence := _calculate_confidence thresholds fraud_score in
      Ok {| d_fraud_score := round_score fraud_score;
            d_risk_level := risk_level;
            d_action := final_action;
            d_reasoning := reasoning;
            d_timestamp := now_iso;
            d_confidence := confidence |}.

(** [0 <= value <= 1] on a number *)
Definition in_unit_interval (x : num) : bool :=
  num_leb (Fin 0) x && num_leb x (Fin 1).

(** [isinstance(v, (int, float)) and 0 <= v <= 1] *)
Definition number_in_unit (v : value) : bool :=
  is_number v &&
  match as_num v with
  | Some x => in_unit_interval x
  | None => false
  end.

(** The loop of [_validate_thresholds]: every supplied key that is a key of
    the current thresholds holds a number in [0, 1]. *)
Definition known_keys_valid (current supplied : dict) : bool :=
  forallb
    (fun '(key, v) => if contains current key then number_in_unit v else true)
    (map_to_list supplied).

(** [d.copy()] followed by [update(new)]: the keys of [new] win. *)
Definition updated (current new : dict) : dict := new ∪ current.

Definition _validate_thresholds (current : dict) (thresholds : payload) : res bool :=
  match thresholds with
  | PValue _ => Ok false
  | PDict supplied =>
      if negb (known_keys_valid current supplied) then Ok false
      else
        let test_thresholds := updated current supplied in
        let* allow := getitem test_thresholds "allow" in
        let* block := getitem test_thresholds "block" in
        py_lt allow block
  end.

(** [update_thresholds] returns its answer and the thresholds it leaves
    behind; an exception leaves them as they were. *)
Definition update_thresholds (current : dict) (new_thresholds : payload)
    : res bool * dict :=
  match _validate_thresholds current new_thresholds with
  | Ok true =>
      match new_thresholds with
      | PDict supplied => (Ok true, updated current supplied)
      | PValue _ => (Ok true, current)
      end
  | Ok false => (Ok false, current)
  | Raise e => (Raise e, current)
  end.

Definition get_threshold_info (current : dict)
    : dict * list (string * risk_band) :=
  (current, RISK_LEVELS).

End Engine.

(** ** The action processor ([FraudActionProcessor]) *)

(** The response dict; the keys only some branches set are options. *)
Record action_response : Type := {
  ar_status : string;
  ar_action : string;
  ar_message : string;
  ar_user_message : string;
  ar_next_steps : list string;
  ar_verification_methods : option (list string);
  ar_support_reference : option string;
  ar_fraud_score : option num;
  ar_risk_level : option string
}.

Section ActionProcessor.

(** [datetime.now().strftime('%Y%m%d%H%M%S')] *)
Variable now_stamp : string.

Definition _process_allow (decision_result : decision) : action_response :=
  {| ar_status := "success";
     ar_action := "ALLOW";
     ar_message := "Transaction approved successfully";
     ar_user_message := "Your transaction has been processed";
     ar_next_steps := ["complete_transaction"];
     ar_verification_methods := None;
     ar_support_reference := None;
     ar_fraud_score := Some (d_fraud_score decision_result);
     ar_risk_level := Some (d_risk_level decision_result) |}.

Definition _process_verify (decision_result : decision) : action_response :=
  {| ar_status := "pending";
     ar_action := "VERIFY";
     ar_message := "Additional verification required";
     ar_user_message := "Please complete additional verification for security";
     ar_next_steps := ["send_otp"; "request_verification"];
     ar_verification_methods := Some ["SMS_OTP"; "EMAIL_OTP"; "BIOMETRIC"];
     ar_support_reference := None;
     ar_fraud_score := Some (d_fraud_score decision_result);
     ar_risk_level := Some (d_risk_level decision_result) |}.

Definition _process_block (decision_result : decision) : action_response :=
  {| ar_status := "blocked";
     ar_action := "BLOCK";
     ar_message := "Transaction blocked due to security concerns";
     ar_user_message :=
       "Transaction could not be processed. Please contact customer support if you believe this is an error.";
     ar_next_steps := ["contact_support"; "manual_review"];
     ar_verification_methods := None;
     ar_support_reference := Some ("REF-" +:+ now_stamp);
     ar_fraud_score := Some (d_fraud_score decision_result);
     ar_risk_level := Some (d_risk_level decision_result) |}.

Definition _process_unknown (decision_result : decision) : action_response :=
  {| ar_status := "error";
     ar_action := "UNKNOWN";
     ar_message := "Unable to process transaction";
     ar_user_message := "Technical error occurred. Please try again later.";
     ar_next_steps := ["retry_later"; "contact_support"];
     ar_verification_methods := None;
     ar_support_reference := None;
     ar_fraud_score := Some (d_fraud_score decision_result);
     ar_risk_level := Some (d_risk_level decision_result) |}.

Definition process_action (decision_result : decision) : action_response :=
  let action := d_action decision_result in
  if String.eqb action "ALLOW" then _process_allow decision_result
  else if String.eqb action "VERIFY" then _process_verify decision_result
  else if String.eqb action "BLOCK" then _process_block decision_result
  else _process_unknown decision_result.

End ActionProcessor.

(** ** The pipeline ([FraudDetectionPipeline]) *)

(** What [predict_fraud] returns: the combined result, or the error
    response. *)
Inductive pipeline_result : Type :=
  | FinalResult (transaction_id : value) (fraud_detection : decision)
      (response : action_response) (processing_time : string)
  | ErrorResponse (transaction_id : value) (status : string) (error : string)
      (response : action_response) (processing_time : string).

Definition result_transaction_id (r : pipeline_result) : value :=
  match r with
  | FinalResult tid _ _ _ | ErrorResponse tid _ _ _ _ => tid
  end.

(** [result['action_response']] *)
Definition result_response (r : pipeline_result) : action_response :=
  match r with
  | FinalResult _ _ a _ | ErrorResponse _ _ _ a _ => a
  end.

Definition is_error_response (r : pipeline_result) : bool :=
  match r with
  | ErrorResponse _ _ _ _ _ => true
  | FinalResult _ _ _ _ => false
  end.

(** The pipeline object: whether its models loaded, and the thresholds of
    its decision engine. *)
Record pipeline : Type := {
  is_loaded : bool;
  thresholds : dict
}.

(** Transactions are objects the caller owns: a batch is a list of
    references into a store of dicts, so that what [batch_predict] writes
    into an item is visible to the caller. *)
Abbreviation loc := nat.
Abbreviation store := (loc → dict).

Section Pipeline.

Variable float_repr : num → string.
Variable now_iso : string.
Variable now_stamp : string.

(** The collaborators: the preprocessor maps a transaction to a feature
    vector, the model maps the feature vector to [float(...[0])] of its
    probabilities; either may raise instead. *)
Variable features : Type.
Variable preprocess_single_transaction : dict → res features.
Variable predict_fraud_probability : features → res num.

Definition required_fields : list string :=
  ["sender_id"; "receiver_id"; "amount"; "transaction_time"; "device_id"; "ip_address"].

(** [repr] of a list of strings *)
Definition repr_str_list (l : list string) : string :=
  "[" +:+ join ", " (map (fun s => "'" +:+ s +:+ "'") l) +:+ "]".

Definition _validate_transaction_data (transaction_data : dict) : res unit :=
  let missing_fields :=
    List.filter (fun field => negb (contains transaction_data field)) required_fields in
  match missing_fields with
  | _ :: _ =>
      Raise (ValueError ("Missing required fields: " +:+ repr_str_list missing_fields))
  | [] =>
      let* amount := getitem transaction_data "amount" in
      let* bad := (if negb (is_number amount) then Ok true else py_le amount (VInt 0)) in
      if bad then Raise (ValueError "Amount must be a positive number")
      else
        let* hour := getitem transaction_data "transaction_time" in
        let* lo := py_le (VInt 0) hour in
        let* inside := (if lo then py_le hour (VInt 23) else Ok false) in
        if negb inside
        then Raise (ValueError "Transaction time must be between 0 and 23")
        else Ok tt
  end.

Definition _create_error_response (error_message : string) (transaction_data : dict)
    : pipeline_result :=
  ErrorResponse
    (get transaction_data "transaction_id" (VStr "unknown"))
    "error"
    error_message
    {| ar_status := "error";
       ar_action := "BLOCK";
       ar_message := "Unable to process transaction due to technical error";
       ar_user_message := "Transaction could not be processed. Please try again later.";
       ar_next_steps := ["retry_later"; "contact_support"];
       ar_verification_methods := None;
       ar_support_reference := None;
       ar_fraud_score := None;
       ar_risk_level := None |}
    now_iso.

(** [max(0.0, min(1.0, float(fraud_score)))] *)
Definition clamp_score (fraud_score : num) : num :=
  py_max (Fin 0) (py_min (Fin 1) fraud_score).

(** The body of the [try] block of [predict_fraud]. *)
Definition predict_fraud_steps (p : pipeline) (transaction_data : dict)
    : res pipeline_result :=
  let* _ := _validate_transaction_data transaction_data in
  let* X_processed := preprocess_single_transaction transaction_data in
  let* fraud_score := predict_fraud_probability X_processed in
  let fraud_score := clamp_score fraud_score in
  let* decision_result :=
    make_decision float_repr now_iso (thresholds p) (VFloat fraud_score)
      (Some transaction_data) in
  let action_response := process_action now_stamp decision_result in
  Ok (FinalResult
        (get transaction_data "transaction_id" (VStr "unknown"))
        decision_result action_response now_iso).

Definition predict_fraud (p : pipeline) (transaction_data : dict)
    : res pipeline_result :=
  if negb (is_loaded p)
  then Raise (RuntimeError "Fraud detection pipeline not properly loaded")
  else
    match predict_fraud_steps p transaction_data with
    | Ok final_result => Ok final_result
    | Raise e => Ok (_create_error_response (str_exn e) transaction_data)
    end.

(** [f"BATCH_{i+1:04d}"] *)
Definition batch_id (i : nat) : string := "BATCH_" +:+ zfill 4 (pretty (i + 1)%nat).

(** The first statement of the loop body of [batch_predict]: the item gets
    a transaction id when it has none. *)
Definition add_transaction_id (i : nat) (transaction : dict) : dict :=
  if contains transaction "transaction_id" then transaction
  else <["transaction_id" := VStr (batch_id i)]> transaction.

(** The rest of the loop body: the result appended for the item. *)
Definition batch_item (p : pipeline) (transaction : dict) : pipeline_result :=
  match predict_fraud p transaction with
  | Ok result => result
  | Raise e => _create_error_response (str_exn e) transaction
  end.

(** The loop of [batch_predict] from index [i] on: the results in order,
    and the store it leaves. *)
Fixpoint batch_loop (p : pipeline) (i : nat) (transactions_list : list loc)
    (σ : store) : list pipeline_result * store :=
  match transactions_list with
  | [] => ([], σ)
  | l :: rest =>
      let σ1 := <[l := add_transaction_id i (σ l)]> σ in
      let result := batch_item p (σ1 l) in
      let '(results, σ2) := batch_loop p (S i) rest σ1 in
      (result :: results, σ2)
  end.

Definition batch_predict (p : pipeline) (transactions_list : list loc) (σ : store)
    : list pipeline_result * store :=
  batch_loop p 0 transactions_list σ.

(** [FraudDetectionPipeline.update_thresholds] *)
Definition pipeline_update_thresholds (p : pipeline) (new_thresholds : payload)
    : res bool * pipeline :=
  let '(answer, current) := update_thresholds (thresholds p) new_thresholds in
  (answer, {| is_loaded := is_loaded p; thresholds := current |}).

End Pipeline.

(** ** The sample transaction ([create_sample_transaction]) *)

(** [now_stamp], [now_hour] and [now_text] are
    [datetime.now().strftime('%Y%m%d%H%M%S')], [datetime.now().hour] and
    [datetime.now().strftime('%Y-%m-%d %H:%M:%S')]. *)
Definition create_sample_transaction (now_stamp : string) (now_hour : Z)
    (now_text : string) : dict :=
  list_to_map
    [ ("transaction_id", VStr ("TXN_" +:+ now_stamp));
      ("sender_id", VStr "user_123@upi");
      ("receiver_id", VStr "merchant_456@upi");
      ("amount", VFloat (Fin 2500));
      ("transaction_time", VInt now_hour);
      ("transaction_frequency_last_24h", VInt 3);
      ("avg_amount_last_week", VFloat (Fin 2000));
      ("transaction_type", VStr "Send");
      ("device_id", VStr "device_123");
      ("os_version", VStr "Android_13");
      ("ip_address", VStr "192.168.1.100");
      ("current_latitude", VFloat (Fin (286139 # 10000)));
      ("current_longitude", VFloat (Fin (772090 # 10000)));
      ("geo_distance_from_last_txn", VFloat (Fin (52 # 10)));
      ("receiver_age_days", VInt 365);
      ("receiver_fraud_reports", VInt 0);
      ("unique_senders_to_receiver", VInt 150);
      ("time_between_upi_open_and_pay", VFloat (Fin 25));
      ("otp_entry_delay", VFloat (Fin 12));
      ("is_unusual_hour", VInt 0);
      ("amount_deviation_from_avg", VFloat (Fin (25 # 100)));
      ("timestamp", VStr now_text) ].

(** * Vocabulary of the properties *)

(** ** Scores, bands and confidence *)

(** The range check of [make_decision], as a boolean on a number. *)
Definition out_of_range (x : num) : bool := num_ltb x (Fin 0) || num_ltb (Fin 1) x.

(** The value of the double a decimal denotes (0 beyond the doubles). *)
Definition double_value (q : Q) : Q :=
  match to_double q with
  | Fin d => d
  | _ => 0
  end.

(** The significand [to_double] computes for a number. *)
Definition significand (q : Q) : Z := round_half_even (q / 2 ^ ulp_exponent q).

(** What the engine makes of a score under the default thresholds: its base
    action (the action before the business rules run, which is the action
    of the decision when there is no transaction context) and its risk
    level (the one of the decision whatever the context). *)
Definition decided_as (float_repr : num → string) (now_iso : string)
    (score : value) (action level : string) : Prop :=
  _get_base_action FRAUD_THRESHOLDS score = Ok action ∧
  _get_risk_level score = Ok level ∧
  (∃ r, make_decision float_repr now_iso FRAUD_THRESHOLDS score None = Ok r ∧
        d_action r = action ∧ d_risk_level r = level) ∧
  (∀ ctx r, make_decision float_repr now_iso FRAUD_THRESHOLDS score ctx = Ok r →
            d_risk_level r = level).

(** A computation that does not end in a [ValueError]. *)
Definition no_value_error {A : Type} (m : res A) : Prop :=
  ∀ msg, m ≠ Raise (ValueError msg).

(** The distance of a score to the nearer threshold. *)
Definition threshold_distance (s allow block : Q) : Q :=
  Qmin (Qabs (s - allow)) (Qabs (s - block)).

Definition Qclamp (x lo hi : Q) : Q := Qmin (Qmax x lo) hi.

(** The confidence as the specification words it, before it is rounded:
    that distance divided by 0.2, clamped to [0, 1]. *)
Definition spec_confidence (s allow block : Q) : Q :=
  Qclamp (threshold_distance s allow block / (2 # 10)) 0 1.

(** [c] is a decimal with [n] places nearest to [x]; and [c] is [x] rounded
    to [n] places, which settles a tie for the even last digit. *)
Definition nearest_decimal (n : nat) (x c : Q) : Prop :=
  ∃ k : Z, (c == inject_Z k / inject_Z (10 ^ Z.of_nat n))%Q ∧
           (Qabs (c - x) <= 1 # 2 * Pos.of_nat (10 ^ n))%Q.

Definition rounded_to (n : nat) (x c : Q) : Prop :=
  ∃ k : Z, (c == inject_Z k / inject_Z (10 ^ Z.of_nat n))%Q ∧
           (Qabs (c - x) <= 1 # 2 * Pos.of_nat (10 ^ n))%Q ∧
           ((Qabs (c - x) == 1 # 2 * Pos.of_nat (10 ^ n))%Q → Z.even k = true).

(** The double the engine computes for the confidence before it rounds it
    to three decimals, from the decimals that hold the score and the two
    thresholds. *)
Definition confidence_double (s allow block : Q) : Q :=
  Qmin 1
    (double_value
       (double_value
          (threshold_distance (double_value s) (double_value allow) (double_value block))
        / double_value (2 # 10))).

(** A number of the unit interval. *)
Definition unit_number (v : value) (q : Q) : Prop :=
  as_num v = Some (Fin q) ∧ (0 <= q <= 1)%Q.

(** Thresholds whose [allow] and [block] are numbers of the unit interval,
    as [update_thresholds] keeps them. *)
Definition unit_thresholds (thresholds : dict) : Prop :=
  ∃ va vb a b, thresholds !! "allow" = Some va ∧ unit_number va a ∧
               thresholds !! "block" = Some vb ∧ unit_number vb b.

(** ** Business rules *)

(** How a rule may move the action: it keeps it, or raises it one step. *)
Definition keeps_or_escalates (a a' : string) : Prop :=
  a' = a ∨ (a = "ALLOW" ∧ a' = "VERIFY") ∨ (a = "VERIFY" ∧ a' = "BLOCK").

(** A rule whose only move is from ALLOW to VERIFY. *)
Definition keeps_or_verifies (a a' : string) : Prop :=
  a' = a ∨ (a = "ALLOW" ∧ a' = "VERIFY").

(** The number of signals that are set. *)
Definition count_true (signals : list bool) : nat :=
  length (List.filter (fun b : bool => b) signals).

(** The two signals that cannot raise. *)
Definition unusual_hour_signal (td : dict) : bool :=
  py_eq (get td "is_unusual_hour" (VInt 0)) (VInt 1).

Definition device_signal (td : dict) : bool :=
  py_ne (get td "device_id" VNone) (get td "preferred_device" VNone).

(** ** Thresholds *)

(** The thresholds a well-formed engine holds: [allow] and [block] are
    numbers. *)
Definition numeric_thresholds (current : dict) : Prop :=
  ∃ va vb a b, current !! "allow" = Some va ∧ as_num va = Some a ∧
               current !! "block" = Some vb ∧ as_num vb = Some b.

(** The resulting configuration has [allow < block]. *)
Definition ordered (thresholds : dict) : Prop :=
  ∃ va vb a b, thresholds !! "allow" = Some va ∧ as_num va = Some a ∧
               thresholds !! "block" = Some vb ∧ as_num vb = Some b ∧
               num_ltb a b = true.

(** The keys of the payload that the validation looks at hold numbers in
    [0, 1]. *)
Definition known_keys_in_unit (current supplied : dict) : Prop :=
  ∀ k v, supplied !! k = Some v → is_Some (current !! k) → number_in_unit v = true.

(** ** Pipeline and batches *)

Section Failures.

Variable float_repr : num → string.
Variable now_iso : string.
Variable features : Type.
Variable preprocess_single_transaction : dict → res features.
Variable predict_fraud_probability : features → res num.

(** A step of the [try] block raises [e]: the validation, the
    preprocessor, the model, or the decision engine on the clamped score. *)
Inductive step_fails (p : pipeline) (td : dict) (e : exn) : Prop :=
  | validation_fails :
      _validate_transaction_data td = Raise e → step_fails p td e
  | preprocessing_fails :
      _validate_transaction_data td = Ok tt →
      preprocess_single_transaction td = Raise e → step_fails p td e
  | scoring_fails (X : features) :
      _validate_transaction_data td = Ok tt →
      preprocess_single_transaction td = Ok X →
      predict_fraud_probability X = Raise e → step_fails p td e
  | decision_fails (X : features) (fraud_score : num) :
      _validate_transaction_data td = Ok tt →
      preprocess_single_transaction td = Ok X →
      predict_fraud_probability X = Ok fraud_score →
      make_decision float_repr now_iso (thresholds p) (VFloat (clamp_score fraud_score))
        (Some td) = Raise e →
      step_fails p td e.

End Failures.

(** The error message an error response carries. *)
Definition result_error (r : pipeline_result) : option string :=
  match r with
  | ErrorResponse _ _ error _ _ => Some error
  | FinalResult _ _ _ _ => None
  end.

(** The position of the first occurrence of an object in a batch. *)
Fixpoint first_index (l : loc) (items : list loc) : nat :=
  match items with
  | [] => 0
  | x :: rest => if decide (x = l) then 0 else S (first_index l rest)
  end.





(** ** Sample data *)

(** The VIP transaction of the demo's fifth scenario, reduced to the keys
    the engine reads. *)
Definition vip_transaction : dict :=
  <["amount" := VFloat (Fin 25000)]>
    (<["avg_amount_last_week" := VFloat (Fin 2000)]>
       (<["transaction_time" := VInt 1]>
          (<["receiver_age_days" := VInt 5]>
             (<["receiver_fraud_reports" := VInt 3]>
                (<["user_type" := VStr "vip"]>
                   (<["geo_distance_from_last_txn" := VFloat (Fin 100)]>
                      (<["is_unusual_hour" := VInt 1]>
                         (<["device_id" := VStr "device_123"]> ∅)))))))).

(** The context of the engine's test for several risk indicators: four of
    the five signals are set (the device signal is not). *)
Definition four_indicator_context : dict :=
  <["amount" := VInt 5000]>
    (<["avg_amount_last_week" := VInt 2000]>
       (<["is_unusual_hour" := VInt 1]>
          (<["geo_distance_from_last_txn" := VInt 150]>
             (<["transaction_frequency_last_24h" := VInt 12]>
                (<["receiver_fraud_reports" := VInt 5]>
                   (<["receiver_age_days" := VInt 30]> ∅)))))).

(** A transaction with the required fields only: it has a device id and no
    preferred device. *)
Definition plain_transaction : dict :=
  <["sender_id" := VStr "user_123@upi"]>
    (<["receiver_id" := VStr "merchant_456@upi"]>
       (<["amount" := VFloat (Fin 2500)]>
          (<["avg_amount_last_week" := VFloat (Fin 2000)]>
             (<["transaction_time" := VInt 14]>
                (<["device_id" := VStr "device_123"]>
                   (<["ip_address" := VStr "192.168.1.100"]> ∅)))))).

(** A loaded pipeline with the default thresholds. *)
Definition default_pipeline : pipeline :=
  {| is_loaded := true; thresholds := FRAUD_THRESHOLDS |}.

(** A store in which every object is the plain transaction, which has no
    transaction id. *)
Definition plain_store : store := fun _ => plain_transaction.

(** ** Actions and their order *)

(** The three actions the engine works with. *)
Definition valid_action (a : string) : Prop :=
  a = "ALLOW" ∨ a = "VERIFY" ∨ a = "BLOCK".

(** The three names of risk bands. *)
Definition valid_level (l : string) : Prop :=
  l = "LOW" ∨ l = "MEDIUM" ∨ l = "HIGH".

(** ALLOW < VERIFY < BLOCK *)
Definition severity (a : string) : nat :=
  if String.eqb a "ALLOW" then 0 else if String.eqb a "VERIFY" then 1 else 2.

(** The context does not name a VIP user: there is no context, or its
    [user_type] does not equal "vip". *)
Definition not_vip (ctx : option dict) : Prop :=
  match ctx with
  | None => True
  | Some td => py_eq (get td "user_type" (VStr "regular")) (VStr "vip") = false
  end.

(** The moves of the rules on an action, as functions of what the rule
    found in the context: rules 1, 2 and 5 raise ALLOW to VERIFY when their
    condition holds, rule 3 works on the number of indicators, rule 4 on
    whether the user is a VIP. *)
Definition step_up (fired : bool) (a : string) : string :=
  if fired && String.eqb a "ALLOW" then "VERIFY" else a.

Definition tally_step (n : nat) (a : string) : string :=
  if (3 <=? n)%nat && String.eqb a "ALLOW" then "VERIFY"
  else if (4 <=? n)%nat && String.eqb a "VERIFY" then "BLOCK"
  else a.

Definition vip_step (vip : bool) (a : string) : string :=
  if vip && String.eqb a "BLOCK" then "VERIFY" else a.

Definition overlay (c1 c2 : bool) (n : nat) (vip c5 : bool) (a : string) : string :=
  step_up c5 (vip_step vip (tally_step n (step_up c2 (step_up c1 a)))).

(** The value of a computation, or a default when it raises. *)
Definition res_or {A : Type} (default : A) (m : res A) : A :=
  match m with
  | Ok a => a
  | Raise _ => default
  end.

(** What the five rules find in a context: the conditions of rules 1, 2
    and 5 as [_apply_business_rules] evaluates them, the number of risk
    indicators, and whether the user is a VIP. *)
Definition high_amount_fired (td : dict) : bool :=
  res_or false
    (let* limit := py_mul_int (get td "avg_amount_last_week" (VInt 0)) 5 in
     py_gt (get td "amount" (VInt 0)) limit).

Definition new_receiver_fired (td : dict) : bool :=
  res_or false
    (let* young := py_lt (get td "receiver_age_days" (VInt 365)) (VInt 7) in
     if young then py_gt (get td "amount" (VInt 0)) (VInt 10000) else Ok false).

Definition indicator_total (td : dict) : nat :=
  res_or 0%nat
    (let* t := count_risk_indicators td [] in Ok (fst t)).

Definition is_vip (td : dict) : bool :=
  py_eq (get td "user_type" (VStr "regular")) (VStr "vip").

Definition micro_night_fired (td : dict) : bool :=
  res_or false
    (let* micro := py_lt (get td "amount" (VInt 0)) (VInt 50) in
     if micro then
       let* early := py_le (get td "transaction_time" (VInt 12)) (VInt 5) in
       if early then Ok true else py_ge (get td "transaction_time" (VInt 12)) (VInt 23)
     else Ok false).

(** The final action for a base action, in a context on which no rule
    raises. *)
Definition context_overlay (td : dict) (base : string) : string :=
  overlay (high_amount_fired td) (new_receiver_fired td) (indicator_total td)
    (is_vip td) (micro_night_fired td) base.

(** The contexts of the engine's tests for rule 1 and rule 2, and a small
    payment at night. *)
Definition high_amount_context : dict :=
  <["amount" := VInt 10000]>
    (<["avg_amount_last_week" := VInt 1000]>
       (<["receiver_age_days" := VInt 100]>
          (<["receiver_fraud_reports" := VInt 0]> ∅))).

(** A context whose average, times five, is not a double: 200.04 * 5 is
    the float 1000.1999999999999, which the amount 1000.2 exceeds. *)
Definition rounded_limit_context : dict :=
  <["amount" := VFloat (Fin (10002 # 10))]>
    (<["avg_amount_last_week" := VFloat (Fin (20004 # 100))]> ∅).

(** Where the order of the held numbers is the order Python finds: two
    ints, two floats, or an int of at most 2^53 in magnitude next to a
    float.  Such an int is a double, so it sits on the same side of a float
    as of the decimal the float is held as; a larger int need not. *)
Definition compared_exactly (a b : value) : Prop :=
  match as_int a, as_int b with
  | Some z, None | None, Some z => (Z.abs z <= 2 ^ 53)%Z
  | _, _ => True
  end.

Definition new_receiver_context : dict :=
  <["amount" := VInt 15000]>
    (<["avg_amount_last_week" := VInt 4000]>
       (<["receiver_age_days" := VInt 5]>
          (<["receiver_fraud_reports" := VInt 0]> ∅))).

Definition micro_night_context : dict :=
  <["amount" := VFloat (Fin 5)]>
    (<["avg_amount_last_week" := VFloat (Fin 2000)]>
       (<["transaction_time" := VInt 2]> ∅)).

(** A response that reports a decision: its action, score and risk level,
    a support reference exactly for a BLOCK and verification methods
    exactly for a VERIFY. *)
Definition reports (a : action_response) (d : decision) : Prop :=
  ar_action a = d_action d ∧
  ar_fraud_score a = Some (d_fraud_score d) ∧
  ar_risk_level a = Some (d_risk_level d) ∧
  (is_Some (ar_support_reference a) ↔ d_action d = "BLOCK") ∧
  (is_Some (ar_verification_methods a) ↔ d_action d = "VERIFY").

(** The status that goes with an action. *)
Definition status_of (action : string) : string :=
  if String.eqb action "ALLOW" then "success"
  else if String.eqb action "VERIFY" then "pending"
  else if String.eqb action "BLOCK" then "blocked"
  else "error".

(** The decision a final result carries. *)
Definition result_decision (r : pipeline_result) : option decision :=
  match r with
  | FinalResult _ d _ _ => Some d
  | ErrorResponse _ _ _ _ _ => None
  end.

(** A pipeline whose models did not load. *)
Definition unloaded_pipeline : pipeline :=
  {| is_loaded := false; thresholds := FRAUD_THRESHOLDS |}.

(** What [_validate_transaction_data] accepts: the six required keys are
    present, the amount is a number that is not [<= 0], and the hour is
    between 0 and 23. *)
Definition accepted_transaction (td : dict) : Prop :=
  (∀ field, field ∈ required_fields → is_Some (td !! field)) ∧
  ∃ amount hour,
    td !! "amount" = Some amount ∧ is_number amount = true ∧
    py_le amount (VInt 0) = Ok false ∧
    td !! "transaction_time" = Some hour ∧
    py_le (VInt 0) hour = Ok true ∧ py_le hour (VInt 23) = Ok true.

(** Sound thresholds: [allow] and [block] are numbers of [0, 1] with
    allow < block. *)
Definition sound_thresholds (thresholds : dict) : Prop :=
  ∃ va vb a b, thresholds !! "allow" = Some va ∧ as_num va = Some a ∧
               thresholds !! "block" = Some vb ∧ as_num vb = Some b ∧
               in_unit_interval a = true ∧ in_unit_interval b = true ∧
               num_ltb a b = true.


(** The keys of a context that the rules compare with numbers. *)
Definition numeric_keys : list string :=
  ["amount"; "avg_amount_last_week"; "receiver_age_days"; "geo_distance_from_last_txn";
   "transaction_frequency_last_24h"; "receiver_fraud_reports"; "transaction_time"].

(** A context in which each of these keys is absent or holds a number. *)
Definition numeric_context (td : dict) : Prop :=
  ∀ k v, k ∈ numeric_keys → td !! k = Some v → is_number v = true.

(** The reasons the five checks of rule 3 give. *)
Definition indicator_reasons : list string :=
  ["Unusual transaction hour"; "New/different device"; "Distant location";
   "High transaction frequency"; "High-risk receiver"].
(** * Properties *)

(** ** Numbers and comparisons *)

Lemma Qlt_bool_iff (x y : Q) : Qlt_bool x y = true ↔ (x < y)%Q.
Proof.
  unfold Qlt_bool. rewrite negb_true_iff.
  destruct (Qle_bool y x) eqn:E.
  - apply Qle_bool_iff in E. split; [discriminate | intros H; lra].
  - split; [intros _ | reflexivity].
    destruct (Qlt_le_dec x y) as [H | H]; [exact H |].
    apply Qle_bool_iff in H. congruence.
Qed.

Lemma Qlt_bool_false (x y : Q) : Qlt_bool x y = false ↔ (y <= x)%Q.
Proof.
  unfold Qlt_bool. rewrite negb_false_iff. apply Qle_bool_iff.
Qed.

Lemma Qle_bool_false (x y : Q) : Qle_bool x y = false ↔ (y < x)%Q.
Proof.
  rewrite <- Qlt_bool_iff. unfold Qlt_bool.
  destruct (Qle_bool x y); simpl; split; congruence.
Qed.

Lemma as_num_is_number (v : value) (x : num) : as_num v = Some x → is_number v = true.
Proof. destruct v; simpl; congruence. Qed.

Lemma is_number_as_num (v : value) : is_number v = true → ∃ x, as_num v = Some x.
Proof. destruct v; simpl; try discriminate; eauto. Qed.

Lemma py_compare_num op fnum fstr (a b : value) (x y : num) :
  as_num a = Some x → as_num b = Some y →
  py_compare op fnum fstr a b = Ok (fnum x y).
Proof. intros Ha Hb. unfold py_compare. rewrite Ha, Hb. reflexivity. Qed.

Lemma py_lt_num (a b : value) (x y : num) :
  as_num a = Some x → as_num b = Some y → py_lt a b = Ok (num_ltb x y).
Proof. apply py_compare_num. Qed.

Lemma py_le_num (a b : value) (x y : num) :
  as_num a = Some x → as_num b = Some y → py_le a b = Ok (num_leb x y).
Proof. apply py_compare_num. Qed.

Lemma py_gt_num (a b : value) (x y : num) :
  as_num a = Some x → as_num b = Some y → py_gt a b = Ok (num_ltb y x).
Proof. apply (py_compare_num ">" (fun x y => num_ltb y x)). Qed.

(** ** Rounding *)

Lemma round_half_even_cases (q : Q) :
  let f := Qfloor q in
  (inject_Z f <= q ∧ q < inject_Z f + 1)%Q ∧
  ((round_half_even q = f ∧ (q - inject_Z f <= 1 # 2)%Q) ∨
   (round_half_even q = (f + 1)%Z ∧ (1 # 2 <= q - inject_Z f)%Q)).
Proof.
  intros f. pose proof (Qfloor_le q) as Hlo. pose proof (Qlt_floor q) as Hhi.
  fold f in Hlo, Hhi. rewrite inject_Z_plus in Hhi. change (inject_Z 1) with 1%Q in Hhi.
  split; [split; assumption |].
  unfold round_half_even. fold f.
  destruct (Qcompare_spec (q - inject_Z f) (1 # 2)) as [He | Hl | Hg].
  - destruct (Z.even f); [left | right]; split; trivial; lra.
  - left. split; [reflexivity | lra].
  - right. split; [reflexivity | lra].
Qed.

Lemma round_half_even_comp (x y : Q) : (x == y)%Q → round_half_even x = round_half_even y.
Proof.
  intros H. unfold round_half_even. rewrite (Qfloor_comp x y H).
  assert (Hc : ((x - inject_Z (Qfloor y) ?= 1 # 2) = (y - inject_Z (Qfloor y) ?= 1 # 2))%Q)
    by (apply Qcompare_comp; [rewrite H |]; reflexivity).
  rewrite Hc. reflexivity.
Qed.

Lemma round_half_even_mono (x y : Q) :
  (x <= y)%Q → (round_half_even x <= round_half_even y)%Z.
Proof.
  intros H. pose proof (Qfloor_resp_le x y H) as Hf.
  destruct (round_half_even_cases x) as [[Hx1 Hx2] Hx].
  destruct (round_half_even_cases y) as [[Hy1 Hy2] Hy].
  destruct (Z.eq_dec (Qfloor x) (Qfloor y)) as [E | NE].
  - unfold round_half_even. rewrite <- E.
    destruct (Qcompare_spec (x - inject_Z (Qfloor x)) (1 # 2)) as [He | Hl | Hg];
      destruct (Qcompare_spec (y - inject_Z (Qfloor x)) (1 # 2)) as [He' | Hl' | Hg'];
      try destruct (Z.even (Qfloor x)); try lia; exfalso; lra.
  - destruct Hx as [[-> _] | [-> _]], Hy as [[-> _] | [-> _]]; lia.
Qed.

Lemma Qround_dec_comp (x y : Q) (n : nat) : (x == y)%Q → Qround_dec x n = Qround_dec y n.
Proof.
  intros H. unfold Qround_dec.
  rewrite (round_half_even_comp (x * inject_Z (pow10 n)) (y * inject_Z (pow10 n)));
    [reflexivity | rewrite H; reflexivity].
Qed.

Lemma pow10_pos (n : nat) : (0 < pow10 n)%Z.
Proof. unfold pow10. apply Z.pow_pos_nonneg; lia. Qed.

Lemma Qround_dec_mono (x y : Q) (n : nat) :
  (x <= y)%Q → (Qround_dec x n <= Qround_dec y n)%Q.
Proof.
  intros H. unfold Qround_dec.
  pose proof (pow10_pos n) as Hp.
  assert (Hq : (0 < inject_Z (pow10 n))%Q)
    by (change 0%Q with (inject_Z 0); rewrite <- Zlt_Qlt; exact Hp).
  apply Qmult_le_compat_r; [| apply Qlt_le_weak, Qinv_lt_0_compat; exact Hq].
  rewrite <- Zle_Qle. apply round_half_even_mono.
  apply Qmult_le_compat_r; [exact H | apply Qlt_le_weak; exact Hq].
Qed.

(** ** Doubles *)

(** *** Powers of two *)

Lemma pow2_pos (e : Z) : (0 < 2 ^ e)%Q.
Proof. apply Qpower_0_lt. reflexivity. Qed.

Lemma pow2_add (a b : Z) : (2 ^ (a + b) == 2 ^ a * 2 ^ b)%Q.
Proof. apply Qpower_plus. discriminate. Qed.

Lemma pow2_le (a b : Z) : (a <= b)%Z → (2 ^ a <= 2 ^ b)%Q.
Proof. intros H. apply Qpower_le_compat_l; [exact H | discriminate]. Qed.

Lemma pow2_lt (a b : Z) : (a < b)%Z → (2 ^ a < 2 ^ b)%Q.
Proof. intros H. apply Qpower_lt_compat_l; [exact H | reflexivity]. Qed.

Lemma pow2_lt_inv (a b : Z) : (2 ^ a < 2 ^ b)%Q → (a < b)%Z.
Proof.
  intros H. destruct (Z_lt_le_dec a b) as [Hlt | Hge]; [exact Hlt | exfalso].
  pose proof (pow2_le b a Hge). lra.
Qed.

Lemma pow2_Z (n : Z) : (0 <= n)%Z → (inject_Z (2 ^ n) == 2 ^ n)%Q.
Proof. intros H. apply (Zpower_Qpower 2 n H). Qed.

Lemma pow2_succ (a : Z) : (2 ^ (a + 1) == 2 * 2 ^ a)%Q.
Proof. rewrite pow2_add. change (2 ^ 1)%Q with 2%Q. ring. Qed.

Lemma pow2_pred (a : Z) : (2 ^ (a - 1) == 2 ^ a / 2)%Q.
Proof.
  assert (H : (2 ^ a == 2 * 2 ^ (a - 1))%Q).
  { rewrite <- pow2_succ. replace (a - 1 + 1)%Z with a by lia. reflexivity. }
  rewrite H. field.
Qed.

(** *** The binary logarithm *)

Lemma Qabs_num (q : Q) : (Qabs q * inject_Z (Zpos (Qden q)) == inject_Z (Z.abs (Qnum q)))%Q.
Proof.
  destruct q as [n d]. unfold Qabs, Qeq, Qmult, inject_Z. cbn. lia.
Qed.

Lemma Qlog2_spec (q : Q) :
  ¬ (q == 0)%Q → (2 ^ Qlog2 q <= Qabs q ∧ Qabs q < 2 ^ (Qlog2 q + 1))%Q.
Proof.
  intros Hq.
  set (n := Z.abs (Qnum q)). set (d := Zpos (Qden q)).
  assert (Hn : (0 < n)%Z).
  { unfold n. destruct q as [[| p | p] dd]; cbn; try lia. exfalso. apply Hq. reflexivity. }
  assert (Hd : (0 < d)%Z) by (unfold d; lia).
  destruct (Z.log2_spec n Hn) as [Hn1 Hn2]. destruct (Z.log2_spec d Hd) as [Hd1 Hd2].
  pose proof (Z.log2_nonneg n) as Hln. pose proof (Z.log2_nonneg d) as Hld.
  rewrite <- Z.add_1_r in Hn2, Hd2.
  rewrite Zle_Qle in Hn1. rewrite Zlt_Qlt in Hn2.
  rewrite (pow2_Z _ Hln) in Hn1. rewrite pow2_Z in Hn2 by lia.
  rewrite Zle_Qle in Hd1. rewrite Zlt_Qlt in Hd2.
  rewrite (pow2_Z _ Hld) in Hd1. rewrite pow2_Z in Hd2 by lia.
  pose proof (Qabs_num q) as Habs. fold n d in Habs.
  pose proof (Qabs_nonneg q) as Hnonneg.
  set (ln := Z.log2 n) in *. set (ld := Z.log2 d) in *.
  assert (Hupper : (Qabs q < 2 ^ (ln - ld + 1))%Q).
  { apply (Qmult_lt_r _ _ (2 ^ ld)); [apply pow2_pos |].
    rewrite <- pow2_add. replace (ln - ld + 1 + ld)%Z with (ln + 1)%Z by lia.
    apply (Qle_lt_trans _ (Qabs q * inject_Z d)); [| rewrite Habs; exact Hn2].
    rewrite !(Qmult_comm (Qabs q)). apply Qmult_le_compat_r; assumption. }
  assert (Hlower : (2 ^ (ln - ld - 1) <= Qabs q)%Q).
  { apply (Qmult_le_r _ _ (2 ^ (ld + 1))); [apply pow2_pos |].
    rewrite <- pow2_add. replace (ln - ld - 1 + (ld + 1))%Z with ln by lia.
    apply (Qle_trans _ (Qabs q * inject_Z d)); [rewrite Habs; exact Hn1 |].
    rewrite !(Qmult_comm (Qabs q)).
    apply Qmult_le_compat_r; [apply Qlt_le_weak; exact Hd2 | exact Hnonneg]. }
  unfold Qlog2. fold n d ln ld.
  destruct (Qle_bool (2 ^ (ln - ld)) (Qabs q)) eqn:E.
  - apply Qle_bool_iff in E. split; assumption.
  - split; [exact Hlower |]. replace (ln - ld - 1 + 1)%Z with (ln - ld)%Z by lia.
    apply Qnot_le_lt. intros H. apply Qle_bool_iff in H. congruence.
Qed.

Lemma Qlog2_unique (q : Q) (k : Z) :
  (2 ^ k <= Qabs q)%Q → (Qabs q < 2 ^ (k + 1))%Q → Qlog2 q = k.
Proof.
  intros Hlo Hhi.
  assert (Hq : ¬ (q == 0)%Q).
  { intros H. rewrite H in Hlo. pose proof (pow2_pos k). change (Qabs 0) with 0%Q in Hlo. lra. }
  destruct (Qlog2_spec q Hq) as [Hlo' Hhi'].
  assert (H1 : (k < Qlog2 q + 1)%Z) by (apply pow2_lt_inv; lra).
  assert (H2 : (Qlog2 q < k + 1)%Z) by (apply pow2_lt_inv; lra).
  lia.
Qed.

Lemma Qlog2_comp (x y : Q) : (x == y)%Q → ¬ (x == 0)%Q → Qlog2 x = Qlog2 y.
Proof.
  intros H Hx. symmetry. destruct (Qlog2_spec x Hx) as [Hlo Hhi].
  apply Qlog2_unique; rewrite <- H; assumption.
Qed.

Lemma Qlog2_le (q : Q) (t : Z) : ¬ (q == 0)%Q → (Qabs q < 2 ^ (t + 1))%Q → (Qlog2 q <= t)%Z.
Proof.
  intros Hq Hlt. destruct (Qlog2_spec q Hq) as [Hlo _].
  assert (Qlog2 q < t + 1)%Z by (apply pow2_lt_inv; lra). lia.
Qed.

Lemma Qlog2_ge (q : Q) (t : Z) : (2 ^ t <= Qabs q)%Q → (t <= Qlog2 q)%Z.
Proof.
  intros Hle.
  assert (Hq : ¬ (q == 0)%Q).
  { intros H. rewrite H in Hle. pose proof (pow2_pos t). change (Qabs 0) with 0%Q in Hle. lra. }
  destruct (Qlog2_spec q Hq) as [_ Hhi].
  assert (t < Qlog2 q + 1)%Z by (apply pow2_lt_inv; lra). lia.
Qed.

(** *** Rounding to the nearest integer *)

Lemma round_half_even_Z (z : Z) : round_half_even (inject_Z z) = z.
Proof.
  unfold round_half_even. rewrite Qfloor_Z.
  assert (H : (inject_Z z - inject_Z z == 0)%Q) by ring.
  rewrite H. reflexivity.
Qed.

Lemma round_half_even_near (q : Q) :
  (Qabs (inject_Z (round_half_even q) - q) <= 1 # 2)%Q.
Proof.
  destruct (round_half_even_cases q) as [[Hlo Hhi] [[-> H] | [-> H]]];
    apply Qabs_Qle_condition; rewrite ?inject_Z_plus; change (inject_Z 1) with 1%Q;
    split; lra.
Qed.

Lemma Qfloor_unique (q : Q) (f : Z) :
  (inject_Z f <= q)%Q → (q < inject_Z f + 1)%Q → Qfloor q = f.
Proof.
  intros Hlo Hhi. apply Z.le_antisymm.
  - apply Z.lt_succ_r. rewrite Zlt_Qlt, <- Z.add_1_r, inject_Z_plus.
    change (inject_Z 1) with 1%Q. pose proof (Qfloor_le q). lra.
  - apply Qfloor_resp_le in Hlo. rewrite Qfloor_Z in Hlo. exact Hlo.
Qed.

Lemma round_half_even_opp (q : Q) : round_half_even (- q) = (- round_half_even q)%Z.
Proof.
  pose proof (Qfloor_le q) as Hlo. pose proof (Qlt_floor q) as Hhi.
  rewrite inject_Z_plus in Hhi. change (inject_Z 1) with 1%Q in Hhi.
  set (f := Qfloor q) in *.
  destruct (Qeq_dec q (inject_Z f)) as [Hint | Hfrac].
  - assert (Hopp : (- q == inject_Z (- f))%Q) by (rewrite inject_Z_opp, Hint; reflexivity).
    rewrite (round_half_even_comp q (inject_Z f) Hint).
    rewrite (round_half_even_comp (- q) (inject_Z (- f)) Hopp).
    rewrite !round_half_even_Z. reflexivity.
  - assert (Hinj : (inject_Z (- f - 1) == - inject_Z f - 1)%Q).
    { unfold Z.sub. rewrite inject_Z_plus, !inject_Z_opp. reflexivity. }
    assert (Hfl : Qfloor (- q) = (- f - 1)%Z).
    { apply Qfloor_unique; rewrite Hinj; lra. }
    unfold round_half_even. rewrite Hfl. fold f.
    assert (Hr : (- q - inject_Z (- f - 1) == 1 - (q - inject_Z f))%Q)
      by (rewrite Hinj; ring).
    rewrite Hr.
    destruct (Qcompare_spec (q - inject_Z f) (1 # 2)) as [He | Hl | Hg].
    + replace (1 - (q - inject_Z f) ?= 1 # 2)%Q with Eq by (symmetry; apply (proj1 (Qeq_alt _ _)); lra).
      replace (Z.even (- f - 1)) with (negb (Z.even f)).
      * destruct (Z.even f); cbn [negb]; lia.
      * replace (- f - 1)%Z with (- (f + 1))%Z by lia.
        rewrite Z.even_opp, Z.even_add. destruct (Z.even f); reflexivity.
    + replace (1 - (q - inject_Z f) ?= 1 # 2)%Q with Gt by (symmetry; apply (proj1 (Qgt_alt _ _)); lra). lia.
    + replace (1 - (q - inject_Z f) ?= 1 # 2)%Q with Lt by (symmetry; apply (proj1 (Qlt_alt _ _)); lra). lia.
Qed.

(** *** Rounding to the nearest double *)

Lemma to_double_zero (q : Q) : (q == 0)%Q → to_double q = Fin 0.
Proof. intros H. unfold to_double. rewrite (proj2 (Qeq_bool_iff q 0) H). reflexivity. Qed.

Lemma to_double_Fin (q d : Q) :
  to_double q = Fin d → ¬ (q == 0)%Q →
  (d == inject_Z (significand q) * 2 ^ ulp_exponent q)%Q ∧
  (Qabs d < 2 ^ 1024)%Q ∧ Qred d = d.
Proof.
  unfold to_double, significand. intros H Hq.
  destruct (Qeq_bool q 0) eqn:E; [apply Qeq_bool_iff in E; contradiction |].
  destruct (Qle_bool (2 ^ 1024) (Qabs (Qred _))) eqn:Hover in H;
    [destruct (Qle_bool 0 q); discriminate |].
  injection H as <-. split; [apply Qred_correct |]. split.
  - apply Qnot_le_lt. intros Hle. apply Qle_bool_iff in Hle. congruence.
  - apply Qred_complete, Qred_correct.
Qed.

Lemma to_double_normal (q d : Q) : to_double q = Fin d → Qred d = d.
Proof.
  intros H. destruct (Qeq_dec q 0) as [Hz | Hnz].
  - rewrite (to_double_zero q Hz) in H. injection H as <-. reflexivity.
  - apply (to_double_Fin q d H Hnz).
Qed.

Lemma ulp_exponent_comp (x y : Q) :
  (x == y)%Q → ¬ (x == 0)%Q → ulp_exponent x = ulp_exponent y.
Proof. intros H Hx. unfold ulp_exponent. rewrite (Qlog2_comp x y H Hx). reflexivity. Qed.

Lemma Qle_bool_comp (x x' y y' : Q) :
  (x == x')%Q → (y == y')%Q → Qle_bool x y = Qle_bool x' y'.
Proof.
  intros Hx Hy. apply eq_true_iff_eq.
  split; intros H; apply (proj2 (Qle_bool_iff _ _));
    apply (proj1 (Qle_bool_iff _ _)) in H;
    [rewrite <- Hx, <- Hy | rewrite Hx, Hy]; exact H.
Qed.

Lemma Qeq_bool_comp (x x' y y' : Q) :
  (x == x')%Q → (y == y')%Q → Qeq_bool x y = Qeq_bool x' y'.
Proof.
  intros Hx Hy. apply eq_true_iff_eq.
  split; intros H; apply (proj2 (Qeq_bool_iff _ _));
    apply (proj1 (Qeq_bool_iff _ _)) in H;
    [rewrite <- Hx, <- Hy | rewrite Hx, Hy]; exact H.
Qed.

Lemma to_double_comp (x y : Q) : (x == y)%Q → to_double x = to_double y.
Proof.
  intros H. unfold to_double. rewrite (Qeq_bool_comp x y 0 0 H (Qeq_refl 0)).
  destruct (Qeq_bool y 0) eqn:E; [reflexivity |].
  assert (Hx : ¬ (x == 0)%Q) by (rewrite H; apply Qeq_bool_neq; exact E).
  rewrite <- (ulp_exponent_comp x y H Hx).
  rewrite (round_half_even_comp (y / 2 ^ ulp_exponent x) (x / 2 ^ ulp_exponent x))
    by (apply Qdiv_comp; [symmetry; exact H | reflexivity]).
  rewrite (Qle_bool_comp 0 0 x y (Qeq_refl 0) H). reflexivity.
Qed.

(** The rounding error is at most half a unit in the last place. *)
Lemma to_double_error (q d : Q) :
  to_double q = Fin d → (Qabs (d - q) <= (1 # 2) * 2 ^ ulp_exponent q)%Q.
Proof.
  intros H. pose proof (pow2_pos (ulp_exponent q)) as Hpos.
  destruct (Qeq_dec q 0) as [Hz | Hnz].
  - rewrite (to_double_zero q Hz) in H. injection H as <-.
    assert (E : (0 - q == 0)%Q) by (rewrite Hz; reflexivity).
    rewrite E. change (Qabs 0) with 0%Q. lra.
  - destruct (to_double_Fin q d H Hnz) as (Hd & _ & _). unfold significand in Hd.
    set (e := ulp_exponent q) in *.
    pose proof (round_half_even_near (q / 2 ^ e)) as Hnear.
    set (m := inject_Z (round_half_even (q / 2 ^ e))) in *.
    assert (E : (d - q == (m - q / 2 ^ e) * 2 ^ e)%Q) by (rewrite Hd; field; lra).
    rewrite E, Qabs_Qmult, (Qabs_pos (2 ^ e)) by lra.
    apply Qmult_le_compat_r; [exact Hnear | lra].
Qed.

(** Rounding does not cross a number of the grid it rounds to. *)
Lemma significand_le (q : Q) (z : Z) :
  (q <= inject_Z z * 2 ^ ulp_exponent q)%Q → (significand q <= z)%Z.
Proof.
  intros H. unfold significand. rewrite <- (round_half_even_Z z).
  apply round_half_even_mono. pose proof (pow2_pos (ulp_exponent q)) as Hpos.
  apply Qle_shift_div_r; assumption.
Qed.

Lemma significand_ge (q : Q) (z : Z) :
  (inject_Z z * 2 ^ ulp_exponent q <= q)%Q → (z <= significand q)%Z.
Proof.
  intros H. unfold significand. rewrite <- (round_half_even_Z z) at 1.
  apply round_half_even_mono. pose proof (pow2_pos (ulp_exponent q)) as Hpos.
  apply Qle_shift_div_l; assumption.
Qed.

Lemma to_double_nonneg (q d : Q) : to_double q = Fin d → (0 <= q)%Q → (0 <= d)%Q.
Proof.
  intros H Hq. destruct (Qeq_dec q 0) as [Hz | Hnz].
  - rewrite (to_double_zero q Hz) in H. injection H as <-. lra.
  - destruct (to_double_Fin q d H Hnz) as (Hd & _ & _). rewrite Hd.
    pose proof (pow2_pos (ulp_exponent q)) as Hpos.
    assert (Hm : (0 <= significand q)%Z) by (apply significand_ge; change (inject_Z 0) with 0%Q; lra).
    rewrite Zle_Qle in Hm. change (inject_Z 0) with 0%Q in Hm.
    apply Qmult_le_0_compat; lra.
Qed.

Lemma to_double_nonpos (q d : Q) : to_double q = Fin d → (q <= 0)%Q → (d <= 0)%Q.
Proof.
  intros H Hq. destruct (Qeq_dec q 0) as [Hz | Hnz].
  - rewrite (to_double_zero q Hz) in H. injection H as <-. lra.
  - destruct (to_double_Fin q d H Hnz) as (Hd & _ & _). rewrite Hd.
    pose proof (pow2_pos (ulp_exponent q)) as Hpos.
    assert (Hm : (significand q <= 0)%Z) by (apply significand_le; change (inject_Z 0) with 0%Q; lra).
    rewrite Zle_Qle in Hm. change (inject_Z 0) with 0%Q in Hm.
    assert (E : (0 <= - inject_Z (significand q) * 2 ^ ulp_exponent q)%Q)
      by (apply Qmult_le_0_compat; lra).
    lra.
Qed.

Lemma to_double_finite (q : Q) :
  ¬ (q == 0)%Q →
  (Qabs (inject_Z (significand q) * 2 ^ ulp_exponent q) < 2 ^ 1024)%Q →
  to_double q = Fin (Qred (inject_Z (significand q) * 2 ^ ulp_exponent q)).
Proof.
  intros Hq Hlt. unfold to_double. fold (significand q).
  destruct (Qeq_bool q 0) eqn:E; [apply Qeq_bool_iff in E; contradiction |].
  destruct (Qle_bool (2 ^ 1024) (Qabs (Qred _))) eqn:Hover; [| reflexivity].
  apply Qle_bool_iff in Hover. rewrite Qred_correct in Hover. lra.
Qed.

(** A number of the grid around itself is a double. *)
Lemma to_double_grid (d : Q) (k : Z) :
  (d == inject_Z k * 2 ^ ulp_exponent d)%Q → (Qabs d < 2 ^ 1024)%Q → Qred d = d →
  to_double d = Fin d.
Proof.
  intros Hd Hlt Hred. destruct (Qeq_dec d 0) as [Hz | Hnz].
  - rewrite (to_double_zero d Hz). f_equal. rewrite <- Hred.
    apply (Qred_complete 0 d). symmetry. exact Hz.
  - assert (Hs : significand d = k).
    { unfold significand.
      rewrite (round_half_even_comp _ (inject_Z k)); [apply round_half_even_Z |].
      rewrite Hd at 1. field. pose proof (pow2_pos (ulp_exponent d)). lra. }
    rewrite (to_double_finite d Hnz); rewrite Hs.
    + f_equal. transitivity (Qred d); [| exact Hred].
      apply Qred_complete. symmetry. exact Hd.
    + rewrite <- Hd. exact Hlt.
Qed.

Lemma ulp_exponent_le (q : Q) (t : Z) :
  ¬ (q == 0)%Q → (Qabs q < 2 ^ (t + 1))%Q → (-1074 <= t - 52)%Z →
  (ulp_exponent q <= t - 52)%Z.
Proof.
  intros Hq Hlt Ht. unfold ulp_exponent. pose proof (Qlog2_le q t Hq Hlt). lia.
Qed.

Lemma pow2_grid (t e : Z) : (e <= t)%Z → (2 ^ t == inject_Z (2 ^ (t - e)) * 2 ^ e)%Q.
Proof.
  intros H. rewrite pow2_Z by lia. rewrite <- pow2_add.
  replace (t - e + e)%Z with t by lia. reflexivity.
Qed.

(** The significand has at most 53 bits, and a number bounded by a power
    of two rounds to a double within the same bound. *)
Lemma significand_bound (q : Q) (t : Z) :
  ¬ (q == 0)%Q → (ulp_exponent q <= t)%Z → (Qabs q <= 2 ^ t)%Q →
  (Z.abs (significand q) <= 2 ^ (t - ulp_exponent q))%Z.
Proof.
  intros Hq He Hle. set (e := ulp_exponent q) in *.
  apply Qabs_Qle_condition in Hle. destruct Hle as [Hlo Hhi].
  rewrite (pow2_grid t e He) in Hlo, Hhi.
  apply Z.abs_le. split.
  - apply significand_ge. fold e. rewrite inject_Z_opp. lra.
  - apply significand_le. fold e. exact Hhi.
Qed.

Lemma to_double_bounded (q : Q) (t : Z) :
  (-1074 <= t < 1024)%Z → (Qabs q <= 2 ^ t)%Q →
  ∃ d, to_double q = Fin d ∧ (Qabs d <= 2 ^ t)%Q.
Proof.
  intros Ht Hle. destruct (Qeq_dec q 0) as [Hz | Hnz].
  - exists 0%Q. split; [apply to_double_zero; exact Hz |].
    change (Qabs 0) with 0%Q. apply Qlt_le_weak, pow2_pos.
  - assert (He : (ulp_exponent q <= t)%Z).
    { unfold ulp_exponent.
      assert (Hlt : (2 ^ t < 2 ^ (t + 1))%Q) by (apply pow2_lt; lia).
      assert (Qlog2 q <= t)%Z by (apply Qlog2_le; [exact Hnz | lra]).
      lia. }
    pose proof (significand_bound q t Hnz He Hle) as Hm.
    set (e := ulp_exponent q) in *. set (m := significand q) in *.
    assert (Hbound : (Qabs (inject_Z m * 2 ^ e) <= 2 ^ t)%Q).
    { rewrite Qabs_Qmult, (Qabs_pos (2 ^ e)) by (apply Qlt_le_weak, pow2_pos).
      rewrite (pow2_grid t e He).
      apply Qmult_le_compat_r; [| apply Qlt_le_weak, pow2_pos].
      change (Qabs (inject_Z m)) with (inject_Z (Z.abs m)).
      rewrite <- Zle_Qle. exact Hm. }
    exists (Qred (inject_Z m * 2 ^ e)). split.
    + apply to_double_finite; [exact Hnz |]. fold e m.
      assert (2 ^ t < 2 ^ 1024)%Q by (apply pow2_lt; lia). lra.
    + rewrite Qred_correct. exact Hbound.
Qed.

Lemma ulp_exponent_ge (q : Q) : (-1074 <= ulp_exponent q)%Z.
Proof. unfold ulp_exponent. lia. Qed.

Lemma ulp_exponent_log2 (q : Q) : (Qlog2 q - 52 <= ulp_exponent q)%Z.
Proof. unfold ulp_exponent. lia. Qed.

Lemma significand_53 (q : Q) : ¬ (q == 0)%Q → (Z.abs (significand q) <= 2 ^ 53)%Z.
Proof.
  intros Hq. destruct (Qlog2_spec q Hq) as [_ Hhi].
  pose proof (ulp_exponent_log2 q) as He.
  replace 53%Z with (ulp_exponent q + 53 - ulp_exponent q)%Z by lia.
  apply significand_bound; [exact Hq | lia |].
  apply Qlt_le_weak, (Qlt_le_trans _ _ _ Hhi), pow2_le. lia.
Qed.

(** Rounding twice is rounding once. *)
Lemma to_double_idem (q d : Q) : to_double q = Fin d → to_double d = Fin d.
Proof.
  intros H. destruct (Qeq_dec q 0) as [Hz | Hnz].
  { rewrite (to_double_zero q Hz) in H. injection H as <-. reflexivity. }
  destruct (to_double_Fin q d H Hnz) as (Hd & Hlt & Hred).
  pose proof (significand_53 q Hnz) as Hm. pose proof (ulp_exponent_ge q) as He.
  set (e := ulp_exponent q) in *. set (m := significand q) in *.
  destruct (Z.eq_dec m 0%Z) as [Hm0 | Hm0].
  { assert (Hz : (d == 0)%Q) by (rewrite Hd, Hm0; ring).
    rewrite (to_double_zero d Hz). f_equal. rewrite <- Hred. apply (Qred_complete 0 d).
    symmetry. exact Hz. }
  assert (Hpos : (0 < 2 ^ e)%Q) by apply pow2_pos.
  assert (Habs : (Qabs d == inject_Z (Z.abs m) * 2 ^ e)%Q).
  { rewrite Hd, Qabs_Qmult, (Qabs_pos (2 ^ e)) by lra. reflexivity. }
  assert (Hdnz : ¬ (d == 0)%Q).
  { intros Hz. rewrite Hz in Habs. change (Qabs 0) with 0%Q in Habs.
    assert (1 <= Z.abs m)%Z as H1 by lia. rewrite Zle_Qle in H1.
    change (inject_Z 1) with 1%Q in H1. nra. }
  destruct (Z.eq_dec (Z.abs m) (2 ^ 53)%Z) as [Hfull | Hpart].
  - assert (Hlog : Qlog2 d = (e + 53)%Z).
    { apply Qlog2_unique; rewrite Habs, Hfull, (pow2_Z 53) by lia.
      - rewrite pow2_add. lra.
      - rewrite !pow2_add. change (2 ^ 1)%Q with 2%Q. pose proof (pow2_pos 53). nra. }
    assert (He' : ulp_exponent d = (e + 1)%Z) by (unfold ulp_exponent; rewrite Hlog; lia).
    apply (to_double_grid d (m / 2)); [| exact Hlt | exact Hred].
    rewrite He', Hd, pow2_succ.
    assert (Hm2 : m = (2 * (m / 2))%Z).
    { assert (Hdiv : (m mod 2 = 0)%Z); [| pose proof (Z.div_mod m 2); lia].
      destruct (Z.abs_eq_or_opp m) as [E | E]; rewrite E in Hfull.
      - rewrite Hfull. reflexivity.
      - replace m with (- 2 ^ 53)%Z by lia. reflexivity. }
    rewrite Hm2 at 1. rewrite inject_Z_mult. change (inject_Z 2) with 2%Q. ring.
  - assert (Hlt53 : (Z.abs m < 2 ^ 53)%Z) by lia.
    assert (Hlog : (Qlog2 d <= e + 52)%Z).
    { apply Qlog2_le; [exact Hdnz |]. rewrite Habs.
      replace (e + 52 + 1)%Z with (53 + e)%Z by lia. rewrite pow2_add, <- (pow2_Z 53) by lia.
      apply Qmult_lt_compat_r; [exact Hpos |]. rewrite <- Zlt_Qlt. exact Hlt53. }
    assert (He' : (ulp_exponent d <= e)%Z) by (unfold ulp_exponent; lia).
    apply (to_double_grid d (m * 2 ^ (e - ulp_exponent d))); [| exact Hlt | exact Hred].
    rewrite Hd at 1. rewrite inject_Z_mult, (pow2_grid e (ulp_exponent d) He'). ring.
Qed.

(** Rounding is monotone (on the non-negative numbers, which is where the
    engine compares doubles). *)
Lemma to_double_mono (x y dx dy : Q) :
  to_double x = Fin dx → to_double y = Fin dy → (0 <= x)%Q → (x <= y)%Q → (dx <= dy)%Q.
Proof.
  intros Hx Hy H0 Hle.
  destruct (Qeq_dec x 0) as [Hxz | Hxnz].
  { rewrite (to_double_zero x Hxz) in Hx. injection Hx as <-.
    apply (to_double_nonneg y dy Hy). lra. }
  assert (Hynz : ¬ (y == 0)%Q) by (intros E; apply Hxnz; lra).
  destruct (to_double_Fin x dx Hx Hxnz) as (Hdx & _ & _).
  destruct (to_double_Fin y dy Hy Hynz) as (Hdy & _ & _).
  destruct (Qlog2_spec x Hxnz) as [Hx1 Hx2]. destruct (Qlog2_spec y Hynz) as [Hy1 Hy2].
  rewrite (Qabs_pos x) in Hx1, Hx2 by lra. rewrite (Qabs_pos y) in Hy1, Hy2 by lra.
  assert (Hlog : (Qlog2 x <= Qlog2 y)%Z).
  { assert (Qlog2 x < Qlog2 y + 1)%Z by (apply pow2_lt_inv; lra). lia. }
  pose proof (pow2_pos (ulp_exponent x)) as Hpx. pose proof (pow2_pos (ulp_exponent y)) as Hpy.
  destruct (Z.eq_dec (ulp_exponent x) (ulp_exponent y)) as [Heq | Hne].
  - assert (Hm : (significand x <= significand y)%Z).
    { unfold significand. rewrite Heq. apply round_half_even_mono.
      apply Qmult_le_compat_r; [exact Hle |]. apply Qlt_le_weak, Qinv_lt_0_compat. exact Hpy. }
    rewrite Hdx, Hdy, Heq. apply Qmult_le_compat_r; [| lra]. rewrite <- Zle_Qle. exact Hm.
  - assert (Hey : ulp_exponent y = (Qlog2 y - 52)%Z) by (revert Hne; unfold ulp_exponent; lia).
    assert (Hlt : (Qlog2 x < Qlog2 y)%Z) by (revert Hne; unfold ulp_exponent; lia).
    assert (Hex : (ulp_exponent x <= Qlog2 y)%Z)
      by (pose proof (ulp_exponent_ge y); unfold ulp_exponent; lia).
    apply (Qle_trans _ (2 ^ Qlog2 y)).
    + rewrite Hdx, (pow2_grid (Qlog2 y) (ulp_exponent x) Hex).
      apply Qmult_le_compat_r; [| lra]. rewrite <- Zle_Qle. apply significand_le.
      rewrite <- (pow2_grid (Qlog2 y) (ulp_exponent x) Hex).
      apply Qlt_le_weak, (Qlt_le_trans _ _ _ Hx2), pow2_le. lia.
    + rewrite Hdy. assert (Hey' : (ulp_exponent y <= Qlog2 y)%Z) by lia.
      rewrite (pow2_grid (Qlog2 y) (ulp_exponent y) Hey').
      apply Qmult_le_compat_r; [| lra]. rewrite <- Zle_Qle. apply significand_ge.
      rewrite <- (pow2_grid (Qlog2 y) (ulp_exponent y) Hey'). exact Hy1.
Qed.

Lemma Qlog2_opp (q : Q) : Qlog2 (- q) = Qlog2 q.
Proof.
  destruct (Qeq_dec q 0) as [Hz | Hnz].
  - destruct q as [n d]. unfold Qeq in Hz. cbn in Hz. assert (n = 0%Z) as -> by lia. reflexivity.
  - destruct (Qlog2_spec q Hnz) as [Hlo Hhi].
    apply Qlog2_unique; rewrite Qabs_opp; assumption.
Qed.

Lemma to_double_opp (q : Q) : to_double (- q) = num_opp (to_double q).
Proof.
  destruct (Qeq_dec q 0) as [Hz | Hnz].
  { rewrite (to_double_zero q Hz), (to_double_zero (- q)) by (rewrite Hz; reflexivity).
    reflexivity. }
  assert (Hnz' : ¬ (- q == 0)%Q) by (intros E; apply Hnz; lra).
  assert (He : ulp_exponent (- q) = ulp_exponent q)
    by (unfold ulp_exponent; rewrite Qlog2_opp; reflexivity).
  assert (Hs : significand (- q) = (- significand q)%Z).
  { unfold significand. rewrite He, <- round_half_even_opp.
    apply round_half_even_comp. field. pose proof (pow2_pos (ulp_exponent q)). lra. }
  assert (Hd : Qred (inject_Z (significand (- q)) * 2 ^ ulp_exponent (- q))
               = (- Qred (inject_Z (significand q) * 2 ^ ulp_exponent q))%Q).
  { rewrite <- Qred_opp. apply Qred_complete. rewrite Hs, He, inject_Z_opp. ring. }
  unfold to_double. fold (significand q) (significand (- q)).
  rewrite (proj1 (not_true_iff_false _) (fun E => Hnz (Qeq_bool_eq _ _ E))).
  rewrite (proj1 (not_true_iff_false _) (fun E => Hnz' (Qeq_bool_eq _ _ E))).
  rewrite Hd.
  rewrite (Qle_bool_comp (2 ^ 1024) (2 ^ 1024)
             (Qabs (- Qred (inject_Z (significand q) * 2 ^ ulp_exponent q)))
             (Qabs (Qred (inject_Z (significand q) * 2 ^ ulp_exponent q)))
             (Qeq_refl _) (Qabs_opp _)).
  destruct (Qle_bool (2 ^ 1024) _); [| reflexivity].
  destruct (Qle_bool 0 q) eqn:E1, (Qle_bool 0 (- q)) eqn:E2; try reflexivity; exfalso.
  - apply Qle_bool_iff in E1, E2. apply Hnz. lra.
  - assert (¬ (0 <= q)%Q) by (intros E; apply Qle_bool_iff in E; congruence).
    assert (¬ (0 <= - q)%Q) by (intros E; apply Qle_bool_iff in E; congruence). lra.
Qed.

(** *** The decimal that holds a double *)

Lemma normal_eq (x y : Q) : Qred x = x → Qred y = y → (x == y)%Q → x = y.
Proof. intros Hx Hy H. rewrite <- Hx, <- Hy. apply Qred_complete. exact H. Qed.

Lemma shortest_from_denotes (d : Q) (k : Z) (fuel : nat) :
  to_double d = Fin d → to_double (shortest_from d k fuel) = Fin d.
Proof.
  intros Hd. revert k. induction fuel as [| fuel IH]; intros k; [exact Hd |].
  cbn [shortest_from]. destruct (to_double (round_sig d k)) as [d' | | |] eqn:Hc; try apply IH.
  destruct (Qeq_bool d' d) eqn:E; [| apply IH].
  rewrite Hc. f_equal.
  apply normal_eq; [apply (to_double_normal _ _ Hc) | apply (to_double_normal _ _ Hd) |].
  apply Qeq_bool_eq. exact E.
Qed.

(** The decimal written for a double reads back as that double. *)
Lemma shortest_denotes (d : Q) : to_double d = Fin d → to_double (shortest d) = Fin d.
Proof.
  intros Hd. unfold shortest. destruct (Qeq_bool d 0) eqn:E.
  - rewrite <- Hd. apply to_double_comp. symmetry. apply Qeq_bool_eq. exact E.
  - apply shortest_from_denotes. exact Hd.
Qed.

Lemma literal_denotes (q d : Q) : to_double q = Fin d → decode (literal (Fin d)) = Fin d.
Proof. intros H. apply shortest_denotes, (to_double_idem q d H). Qed.

(** *** Values of doubles *)

Lemma double_value_Fin (q d : Q) : to_double q = Fin d → double_value q = d.
Proof. intros H. unfold double_value. rewrite H. reflexivity. Qed.

Lemma double_value_comp (x y : Q) : (x == y)%Q → double_value x = double_value y.
Proof. intros H. unfold double_value. rewrite (to_double_comp x y H). reflexivity. Qed.

Lemma to_double_small (q : Q) :
  (Qabs q <= 8)%Q →
  to_double q = Fin (double_value q) ∧ (Qabs (double_value q) <= 8)%Q.
Proof.
  intros H. destruct (to_double_bounded q 3) as (d & Hd & Hb); [lia | exact H |].
  rewrite (double_value_Fin q d Hd). split; assumption.
Qed.

Lemma to_double_unit (q : Q) :
  (0 <= q <= 1)%Q →
  to_double q = Fin (double_value q) ∧ (0 <= double_value q <= 1)%Q.
Proof.
  intros [H0 H1]. destruct (to_double_bounded q 0) as (d & Hd & Hb); [lia | |].
  - rewrite Qabs_pos by exact H0. exact H1.
  - rewrite (double_value_Fin q d Hd). split; [exact Hd |].
    pose proof (to_double_nonneg q d Hd H0). apply Qabs_Qle_condition in Hb.
    change (2 ^ 0)%Q with 1%Q in Hb. lra.
Qed.

Lemma Qabs_nonneg_eq (d : Q) : (0 <= d)%Q → Qabs d = d.
Proof.
  destruct d as [n p]. unfold Qle. cbn. intros H. unfold Qabs. f_equal. lia.
Qed.

Lemma Qabs_nonpos_eq (d : Q) : (d <= 0)%Q → Qabs d = (- d)%Q.
Proof.
  destruct d as [n p]. unfold Qle. cbn. intros H. unfold Qabs, Qopp. cbn. f_equal. lia.
Qed.

(** The double of an absolute value is the absolute value of the double. *)
Lemma to_double_abs (h d : Q) : to_double h = Fin d → to_double (Qabs h) = Fin (Qabs d).
Proof.
  intros H. destruct (Qlt_le_dec h 0) as [Hneg | Hpos].
  - rewrite (to_double_comp (Qabs h) (- h)) by (apply Qabs_neg; lra).
    rewrite to_double_opp, H. cbn [num_opp]. f_equal. symmetry. apply Qabs_nonpos_eq.
    apply (to_double_nonpos h d H). lra.
  - rewrite (to_double_comp (Qabs h) h) by (apply Qabs_pos; exact Hpos).
    rewrite H. f_equal. symmetry. apply Qabs_nonneg_eq. apply (to_double_nonneg h d H Hpos).
Qed.

Lemma double_value_abs (h : Q) :
  (Qabs h <= 8)%Q → double_value (Qabs h) = Qabs (double_value h).
Proof.
  intros H. destruct (to_double_small h H) as [Hd _].
  apply double_value_Fin, to_double_abs. exact Hd.
Qed.

Lemma double_value_min (x y : Q) :
  (0 <= x <= 8)%Q → (0 <= y <= 8)%Q →
  (double_value (Qmin x y) == Qmin (double_value x) (double_value y))%Q.
Proof.
  intros Hx Hy.
  destruct (to_double_small x) as [Hdx _]; [rewrite Qabs_pos; lra |].
  destruct (to_double_small y) as [Hdy _]; [rewrite Qabs_pos; lra |].
  destruct (Qlt_le_dec y x) as [Hlt | Hle].
  - rewrite (double_value_comp (Qmin x y) y) by (apply Q.min_r; lra).
    symmetry. apply Q.min_r. apply (to_double_mono y x _ _ Hdy Hdx); lra.
  - rewrite (double_value_comp (Qmin x y) x) by (apply Q.min_l; lra).
    symmetry. apply Q.min_l. apply (to_double_mono x y _ _ Hdx Hdy); lra.
Qed.

Lemma to_double_one : to_double 1 = Fin 1.
Proof. vm_compute. reflexivity. Qed.

Lemma to_double_fifth : to_double (2 # 10) = Fin (3602879701896397 # 18014398509481984).
Proof. vm_compute. reflexivity. Qed.

(** ** Arithmetic on the numbers of the unit interval *)

Lemma as_float_denotes (v : value) (h d : Q) :
  as_num v = Some (Fin h) → to_double h = Fin d →
  ∃ h', as_float v = Some (Ok (Fin h')) ∧ to_double h' = Fin d.
Proof.
  intros Hv Hd. destruct v as [| b | z | x | s]; try discriminate.
  - assert (Hz : to_double (inject_Z (if b then 1 else 0)) = Fin d).
    { rewrite <- Hd. injection Hv as <-. destruct b; reflexivity. }
    exists (shortest d). cbn [as_float as_int]. unfold float_of_int. rewrite Hz. cbn [literal].
    split; [reflexivity | apply shortest_denotes, (to_double_idem _ _ Hz)].
  - injection Hv as <-. exists (shortest d). cbn [as_float as_int]. unfold float_of_int.
    rewrite Hd. cbn [literal].
    split; [reflexivity | apply shortest_denotes, (to_double_idem _ _ Hd)].
  - injection Hv as ->. exists h. split; [reflexivity | exact Hd].
Qed.

Lemma unit_int (z : Z) : (0 <= inject_Z z <= 1)%Q → z = 0%Z ∨ z = 1%Z.
Proof.
  intros [H0 H1]. change 0%Q with (inject_Z 0) in H0. change 1%Q with (inject_Z 1) in H1.
  rewrite <- Zle_Qle in H0, H1. lia.
Qed.

Lemma unit_as_int (v : value) (h : Q) (z : Z) :
  unit_number v h → as_int v = Some z → (z = 0%Z ∨ z = 1%Z) ∧ h = inject_Z z.
Proof.
  intros [Hv Hh] Hz. destruct v as [| b | z' | x | s]; try discriminate.
  - injection Hz as <-. injection Hv as <-. destruct b; split; auto.
  - injection Hz as ->. injection Hv as <-. split; [apply unit_int; exact Hh | reflexivity].
Qed.

(** The difference of two numbers of the unit interval is a number that
    holds the double nearest to the difference of their doubles. *)
Lemma py_sub_unit (a b : value) (ha hb : Q) :
  unit_number a ha → unit_number b hb →
  ∃ w hw, py_sub a b = Ok w ∧ as_num w = Some (Fin hw) ∧
          to_double hw = to_double (double_value ha - double_value hb).
Proof.
  intros Ha Hb.
  destruct (to_double_unit ha (proj2 Ha)) as [Hda Hra].
  destruct (to_double_unit hb (proj2 Hb)) as [Hdb Hrb].
  unfold py_sub.
  destruct (as_int a) as [za |] eqn:Eza; [destruct (as_int b) as [zb |] eqn:Ezb |].
  - destruct (unit_as_int a ha za Ha Eza) as [Hza ->].
    destruct (unit_as_int b hb zb Hb Ezb) as [Hzb ->].
    exists (VInt (za - zb)), (inject_Z (za - zb)). split; [reflexivity |].
    split; [reflexivity |].
    destruct Hza as [-> | ->], Hzb as [-> | ->]; vm_compute; reflexivity.
  - destruct (as_float_denotes a ha _ (proj1 Ha) Hda) as (ha' & -> & Hda').
    destruct (as_float_denotes b hb _ (proj1 Hb) Hdb) as (hb' & -> & Hdb').
    cbn [bind]. unfold float_sub. cbn [decode]. rewrite Hda', Hdb'. cbn [num_opp double_add].
    destruct (to_double_small (double_value ha - double_value hb)) as [Hd _];
      [apply Qabs_Qle_condition; lra |].
    change (double_value ha + - double_value hb)%Q
      with (double_value ha - double_value hb)%Q.
    rewrite Hd. cbn [literal]. eexists _, _. split; [reflexivity |].
    split; [reflexivity |]. apply shortest_denotes, (to_double_idem _ _ Hd).
  - destruct (as_float_denotes a ha _ (proj1 Ha) Hda) as (ha' & -> & Hda').
    destruct (as_float_denotes b hb _ (proj1 Hb) Hdb) as (hb' & -> & Hdb').
    cbn [bind]. unfold float_sub. cbn [decode]. rewrite Hda', Hdb'. cbn [num_opp double_add].
    destruct (to_double_small (double_value ha - double_value hb)) as [Hd _];
      [apply Qabs_Qle_condition; lra |].
    change (double_value ha + - double_value hb)%Q
      with (double_value ha - double_value hb)%Q.
    rewrite Hd. cbn [literal]. eexists _, _. split; [reflexivity |].
    split; [reflexivity |]. apply shortest_denotes, (to_double_idem _ _ Hd).
Qed.

Lemma py_abs_denotes (w : value) (hw dw : Q) :
  as_num w = Some (Fin hw) → to_double hw = Fin dw →
  ∃ w', py_abs w = Ok w' ∧ as_num w' = Some (Fin (Qabs hw)) ∧
        to_double (Qabs hw) = Fin (Qabs dw).
Proof.
  intros Hw Hd. pose proof (to_double_abs hw dw Hd) as Habs.
  destruct w as [| b | z | x | s]; try discriminate.
  - injection Hw as <-. eexists. split; [reflexivity |].
    split; [destruct b; reflexivity | exact Habs].
  - injection Hw as <-. eexists. split; [reflexivity |]. split; [reflexivity | exact Habs].
  - injection Hw as ->. eexists. split; [reflexivity |]. split; [reflexivity | exact Habs].
Qed.

(** The smaller of two non-negative numbers holds the smaller double. *)
Lemma py_min_list_denotes (x y : value) (hx hy dx dy : Q) :
  as_num x = Some (Fin hx) → as_num y = Some (Fin hy) →
  to_double hx = Fin dx → to_double hy = Fin dy → (0 <= hx)%Q → (0 <= hy)%Q →
  ∃ m hm dm, py_min_list x [y] = Ok m ∧ as_num m = Some (Fin hm) ∧
             to_double hm = Fin dm ∧ (dm == Qmin dx dy)%Q ∧ (0 <= hm)%Q.
Proof.
  intros Hx Hy Hdx Hdy H0x H0y. cbn [py_min_list].
  rewrite (py_lt_num y x (Fin hy) (Fin hx) Hy Hx). cbn [bind num_ltb].
  destruct (Qlt_bool hy hx) eqn:E.
  - apply Qlt_bool_iff in E. exists y, hy, dy. repeat split; try assumption.
    symmetry. apply Q.min_r. apply (to_double_mono hy hx _ _ Hdy Hdx); lra.
  - apply Qlt_bool_false in E. exists x, hx, dx. repeat split; try assumption.
    symmetry. apply Q.min_l. apply (to_double_mono hx hy _ _ Hdx Hdy); lra.
Qed.

Lemma py_div_pos_fifth (m : value) (hm dm : Q) :
  as_num m = Some (Fin hm) → to_double hm = Fin dm → (0 <= dm <= 1)%Q →
  ∃ hr, py_div_pos m (2 # 10) = Ok (Fin hr) ∧
        to_double hr = to_double (dm / double_value (2 # 10)) ∧
        to_double hr = Fin (double_value (dm / double_value (2 # 10))) ∧
        (0 <= double_value (dm / double_value (2 # 10)))%Q.
Proof.
  intros Hm Hd Hr. destruct (as_float_denotes m hm dm Hm Hd) as (h' & Hf & Hd').
  unfold py_div_pos. rewrite Hf. cbn [bind]. unfold float_div_pos. cbn [decode].
  rewrite Hd', to_double_fifth. cbv beta iota.
  rewrite (double_value_Fin _ _ to_double_fifth).
  set (c := (3602879701896397 # 18014398509481984)%Q).
  assert (Hq : (0 <= dm / c <= 8)%Q).
  { unfold Qdiv. change (/ c)%Q with (18014398509481984 # 3602879701896397)%Q. lra. }
  destruct (to_double_small (dm / c)) as [Hquot _]; [rewrite Qabs_pos; lra |].
  pose proof (shortest_denotes _ (to_double_idem _ _ Hquot)) as Hs.
  exists (shortest (double_value (dm / c))). rewrite Hs, Hquot. cbn [literal].
  split; [reflexivity |]. split; [reflexivity |]. split; [reflexivity |].
  apply (to_double_nonneg _ _ Hquot). lra.
Qed.

(** The double [min(1.0, ratio)] holds. *)
Lemma py_min_one (hr dr : Q) :
  to_double hr = Fin dr → (0 <= dr)%Q →
  ∃ ht dt, py_min (Fin 1) (Fin hr) = Fin ht ∧ to_double ht = Fin dt ∧
           (dt == Qmin 1 dr)%Q.
Proof.
  intros Hd H0. unfold py_min. cbn [num_ltb].
  destruct (Qlt_bool hr 1) eqn:E.
  - apply Qlt_bool_iff in E. exists hr, dr. split; [reflexivity |]. split; [exact Hd |].
    symmetry. apply Q.min_r. destruct (Qlt_le_dec hr 0) as [Hneg | Hpos].
    + pose proof (to_double_nonpos hr dr Hd (Qlt_le_weak _ _ Hneg)). lra.
    + apply (to_double_mono hr 1 _ _ Hd to_double_one); lra.
  - apply Qlt_bool_false in E. exists 1%Q, 1%Q. split; [reflexivity |].
    split; [exact to_double_one |].
    symmetry. apply Q.min_l. apply (to_double_mono 1 hr _ _ to_double_one Hd); lra.
Qed.

Lemma unit_difference (x y : Q) :
  (0 <= x <= 1)%Q → (0 <= y <= 1)%Q →
  ∃ d, to_double (double_value x - double_value y) = Fin d ∧
       d = double_value (double_value x - double_value y) ∧
       (Qabs d <= 1)%Q ∧ (Qabs (double_value x - double_value y) <= 1)%Q.
Proof.
  intros Hx Hy. destruct (to_double_unit x Hx) as [_ Hdx].
  destruct (to_double_unit y Hy) as [_ Hdy].
  assert (Hdiff : (Qabs (double_value x - double_value y) <= 1)%Q)
    by (apply Qabs_Qle_condition; lra).
  destruct (to_double_bounded (double_value x - double_value y) 0) as (d & Hd & Hb);
    [lia | exact Hdiff |].
  exists d. split; [exact Hd |]. split; [symmetry; apply double_value_Fin; exact Hd |].
  split; [exact Hb | exact Hdiff].
Qed.

(** The confidence of a number of the unit interval under thresholds of the
    unit interval: the double [confidence_double], rounded to three
    decimals. *)
Lemma calculate_confidence_unit (thresholds : dict) (va vb score : value) (a b s : Q) :
  thresholds !! "allow" = Some va → unit_number va a →
  thresholds !! "block" = Some vb → unit_number vb b →
  unit_number score s →
  _calculate_confidence thresholds score
  = Ok (Fin (Qround_dec (confidence_double s a b) 3)).
Proof.
  intros Hla Ha Hlb Hb Hs.
  destruct (py_sub_unit score va s a Hs Ha) as (w1 & h1 & Hsub1 & Hn1 & Hd1).
  destruct (py_sub_unit score vb s b Hs Hb) as (w2 & h2 & Hsub2 & Hn2 & Hd2).
  destruct (unit_difference s a (proj2 Hs) (proj2 Ha)) as (d1 & Hx1 & Hv1 & Hb1 & Hr1).
  destruct (unit_difference s b (proj2 Hs) (proj2 Hb)) as (d2 & Hx2 & Hv2 & Hb2 & Hr2).
  rewrite Hx1 in Hd1. rewrite Hx2 in Hd2.
  destruct (py_abs_denotes w1 h1 d1 Hn1 Hd1) as (w1' & Habs1 & Hn1' & Hd1').
  destruct (py_abs_denotes w2 h2 d2 Hn2 Hd2) as (w2' & Habs2 & Hn2' & Hd2').
  destruct (py_min_list_denotes w1' w2' _ _ _ _ Hn1' Hn2' Hd1' Hd2'
              (Qabs_nonneg h1) (Qabs_nonneg h2))
    as (m & hm & dm & Hmin & Hnm & Hdm & Hvm & _).
  pose proof (Qabs_nonneg d1) as H01. pose proof (Qabs_nonneg d2) as H02.
  assert (Hrm : (0 <= dm <= 1)%Q).
  { rewrite Hvm. split; [apply Q.min_glb; assumption |].
    apply (Qle_trans _ (Qabs d1)); [apply Q.le_min_l | exact Hb1]. }
  destruct (py_div_pos_fifth m hm dm Hnm Hdm Hrm) as (hr & Hdiv & _ & Hdr & H0r).
  destruct (py_min_one hr _ Hdr H0r) as (ht & dt & Hone & Hdt & Hvt).
  unfold _calculate_confidence, getitem. rewrite Hla, Hlb. cbn [bind].
  rewrite Hsub1. cbn [bind]. rewrite Habs1. cbn [bind].
  rewrite Hsub2. cbn [bind]. rewrite Habs2. cbn [bind].
  rewrite Hmin. cbn [bind]. rewrite Hdiv. cbn [bind]. rewrite Hone.
  unfold py_round. cbn [decode]. rewrite Hdt. do 2 f_equal.
  apply Qround_dec_comp. rewrite Hvt. unfold confidence_double.
  apply Q.min_compat; [reflexivity |].
  rewrite (double_value_comp (dm / double_value (2 # 10))
             (double_value (threshold_distance (double_value s) (double_value a)
                              (double_value b)) / double_value (2 # 10)));
    [reflexivity |].
  apply Qdiv_comp; [| reflexivity].
  rewrite Hvm, Hv1, Hv2. unfold threshold_distance.
  rewrite double_value_min by (split; [apply Qabs_nonneg | lra]).
  rewrite !double_value_abs by lra. reflexivity.
Qed.

(** *** The double the confidence is rounded from *)

Lemma double_error (q : Q) (t : Z) :
  (-1022 <= t < 1024)%Z → (Qabs q <= 2 ^ t)%Q →
  (Qabs (double_value q - q) <= (1 # 2) * 2 ^ (t - 52))%Q.
Proof.
  intros Ht Hle. destruct (to_double_bounded q t) as (d & Hd & _); [lia | exact Hle |].
  rewrite (double_value_Fin q d Hd).
  pose proof (to_double_error q d Hd) as Herr.
  pose proof (pow2_pos (t - 52)) as Hpos.
  destruct (Qeq_dec q 0) as [Hz | Hnz].
  - rewrite (to_double_zero q Hz) in Hd. injection Hd as <-.
    assert (E : (0 - q == 0)%Q) by (rewrite Hz; reflexivity).
    rewrite E. change (Qabs 0) with 0%Q. lra.
  - assert (He : (ulp_exponent q <= t - 52)%Z).
    { apply ulp_exponent_le; [exact Hnz | | lia].
      assert (2 ^ t < 2 ^ (t + 1))%Q by (apply pow2_lt; lia). lra. }
    pose proof (pow2_le _ _ He). lra.
Qed.

Lemma double_error_unit (q : Q) :
  (Qabs q <= 1)%Q → (Qabs (double_value q - q) <= 1 # 9007199254740992)%Q.
Proof.
  intros H. pose proof (double_error q 0 ltac:(lia) H) as Herr.
  change ((1 # 2) * 2 ^ (0 - 52))%Q with ((1 # 2) * (1 # 4503599627370496))%Q in Herr.
  lra.
Qed.

Lemma double_error_small (q : Q) :
  (Qabs q <= 8)%Q → (Qabs (double_value q - q) <= 1 # 1125899906842624)%Q.
Proof.
  intros H. pose proof (double_error q 3 ltac:(lia) H) as Herr.
  change ((1 # 2) * 2 ^ (3 - 52))%Q with ((1 # 2) * (1 # 562949953421312))%Q in Herr.
  lra.
Qed.

Lemma double_value_mono (x y : Q) :
  (0 <= x)%Q → (x <= y)%Q → (y <= 8)%Q → (double_value x <= double_value y)%Q.
Proof.
  intros H0 Hle H8.
  destruct (to_double_small x) as [Hdx _]; [rewrite Qabs_pos; lra |].
  destruct (to_double_small y) as [Hdy _]; [rewrite Qabs_pos; lra |].
  apply (to_double_mono x y _ _ Hdx Hdy H0 Hle).
Qed.

Lemma double_value_nonneg (x : Q) : (0 <= x <= 8)%Q → (0 <= double_value x <= 8)%Q.
Proof.
  intros H. destruct (to_double_small x) as [Hd Hb]; [rewrite Qabs_pos; lra |].
  pose proof (to_double_nonneg x _ Hd (proj1 H)). apply Qabs_Qle_condition in Hb. lra.
Qed.

Lemma double_value_fifth : double_value (2 # 10) = (3602879701896397 # 18014398509481984)%Q.
Proof. apply double_value_Fin, to_double_fifth. Qed.

Lemma double_value_one : double_value 1 = 1%Q.
Proof. apply double_value_Fin, to_double_one. Qed.

Lemma Qmin_one_close (x y e : Q) :
  (x - e <= y <= x + e)%Q → (Qmin 1 x - e <= Qmin y 1 <= Qmin 1 x + e)%Q.
Proof.
  intros H.
  destruct (Q.min_spec 1 x) as [[H1 E1] | [H1 E1]];
    destruct (Q.min_spec y 1) as [[H2 E2] | [H2 E2]]; rewrite E1, E2; lra.
Qed.

Lemma threshold_distance_nonneg (s a b : Q) : (0 <= threshold_distance s a b)%Q.
Proof. unfold threshold_distance. apply Q.min_glb; apply Qabs_nonneg. Qed.

Section ConfidenceDouble.

Variables s a b : Q.
Hypothesis Hs : (0 <= s <= 1)%Q.
Hypothesis Ha : (0 <= a <= 1)%Q.
Hypothesis Hb : (0 <= b <= 1)%Q.

#[local] Abbreviation D :=
  (threshold_distance (double_value s) (double_value a) (double_value b)).

Lemma unit_distance : (0 <= D <= 1)%Q.
Proof.
  destruct (to_double_unit s Hs) as [_ H1]. destruct (to_double_unit a Ha) as [_ H2].
  split; [apply threshold_distance_nonneg |]. unfold threshold_distance.
  apply (Qle_trans _ (Qabs (double_value s - double_value a))); [apply Q.le_min_l |].
  apply Qabs_Qle_condition. lra.
Qed.

Lemma unit_ratio :
  (0 <= double_value D / double_value (2 # 10) <= 8)%Q.
Proof.
  pose proof unit_distance as HD.
  destruct (to_double_unit D HD) as [_ Hd]. rewrite double_value_fifth.
  unfold Qdiv. change (/ (3602879701896397 # 18014398509481984))%Q
    with (18014398509481984 # 3602879701896397)%Q. lra.
Qed.

Lemma confidence_double_unit : (0 <= confidence_double s a b <= 1)%Q.
Proof.
  unfold confidence_double. pose proof (double_value_nonneg _ unit_ratio) as H.
  split; [apply Q.min_glb; lra | apply Q.le_min_l].
Qed.

(** It is within 2^-48 of the exact value of the formula. *)
Lemma confidence_double_error :
  (Qabs (confidence_double s a b
         - spec_confidence (double_value s) (double_value a) (double_value b))
   <= 1 # 281474976710656)%Q.
Proof.
  pose proof unit_distance as HD. pose proof unit_ratio as HR.
  pose proof (double_error_unit D) as E1. rewrite Qabs_pos in E1 by lra.
  specialize (E1 (proj2 HD)).
  pose proof (double_error_small (double_value D / double_value (2 # 10))) as E2.
  rewrite Qabs_pos in E2 by lra. specialize (E2 (proj2 HR)).
  unfold confidence_double, spec_confidence, Qclamp.
  set (x := double_value (double_value D / double_value (2 # 10))) in *.
  revert E2. rewrite double_value_fifth. unfold Qdiv.
  change (/ (3602879701896397 # 18014398509481984))%Q
    with (18014398509481984 # 3602879701896397)%Q.
  change (/ (2 # 10))%Q with (10 # 2)%Q.
  set (dD := double_value D) in *. intros E2.
  apply Qabs_Qle_condition in E1, E2. apply Qabs_Qle_condition.
  rewrite (Q.max_l (D * (10 # 2)) 0) by lra.
  assert (Hclose : (x - (1 # 281474976710656) <= D * (10 # 2)
                    <= x + (1 # 281474976710656))%Q) by lra.
  pose proof (Qmin_one_close x (D * (10 # 2)) _ Hclose). lra.
Qed.

End ConfidenceDouble.

Lemma confidence_double_mono (s s' a b : Q) :
  (0 <= s <= 1)%Q → (0 <= s' <= 1)%Q → (0 <= a <= 1)%Q → (0 <= b <= 1)%Q →
  (threshold_distance (double_value s) (double_value a) (double_value b)
   <= threshold_distance (double_value s') (double_value a) (double_value b))%Q →
  (confidence_double s a b <= confidence_double s' a b)%Q.
Proof.
  intros Hs Hs' Ha Hb Hle. unfold confidence_double.
  pose proof (unit_distance s a b Hs Ha) as HD. pose proof (unit_distance s' a b Hs' Ha) as HD'.
  pose proof (unit_ratio s a b Hs Ha) as HR. pose proof (unit_ratio s' a b Hs' Ha) as HR'.
  apply Q.min_le_compat_l. apply double_value_mono; [lra | | lra].
  apply Qmult_le_compat_r.
  - apply double_value_mono; lra.
  - rewrite double_value_fifth. discriminate.
Qed.

Lemma confidence_double_far (s a b : Q) :
  (0 <= s <= 1)%Q → (0 <= a <= 1)%Q →
  (2 # 10 <= threshold_distance (double_value s) (double_value a) (double_value b))%Q →
  (confidence_double s a b == 1)%Q.
Proof.
  intros Hs Ha Hfar. unfold confidence_double.
  pose proof (unit_distance s a b Hs Ha) as HD. pose proof (unit_ratio s a b Hs Ha) as HR.
  apply Q.min_l. rewrite <- double_value_one at 1.
  apply double_value_mono; [lra | | lra].
  assert (Hd : (double_value (2 # 10)
                <= double_value (threshold_distance (double_value s) (double_value a)
                                   (double_value b)))%Q)
    by (apply double_value_mono; lra).
  revert Hd HR. rewrite double_value_fifth. intros Hd HR.
  apply Qle_shift_div_l; [reflexivity | lra].
Qed.

Lemma confidence_double_zero (s a b : Q) :
  (threshold_distance (double_value s) (double_value a) (double_value b) == 0)%Q →
  (confidence_double s a b == 0)%Q.
Proof.
  intros Hz. unfold confidence_double.
  rewrite (double_value_comp _ 0 Hz).
  change (double_value 0) with 0%Q.
  rewrite (double_value_comp (0 / double_value (2 # 10)) 0)
    by (rewrite double_value_fifth; reflexivity).
  reflexivity.
Qed.

(** *** Rounding to three decimals *)

Lemma round_half_even_tie (y : Q) :
  (Qabs (inject_Z (round_half_even y) - y) == 1 # 2)%Q →
  Z.even (round_half_even y) = true.
Proof.
  pose proof (Qfloor_le y) as Hlo. pose proof (Qlt_floor y) as Hhi.
  rewrite inject_Z_plus in Hhi. change (inject_Z 1) with 1%Q in Hhi.
  unfold round_half_even. set (f := Qfloor y) in *.
  destruct (Qcompare_spec (y - inject_Z f) (1 # 2)) as [He | Hl | Hg].
  - intros _. destruct (Z.even f) eqn:E; [exact E |].
    rewrite Z.even_add, E. reflexivity.
  - intros H. exfalso. rewrite Qabs_neg in H by lra. lra.
  - intros H. exfalso. rewrite inject_Z_plus in H. change (inject_Z 1) with 1%Q in H.
    rewrite Qabs_pos in H by lra. lra.
Qed.

Lemma round_three (x : Q) : rounded_to 3 x (Qround_dec x 3).
Proof.
  exists (round_half_even (x * inject_Z (pow10 3))).
  pose proof (round_half_even_near (x * inject_Z (pow10 3))) as Hnear.
  pose proof (round_half_even_tie (x * inject_Z (pow10 3))) as Htie.
  unfold Qround_dec. set (k := inject_Z (round_half_even (x * inject_Z (pow10 3)))) in *.
  change (inject_Z (pow10 3)) with 1000%Q in *.
  change (inject_Z (10 ^ Z.of_nat 3)) with 1000%Q.
  change (1 # 2 * Pos.of_nat (10 ^ 3))%Q with (1 # 2000)%Q.
  assert (E : (k / 1000 - x == (k - x * 1000) * (1 # 1000))%Q) by field.
  split; [reflexivity |]. rewrite E, Qabs_Qmult. change (Qabs (1 # 1000)) with (1 # 1000)%Q.
  split; [lra |]. intros H. apply Htie. lra.
Qed.

Lemma Qround_dec_unit (q : Q) (n : nat) :
  (n = 3 ∨ n = 4)%nat → (0 <= q <= 1)%Q → (0 <= Qround_dec q n <= 1)%Q.
Proof.
  intros Hn [H0 H1]. split.
  - apply (Qle_trans _ (Qround_dec 0 n)); [| apply Qround_dec_mono; exact H0].
    destruct Hn as [-> | ->]; discriminate.
  - apply (Qle_trans _ (Qround_dec 1 n)); [apply Qround_dec_mono; exact H1 |].
    destruct Hn as [-> | ->]; discriminate.
Qed.

(** ** Threshold bands *)

Section Bands.

Variable float_repr : num → string.
Variable now_iso : string.

Lemma base_action_default (score : value) (q : Q) :
  as_num score = Some (Fin q) →
  _get_base_action FRAUD_THRESHOLDS score =
    Ok (if Qlt_bool q (4 # 10) then "ALLOW"
        else if Qlt_bool q (7 # 10) then "VERIFY" else "BLOCK").
Proof.
  intros Hs. unfold _get_base_action.
  change (getitem FRAUD_THRESHOLDS "allow") with (Ok (VFloat (Fin (4 # 10)))).
  change (getitem FRAUD_THRESHOLDS "block") with (Ok (VFloat (Fin (7 # 10)))).
  cbn [bind]. rewrite (py_lt_num score (VFloat (Fin (4 # 10))) (Fin q) (Fin (4 # 10)) Hs eq_refl). cbn [bind num_ltb].
  destruct (Qlt_bool q (4 # 10)); [reflexivity |].
  rewrite (py_lt_num score (VFloat (Fin (7 # 10))) (Fin q) (Fin (7 # 10)) Hs eq_refl). cbn [bind num_ltb].
  destruct (Qlt_bool q (7 # 10)); reflexivity.
Qed.

Lemma risk_level_default (score : value) (q : Q) :
  as_num score = Some (Fin q) →
  _get_risk_level score =
    Ok (if Qle_bool 0 q && Qlt_bool q (4 # 10) then "LOW"
        else if Qle_bool (4 # 10) q && Qlt_bool q (7 # 10) then "MEDIUM"
        else if Qle_bool (7 # 10) q && Qlt_bool q 1 then "HIGH"
        else "HIGH").
Proof.
  intros Hs. unfold _get_risk_level, RISK_LEVELS, first_band. cbn [band_min band_max].
  rewrite (py_le_num (VFloat (Fin 0)) score (Fin 0) (Fin q) eq_refl Hs).
  rewrite (py_le_num (VFloat (Fin (4 # 10))) score (Fin (4 # 10)) (Fin q) eq_refl Hs).
  rewrite (py_le_num (VFloat (Fin (7 # 10))) score (Fin (7 # 10)) (Fin q) eq_refl Hs).
  rewrite (py_lt_num score (VFloat (Fin (4 # 10))) (Fin q) (Fin (4 # 10)) Hs eq_refl).
  rewrite (py_lt_num score (VFloat (Fin (7 # 10))) (Fin q) (Fin (7 # 10)) Hs eq_refl).
  rewrite (py_lt_num score (VFloat (Fin 1)) (Fin q) (Fin 1) Hs eq_refl).
  cbn [bind num_leb num_ltb].
  destruct (Qle_bool 0 q), (Qlt_bool q (4 # 10)), (Qle_bool (4 # 10) q),
    (Qlt_bool q (7 # 10)), (Qle_bool (7 # 10) q), (Qlt_bool q 1); reflexivity.
Qed.

End Bands.

(** ** The shape of [make_decision] *)

Lemma bind_Ok_inv {A B : Type} (m : res A) (k : A → res B) (b : B) :
  bind m k = Ok b → ∃ a, m = Ok a ∧ k a = Ok b.
Proof. destruct m as [a | e]; simpl; [eauto | discriminate]. Qed.

Lemma bind_Raise_inv {A B : Type} (m : res A) (k : A → res B) (e : exn) :
  bind m k = Raise e → m = Raise e ∨ ∃ a, m = Ok a ∧ k a = Raise e.
Proof. destruct m as [a | e']; simpl; [eauto | intros [= ->]; auto]. Qed.

Ltac bind_inv H :=
  let a := fresh "a" in
  let Ha := fresh "H" a in
  apply bind_Ok_inv in H; destruct H as (a & Ha & H).

Section Decision.

Variable float_repr : num → string.
Variable now_iso : string.

Lemma make_decision_not_number thresholds score ctx :
  is_number score = false →
  make_decision float_repr now_iso thresholds score ctx =
    Raise (ValueError "Fraud score must be a number").
Proof. intros H. unfold make_decision. rewrite H. reflexivity. Qed.

Lemma make_decision_out_of_range thresholds score ctx x :
  as_num score = Some x → out_of_range x = true →
  make_decision float_repr now_iso thresholds score ctx =
    Raise (ValueError ("Fraud score must be between 0 and 1, got "
                         +:+ str_number float_repr score)).
Proof.
  intros Hs Hr. unfold make_decision.
  rewrite (as_num_is_number _ _ Hs). cbn [negb].
  rewrite (py_lt_num score (VInt 0) x (Fin 0) Hs eq_refl). cbn [bind].
  unfold out_of_range in Hr.
  destruct (num_ltb x (Fin 0)); cbn [bind orb] in *; [reflexivity |].
  rewrite (py_gt_num score (VInt 1) x (Fin 1) Hs eq_refl). cbn [bind].
  rewrite Hr. reflexivity.
Qed.

Lemma make_decision_in_range thresholds score ctx x :
  as_num score = Some x → out_of_range x = false →
  make_decision float_repr now_iso thresholds score ctx =
    (let* base_action := _get_base_action thresholds score in
     let* risk_level := _get_risk_level score in
     let* (final_action, reasoning) :=
       _apply_business_rules float_repr base_action score ctx in
     let* confidence := _calculate_confidence thresholds score in
     Ok {| d_fraud_score := round_score score;
           d_risk_level := risk_level;
           d_action := final_action;
           d_reasoning := reasoning;
           d_timestamp := now_iso;
           d_confidence := confidence |}).
Proof.
  intros Hs Hr. unfold make_decision.
  rewrite (as_num_is_number _ _ Hs). cbn [negb].
  rewrite (py_lt_num score (VInt 0) x (Fin 0) Hs eq_refl). cbn [bind].
  unfold out_of_range in Hr.
  destruct (num_ltb x (Fin 0)); cbn [bind orb] in *; [discriminate |].
  rewrite (py_gt_num score (VInt 1) x (Fin 1) Hs eq_refl). cbn [bind].
  rewrite Hr. reflexivity.
Qed.

(** A decision that is returned went through every step. *)
Lemma make_decision_Ok_inv thresholds score ctx r :
  make_decision float_repr now_iso thresholds score ctx = Ok r →
  ∃ x base_action,
    as_num score = Some x ∧ out_of_range x = false ∧
    _get_base_action thresholds score = Ok base_action ∧
    _get_risk_level score = Ok (d_risk_level r) ∧
    _apply_business_rules float_repr base_action score ctx
      = Ok (d_action r, d_reasoning r) ∧
    _calculate_confidence thresholds score = Ok (d_confidence r).
Proof.
  intros H.
  destruct (is_number score) eqn:Hn;
    [| rewrite (make_decision_not_number _ _ _ Hn) in H; discriminate].
  destruct (is_number_as_num _ Hn) as [x Hx].
  destruct (out_of_range x) eqn:Hr;
    [rewrite (make_decision_out_of_range _ _ _ _ Hx Hr) in H; discriminate |].
  rewrite (make_decision_in_range _ _ _ _ Hx Hr) in H.
  bind_inv H. bind_inv H. bind_inv H. destruct a1 as [final_action reasoning].
  bind_inv H. injection H as <-. simpl.
  exists x, a. repeat split; assumption.
Qed.

Lemma out_of_range_Fin (q : Q) : out_of_range (Fin q) = false ↔ (0 <= q <= 1)%Q.
Proof.
  unfold out_of_range. simpl. rewrite orb_false_iff, !Qlt_bool_false. reflexivity.
Qed.

End Decision.

Section DecisionDefault.

Variable float_repr : num → string.
Variable now_iso : string.

Lemma make_decision_no_context_default (score : value) (q : Q) :
  as_num score = Some (Fin q) → (0 <= q <= 1)%Q →
  ∃ r, make_decision float_repr now_iso FRAUD_THRESHOLDS score None = Ok r ∧
       _get_base_action FRAUD_THRESHOLDS score = Ok (d_action r) ∧
       _get_risk_level score = Ok (d_risk_level r).
Proof.
  intros Hs Hq.
  rewrite (make_decision_in_range float_repr now_iso _ _ _ _ Hs
             (proj2 (out_of_range_Fin q) Hq)).
  rewrite (base_action_default score q Hs), (risk_level_default score q Hs).
  cbn [bind _apply_business_rules].
  rewrite (calculate_confidence_unit FRAUD_THRESHOLDS
             (VFloat (Fin (4 # 10))) (VFloat (Fin (7 # 10))) score (4 # 10) (7 # 10) q);
    [| reflexivity | split; [reflexivity | split; discriminate]
     | reflexivity | split; [reflexivity | split; discriminate] | split; assumption].
  cbn [bind]. eexists. split; [reflexivity |]. split; reflexivity.
Qed.

End DecisionDefault.

Lemma default_band_outcome (float_repr : num → string) (now_iso : string)
    (score : value) (q : Q) (action level : string) :
  as_num score = Some (Fin q) →
  ((0 <= q < 4 # 10)%Q ∧ action = "ALLOW" ∧ level = "LOW") ∨
  ((4 # 10 <= q < 7 # 10)%Q ∧ action = "VERIFY" ∧ level = "MEDIUM") ∨
  ((7 # 10 <= q <= 1)%Q ∧ action = "BLOCK" ∧ level = "HIGH") →
  decided_as float_repr now_iso score action level.
Proof.
  intros Hs Hband.
  assert (Hbase : _get_base_action FRAUD_THRESHOLDS score = Ok action ∧
                  _get_risk_level score = Ok level ∧ (0 <= q <= 1)%Q).
  { rewrite (base_action_default score q Hs), (risk_level_default score q Hs).
    destruct Hband as [(Hq & -> & ->) | [(Hq & -> & ->) | (Hq & -> & ->)]].
    - assert (H1 : Qlt_bool q (4 # 10) = true) by (apply Qlt_bool_iff; lra).
      assert (H2 : Qle_bool 0 q = true) by (apply Qle_bool_iff; lra).
      rewrite H1, H2. repeat split; lra.
    - assert (H1 : Qlt_bool q (4 # 10) = false) by (apply Qlt_bool_false; lra).
      assert (H2 : Qlt_bool q (7 # 10) = true) by (apply Qlt_bool_iff; lra).
      assert (H3 : Qle_bool (4 # 10) q = true) by (apply Qle_bool_iff; lra).
      rewrite H1, H2, H3, andb_false_r. repeat split; lra.
    - assert (H1 : Qlt_bool q (4 # 10) = false) by (apply Qlt_bool_false; lra).
      assert (H2 : Qlt_bool q (7 # 10) = false) by (apply Qlt_bool_false; lra).
      rewrite H1, H2, !andb_false_r.
      destruct (Qle_bool (7 # 10) q && Qlt_bool q 1); repeat split; lra. }
  destruct Hbase as (Hact & Hlvl & Hq).
  split; [exact Hact |]. split; [exact Hlvl |]. split.
  - destruct (make_decision_no_context_default float_repr now_iso score q Hs Hq)
      as (r & Hr & Ha & Hl).
    exists r. split; [exact Hr |]. split; congruence.
  - intros ctx r Hr.
    destruct (make_decision_Ok_inv _ _ _ _ _ _ Hr) as (x & base & _ & _ & _ & Hl & _).
    congruence.
Qed.

Lemma no_band_holds_one (score : value) (q : Q) :
  as_num score = Some (Fin q) → (q == 1)%Q → first_band RISK_LEVELS score = Ok None.
Proof.
  intros Hs Hq. unfold RISK_LEVELS, first_band. cbn [band_min band_max].
  rewrite (py_le_num (VFloat (Fin 0)) score (Fin 0) (Fin q) eq_refl Hs).
  rewrite (py_le_num (VFloat (Fin (4 # 10))) score (Fin (4 # 10)) (Fin q) eq_refl Hs).
  rewrite (py_le_num (VFloat (Fin (7 # 10))) score (Fin (7 # 10)) (Fin q) eq_refl Hs).
  rewrite (py_lt_num score (VFloat (Fin (4 # 10))) (Fin q) (Fin (4 # 10)) Hs eq_refl).
  rewrite (py_lt_num score (VFloat (Fin (7 # 10))) (Fin q) (Fin (7 # 10)) Hs eq_refl).
  rewrite (py_lt_num score (VFloat (Fin 1)) (Fin q) (Fin 1) Hs eq_refl).
  cbn [bind num_leb num_ltb].
  assert (H1 : Qlt_bool q (4 # 10) = false) by (apply Qlt_bool_false; lra).
  assert (H2 : Qlt_bool q (7 # 10) = false) by (apply Qlt_bool_false; lra).
  assert (H3 : Qlt_bool q 1 = false) by (apply Qlt_bool_false; lra).
  rewrite H1, H2, H3.
  destruct (Qle_bool 0 q), (Qle_bool (4 # 10) q), (Qle_bool (7 # 10) q); reflexivity.
Qed.

(** C1. Against the default thresholds (allow = 0.4, block = 0.7), every
    score in [0, 0.4) gets risk level LOW and base action ALLOW, every score
    in [0.4, 0.7) gets MEDIUM and VERIFY, and every score in [0.7, 1.0] gets
    HIGH and BLOCK; the score 1.0 lies in no band's interval [min, max) and
    gets HIGH by the fall-back. *)
Theorem default_threshold_bands (float_repr : num → string) (now_iso : string)
    (score : value) (q : Q) :
  as_num score = Some (Fin q) →
  ((0 <= q < 4 # 10)%Q → decided_as float_repr now_iso score "ALLOW" "LOW") ∧
  ((4 # 10 <= q < 7 # 10)%Q → decided_as float_repr now_iso score "VERIFY" "MEDIUM") ∧
  ((7 # 10 <= q <= 1)%Q → decided_as float_repr now_iso score "BLOCK" "HIGH") ∧
  ((q == 1)%Q → first_band RISK_LEVELS score = Ok None).
Proof.
  intros Hs. split; [| split; [| split]]; intros Hq.
  - apply (default_band_outcome float_repr now_iso score q _ _ Hs). left. done.
  - apply (default_band_outcome float_repr now_iso score q _ _ Hs). right. left. done.
  - apply (default_band_outcome float_repr now_iso score q _ _ Hs). right. right. done.
  - exact (no_band_holds_one score q Hs Hq).
Qed.

Lemma default_threshold_bands_witness :
  decided_as (fun _ => "") "" (VFloat (Fin (2 # 10))) "ALLOW" "LOW" ∧
  decided_as (fun _ => "") "" (VFloat (Fin (5 # 10))) "VERIFY" "MEDIUM" ∧
  decided_as (fun _ => "") "" (VInt 1) "BLOCK" "HIGH" ∧
  first_band RISK_LEVELS (VInt 1) = Ok None.
Proof.
  split; [| split; [| split]].
  - apply (default_threshold_bands _ _ (VFloat (Fin (2 # 10))) (2 # 10) eq_refl).
    split; [discriminate | reflexivity].
  - apply (default_threshold_bands _ _ (VFloat (Fin (5 # 10))) (5 # 10) eq_refl).
    split; [discriminate | reflexivity].
  - apply (default_threshold_bands _ _ (VInt 1) 1 eq_refl).
    split; discriminate.
  - apply (default_threshold_bands (fun _ => "") "" (VInt 1) 1 eq_refl).
    reflexivity.
Defined.

(** ** Where a [ValueError] can come from *)

(** Past its two checks on the score, the engine raises no [ValueError]:
    what its steps can raise is a [TypeError], a [KeyError] or, in the
    arithmetic of the confidence, an [OverflowError]. *)

Lemma nve_Ok {A : Type} (a : A) : no_value_error (Ok a).
Proof. intros msg. discriminate. Qed.

Lemma nve_bind {A B : Type} (m : res A) (k : A → res B) :
  no_value_error m → (∀ a, no_value_error (k a)) → no_value_error (bind m k).
Proof.
  intros Hm Hk msg. destruct m as [a | e]; simpl; [apply Hk |].
  intros [= ->]. exact (Hm msg eq_refl).
Qed.

Lemma nve_if {A : Type} (b : bool) (m1 m2 : res A) :
  no_value_error m1 → no_value_error m2 → no_value_error (if b then m1 else m2).
Proof. destruct b; auto. Qed.

Lemma nve_py_compare op fnum fstr a b : no_value_error (py_compare op fnum fstr a b).
Proof.
  intros msg. unfold py_compare, compare_error.
  destruct (as_num a), (as_num b), a, b; discriminate.
Qed.

Lemma nve_getitem d k : no_value_error (getitem d k).
Proof. intros msg. unfold getitem. destruct (d !! k); discriminate. Qed.

Lemma nve_float_of_int z : no_value_error (float_of_int z).
Proof. intros msg. unfold float_of_int. destruct (to_double _); discriminate. Qed.

Lemma nve_as_float v m : as_float v = Some m → no_value_error m.
Proof.
  destruct v; cbn [as_float as_int]; intros [= <-];
    first [apply nve_float_of_int | apply nve_Ok].
Qed.

Lemma nve_py_mul_int v n : no_value_error (py_mul_int v n).
Proof.
  destruct v; cbn [py_mul_int]; try (intros msg; discriminate).
  apply nve_bind; [apply nve_float_of_int | intros y; apply nve_Ok].
Qed.

Lemma nve_py_sub a b : no_value_error (py_sub a b).
Proof.
  unfold py_sub, operand_error.
  destruct (as_int a), (as_int b); try apply nve_Ok;
    (destruct (as_float a) as [x |] eqn:Ea; [| intros msg; discriminate];
     destruct (as_float b) as [y |] eqn:Eb; [| intros msg; discriminate];
     apply nve_bind; [apply (nve_as_float a x Ea) | intros x'];
     apply nve_bind; [apply (nve_as_float b y Eb) | intros y']; apply nve_Ok).
Qed.

Lemma nve_py_abs v : no_value_error (py_abs v).
Proof. intros msg. destruct v; discriminate. Qed.

Lemma nve_py_min_list x xs : no_value_error (py_min_list x xs).
Proof.
  revert x. induction xs as [| y rest IH]; intros x; cbn [py_min_list]; [apply nve_Ok |].
  apply nve_bind; [apply nve_py_compare | intros smaller; apply IH].
Qed.

Lemma nve_py_div_pos v c : no_value_error (py_div_pos v c).
Proof.
  unfold py_div_pos, operand_error.
  destruct (as_float v) as [x |] eqn:E; [| intros msg; discriminate].
  apply nve_bind; [apply (nve_as_float v x E) | intros x'; apply nve_Ok].
Qed.

Create HintDb nve discriminated.
#[local] Hint Resolve nve_Ok nve_py_mul_int nve_py_sub nve_getitem nve_py_abs
  nve_py_min_list nve_py_div_pos : nve.
#[local] Hint Extern 1 (no_value_error (py_lt _ _)) => apply nve_py_compare : nve.
#[local] Hint Extern 1 (no_value_error (py_le _ _)) => apply nve_py_compare : nve.
#[local] Hint Extern 1 (no_value_error (py_gt _ _)) => apply nve_py_compare : nve.
#[local] Hint Extern 1 (no_value_error (py_ge _ _)) => apply nve_py_compare : nve.

Ltac nve_step :=
  match goal with
  | |- no_value_error (bind _ _) => apply nve_bind; [| intros ?]
  | |- no_value_error (if _ then _ else _) => apply nve_if
  | |- no_value_error (let '(_, _) := ?p in _) => destruct p
  | |- no_value_error (match ?x with Some _ => _ | None => _ end) => destruct x
  | |- no_value_error (match ?x with [] => _ | _ :: _ => _ end) => destruct x
  | |- no_value_error _ => solve [auto with nve]
  end.

Ltac nve := repeat nve_step.

Lemma nve_get_base_action thresholds score :
  no_value_error (_get_base_action thresholds score).
Proof. unfold _get_base_action. nve. Qed.

Lemma nve_first_band levels score : no_value_error (first_band levels score).
Proof.
  induction levels as [| [level config] rest IH]; simpl; [apply nve_Ok |].
  nve.
Qed.

Lemma nve_get_risk_level score : no_value_error (_get_risk_level score).
Proof. unfold _get_risk_level. nve. apply nve_first_band. Qed.

Lemma nve_apply_business_rules float_repr base score ctx :
  no_value_error (_apply_business_rules float_repr base score ctx).
Proof.
  unfold _apply_business_rules, business_rule_1, business_rule_2, business_rule_3,
    business_rule_5, count_risk_indicators, check_location, check_frequency,
    check_receiver.
  nve.
Qed.

Lemma nve_calculate_confidence thresholds score :
  no_value_error (_calculate_confidence thresholds score).
Proof. unfold _calculate_confidence. nve. Qed.

(** ** Validation of the score *)

Section ScoreValidation.

Variable float_repr : num → string.
Variable now_iso : string.

(** [make_decision] raises a [ValueError] exactly when one of its two checks
    fires: the score is no [int] or [float], or [score < 0 or score > 1]. *)
Lemma invalid_score_exactly thresholds score ctx :
  (∃ msg, make_decision float_repr now_iso thresholds score ctx = Raise (ValueError msg))
  ↔ (is_number score = false ∨ ∃ x, as_num score = Some x ∧ out_of_range x = true).
Proof.
  split.
  - intros [msg H].
    destruct (is_number score) eqn:Hn; [right | left; reflexivity].
    destruct (is_number_as_num _ Hn) as [x Hx]. exists x. split; [exact Hx |].
    destruct (out_of_range x) eqn:Hr; [reflexivity | exfalso].
    rewrite (make_decision_in_range _ _ _ _ _ _ Hx Hr) in H.
    revert H. apply nve_bind; [apply nve_get_base_action | intros base].
    apply nve_bind; [apply nve_get_risk_level | intros level].
    apply nve_bind; [apply nve_apply_business_rules | intros [action reasoning]].
    apply nve_bind; [apply nve_calculate_confidence | intros c]. apply nve_Ok.
  - intros [Hn | (x & Hx & Hr)].
    + eexists. apply make_decision_not_number. exact Hn.
    + eexists. eapply make_decision_out_of_range; eassumption.
Qed.

(** On every number but NaN the range check is membership in [0, 1]. *)
Lemma out_of_range_not_nan (x : num) :
  x ≠ NaN → out_of_range x = negb (in_unit_interval x).
Proof.
  intros Hx. unfold out_of_range, in_unit_interval.
  destruct x as [q | | |]; try reflexivity; [| contradiction].
  simpl. unfold Qlt_bool. rewrite negb_andb. reflexivity.
Qed.

(** For every score that is not NaN, [make_decision] raises a [ValueError]
    exactly when the score is not a number or not in [0, 1]. *)
Lemma invalid_score_not_nan thresholds score ctx :
  as_num score ≠ Some NaN →
  (∃ msg, make_decision float_repr now_iso thresholds score ctx = Raise (ValueError msg))
  ↔ (is_number score = false ∨ ∃ x, as_num score = Some x ∧ in_unit_interval x = false).
Proof.
  intros Hnan. rewrite invalid_score_exactly.
  split; (intros [Hn | (x & Hx & Hr)]; [left; exact Hn | right; exists x; split; [exact Hx |]]).
  - rewrite out_of_range_not_nan in Hr by congruence.
    apply negb_true_iff. exact Hr.
  - rewrite out_of_range_not_nan by congruence. rewrite Hr. reflexivity.
Qed.

(** Under the default thresholds and without a context, every finite number
    in [0, 1] is decided. *)
Lemma valid_score_decided (score : value) (q : Q) :
  as_num score = Some (Fin q) → in_unit_interval (Fin q) = true →
  ∃ r, make_decision float_repr now_iso FRAUD_THRESHOLDS score None = Ok r.
Proof.
  intros Hs Hq. unfold in_unit_interval in Hq. simpl in Hq.
  apply andb_true_iff in Hq as [H0 H1]. apply Qle_bool_iff in H0, H1.
  destruct (make_decision_no_context_default float_repr now_iso score q Hs (conj H0 H1))
    as (r & Hr & _).
  exists r. exact Hr.
Qed.

Example invalid_score_negative :
  make_decision float_repr now_iso FRAUD_THRESHOLDS (VFloat (Fin (-1 # 10))) None
  = Raise (ValueError ("Fraud score must be between 0 and 1, got "
                         +:+ float_repr (Fin (-1 # 10)))).
Proof. reflexivity. Qed.

Example low_score_allowed :
  ∃ r, make_decision float_repr now_iso FRAUD_THRESHOLDS (VFloat (Fin (2 # 10))) None = Ok r
       ∧ d_action r = "ALLOW" ∧ d_risk_level r = "LOW".
Proof. eexists. split; [vm_compute; reflexivity |]. split; reflexivity. Qed.

Example high_score_blocked :
  ∃ r, make_decision float_repr now_iso FRAUD_THRESHOLDS (VFloat (Fin (75 # 100))) None = Ok r
       ∧ d_action r = "BLOCK" ∧ d_risk_level r = "HIGH".
Proof. eexists. split; [vm_compute; reflexivity |]. split; reflexivity. Qed.

End ScoreValidation.

(** C8. [make_decision] is to fail with an invalid-score error exactly when
    its score is not a number or lies outside [0, 1].  The float NaN is
    not in [0, 1], yet neither [score < 0] nor [score > 1] holds of it: the
    check lets it through, and the engine returns a decision for it (BLOCK,
    HIGH, with score NaN) instead of raising. *)
Theorem make_decision_accepts_nan (float_repr : num → string) (now_iso : string) :
  is_number (VFloat NaN) = true ∧ in_unit_interval NaN = false ∧
  ∃ r, make_decision float_repr now_iso FRAUD_THRESHOLDS (VFloat NaN) None = Ok r ∧
       d_fraud_score r = NaN ∧ d_action r = "BLOCK" ∧ d_risk_level r = "HIGH".
Proof.
  split; [reflexivity |]. split; [reflexivity |].
  eexists. split; [vm_compute; reflexivity |]. repeat split; reflexivity.
Qed.

(** ** Confidence *)

Lemma base_action_num (thresholds : dict) (score va vb : value) (x a b : num) :
  thresholds !! "allow" = Some va → thresholds !! "block" = Some vb →
  as_num score = Some x → as_num va = Some a → as_num vb = Some b →
  _get_base_action thresholds score =
    Ok (if num_ltb x a then "ALLOW" else if num_ltb x b then "VERIFY" else "BLOCK").
Proof.
  intros Ha Hb Hx Hva Hvb. unfold _get_base_action, getitem. rewrite Ha, Hb. cbn [bind].
  rewrite (py_lt_num score va x a Hx Hva). cbn [bind].
  destruct (num_ltb x a); [reflexivity |].
  rewrite (py_lt_num score vb x b Hx Hvb). cbn [bind].
  destruct (num_ltb x b); reflexivity.
Qed.

(** With thresholds of the unit interval and no context, every number of
    the unit interval is decided, with the confidence of the formula. *)
Lemma make_decision_no_context float_repr now_iso
    (thresholds : dict) (va vb score : value) (a b s : Q) :
  thresholds !! "allow" = Some va → unit_number va a →
  thresholds !! "block" = Some vb → unit_number vb b →
  unit_number score s →
  ∃ r, make_decision float_repr now_iso thresholds score None = Ok r ∧
       d_confidence r = Fin (Qround_dec (confidence_double s a b) 3).
Proof.
  intros Hla Ha Hlb Hb Hs.
  rewrite (make_decision_in_range float_repr now_iso _ _ _ _ (proj1 Hs)
             (proj2 (out_of_range_Fin s) (proj2 Hs))).
  rewrite (base_action_num thresholds score va vb (Fin s) (Fin a) (Fin b)
             Hla Hlb (proj1 Hs) (proj1 Ha) (proj1 Hb)).
  rewrite (risk_level_default score s (proj1 Hs)).
  cbn [bind _apply_business_rules].
  rewrite (calculate_confidence_unit thresholds va vb score a b s Hla Ha Hlb Hb Hs).
  cbn [bind]. eexists. split; reflexivity.
Qed.

(** C7, as stated, fails: the engine computes the formula in doubles, and
    the result of the division can lie on the other side of a rounding tie
    than the exact quotient.  For the score 0.2997 under the default
    thresholds the exact value of the formula on the doubles at hand is
    0.5015000000000000568..., whose nearest decimal with three places is
    0.502, and the engine returns 0.501. *)
Lemma confidence_not_nearest :
  ¬ (∀ (thresholds : dict) (va vb score : value) (a b s : Q),
        thresholds !! "allow" = Some va → unit_number va a →
        thresholds !! "block" = Some vb → unit_number vb b →
        unit_number score s →
        ∃ c, _calculate_confidence thresholds score = Ok (Fin c) ∧
             nearest_decimal 3
               (spec_confidence (double_value s) (double_value a) (double_value b)) c).
Proof.
  intros H.
  destruct (H FRAUD_THRESHOLDS (VFloat (Fin (4 # 10))) (VFloat (Fin (7 # 10)))
              (VFloat (Fin (2997 # 10000))) (4 # 10) (7 # 10) (2997 # 10000))
    as (c & Hc & k & _ & Hnear);
    try reflexivity; try (split; [reflexivity | split; discriminate]).
  vm_compute in Hc. injection Hc as <-.
  vm_compute in Hnear. apply Hnear. reflexivity.
Qed.

(** C7, amended.  With thresholds in [0, 1], the confidence of the
    decision for a score in [0, 1] is the formula
    clamp(min(|score - allow|, |score - block|) / 0.2, 0, 1) evaluated in
    double arithmetic and rounded to three decimals: the double [x] the
    engine rounds lies within 2^-48 of the exact value of the formula, and
    the confidence is [x] rounded to three decimals, ties to the even
    digit.  The confidence lies in [0, 1]; it is 1 as soon as the distance
    to the nearer threshold is at least 0.2 and 0 when the score is on a
    threshold; and of two scores the one at least as far from its nearer
    threshold has at least the confidence of the other. *)
Theorem confidence_formula (float_repr : num → string) (now_iso : string)
    (thresholds : dict) (va vb score : value) (a b s : Q) :
  thresholds !! "allow" = Some va → unit_number va a →
  thresholds !! "block" = Some vb → unit_number vb b →
  unit_number score s →
  ∃ c x : Q,
    _calculate_confidence thresholds score = Ok (Fin c) ∧
    (∃ r, make_decision float_repr now_iso thresholds score None = Ok r ∧
          d_confidence r = Fin c) ∧
    (∀ ctx r, make_decision float_repr now_iso thresholds score ctx = Ok r →
              d_confidence r = Fin c) ∧
    rounded_to 3 x c ∧
    (Qabs (x - spec_confidence (double_value s) (double_value a) (double_value b))
     <= 1 # 281474976710656)%Q ∧
    (0 <= c <= 1)%Q ∧
    ((2 # 10 <= threshold_distance (double_value s) (double_value a) (double_value b))%Q →
     (c == 1)%Q) ∧
    ((threshold_distance (double_value s) (double_value a) (double_value b) == 0)%Q →
     (c == 0)%Q) ∧
    (∀ (score' : value) (s' c' : Q),
        unit_number score' s' →
        _calculate_confidence thresholds score' = Ok (Fin c') →
        (threshold_distance (double_value s) (double_value a) (double_value b)
         <= threshold_distance (double_value s') (double_value a) (double_value b))%Q →
        (c <= c')%Q).
Proof.
  intros Hla Ha Hlb Hb Hs.
  pose proof (calculate_confidence_unit thresholds va vb score a b s Hla Ha Hlb Hb Hs) as Hc.
  exists (Qround_dec (confidence_double s a b) 3), (confidence_double s a b).
  split; [exact Hc |]. split; [| split; [| split; [| split; [| split; [| split; [| split]]]]]].
  - apply (make_decision_no_context float_repr now_iso thresholds va vb score a b s
             Hla Ha Hlb Hb Hs).
  - intros ctx r Hr.
    destruct (make_decision_Ok_inv _ _ _ _ _ _ Hr) as (x & base & _ & _ & _ & _ & _ & Hconf).
    congruence.
  - apply round_three.
  - apply (confidence_double_error s a b (proj2 Hs) (proj2 Ha)).
  - apply Qround_dec_unit; [left; reflexivity |].
    apply (confidence_double_unit s a b (proj2 Hs) (proj2 Ha)).
  - intros Hfar. rewrite (Qround_dec_comp _ 1 3); [reflexivity |].
    apply (confidence_double_far s a b (proj2 Hs) (proj2 Ha) Hfar).
  - intros Hzero. rewrite (Qround_dec_comp _ 0 3); [reflexivity |].
    apply (confidence_double_zero s a b Hzero).
  - intros score' s' c' Hs' Hc' Hdist.
    rewrite (calculate_confidence_unit thresholds va vb score' a b s' Hla Ha Hlb Hb Hs')
      in Hc'.
    injection Hc' as <-. apply Qround_dec_mono.
    apply (confidence_double_mono s s' a b (proj2 Hs) (proj2 Hs') (proj2 Ha) (proj2 Hb) Hdist).
Qed.

Lemma confidence_formula_witness :
  ∃ c x : Q,
    _calculate_confidence FRAUD_THRESHOLDS (VFloat (Fin (2003 # 10000))) = Ok (Fin c) ∧
    (c == 999 # 1000)%Q ∧ rounded_to 3 x c ∧
    (Qabs (x - spec_confidence (double_value (2003 # 10000)) (double_value (4 # 10))
                 (double_value (7 # 10)))
     <= 1 # 281474976710656)%Q.
Proof.
  destruct (confidence_formula (fun _ => "") "" FRAUD_THRESHOLDS
              (VFloat (Fin (4 # 10))) (VFloat (Fin (7 # 10))) (VFloat (Fin (2003 # 10000)))
              (4 # 10) (7 # 10) (2003 # 10000))
    as (c & x & Hc & _ & _ & Hround & Herr & _);
    try reflexivity; try (split; [reflexivity | split; discriminate]).
  exists c, x. split; [exact Hc |]. split; [| split; assumption].
  assert (E : _calculate_confidence FRAUD_THRESHOLDS (VFloat (Fin (2003 # 10000)))
              = Ok (Fin (999 # 1000))) by (vm_compute; reflexivity).
  rewrite E in Hc. injection Hc as <-. reflexivity.
Defined.

(** The arithmetic of the engine on some doubles: [round] reads the double
    behind 0.12345, which lies above the tie; the confidence of 0.2997 falls
    below its tie; and an int threshold beyond the doubles makes the
    subtraction from a float score raise. *)
Example round_reads_the_double : py_round (Fin (12345 # 100000)) 4 = Fin (1235 # 10000).
Proof. vm_compute. reflexivity. Qed.

Example confidence_below_tie :
  _calculate_confidence FRAUD_THRESHOLDS (VFloat (Fin (2997 # 10000)))
  = Ok (Fin (501 # 1000)).
Proof. vm_compute. reflexivity. Qed.

Example huge_threshold_overflows :
  make_decision (fun _ => "") ""
    (<["allow" := VInt (10 ^ 400)]> (<["block" := VInt (10 ^ 401)]> ∅))
    (VFloat (Fin (3 # 10))) None
  = Raise (OverflowError "int too large to convert to float").
Proof. vm_compute. reflexivity. Qed.

(** ** The business rules, one by one *)

Lemma keeps_or_verifies_escalates a a' : keeps_or_verifies a a' → keeps_or_escalates a a'.
Proof. intros [H | H]; [left | right; left]; exact H. Qed.

Lemma business_rule_1_moves amount avg_amount st st' :
  business_rule_1 amount avg_amount st = Ok st' → keeps_or_verifies (fst st) (fst st').
Proof.
  destruct st as [action reasoning]. unfold business_rule_1. intros H.
  bind_inv H. bind_inv H.
  destruct (a0 && String.eqb action "ALLOW") eqn:E; injection H as <-; [right | left; reflexivity].
  apply andb_true_iff in E as [_ E]. apply String.eqb_eq in E. split; [exact E | reflexivity].
Qed.

Lemma business_rule_2_moves td amount st st' :
  business_rule_2 td amount st = Ok st' → keeps_or_verifies (fst st) (fst st').
Proof.
  destruct st as [action reasoning]. unfold business_rule_2. intros H.
  bind_inv H. bind_inv H.
  destruct (a0 && String.eqb action "ALLOW") eqn:E; injection H as <-; [right | left; reflexivity].
  apply andb_true_iff in E as [_ E]. apply String.eqb_eq in E. split; [exact E | reflexivity].
Qed.

Lemma business_rule_3_moves td st st' :
  business_rule_3 td st = Ok st' → keeps_or_escalates (fst st) (fst st').
Proof.
  destruct st as [action reasoning]. unfold business_rule_3. intros H.
  bind_inv H. destruct a as [n rs].
  destruct ((3 <=? n)%nat && String.eqb action "ALLOW") eqn:E1.
  { injection H as <-. right. left.
    apply andb_true_iff in E1 as [_ E]. apply String.eqb_eq in E. split; [exact E | reflexivity]. }
  destruct ((4 <=? n)%nat && String.eqb action "VERIFY") eqn:E2; injection H as <-.
  - right. right.
    apply andb_true_iff in E2 as [_ E]. apply String.eqb_eq in E. split; [exact E | reflexivity].
  - left. reflexivity.
Qed.

Lemma business_rule_5_moves td amount st st' :
  business_rule_5 td amount st = Ok st' → keeps_or_verifies (fst st) (fst st').
Proof.
  destruct st as [action reasoning]. unfold business_rule_5. intros H.
  bind_inv H. bind_inv H.
  destruct (a0 && String.eqb action "ALLOW") eqn:E; injection H as <-; [right | left; reflexivity].
  apply andb_true_iff in E as [_ E]. apply String.eqb_eq in E. split; [exact E | reflexivity].
Qed.

(** Rule 4 keeps the action or takes it from BLOCK down to VERIFY. *)
Lemma business_rule_4_moves td st :
  fst (business_rule_4 td st) = fst st ∨
  (fst st = "BLOCK" ∧ fst (business_rule_4 td st) = "VERIFY").
Proof.
  destruct st as [action reasoning]. unfold business_rule_4.
  destruct (py_eq _ _ && String.eqb action "BLOCK") eqn:E; [right | left; reflexivity].
  apply andb_true_iff in E as [_ E]. apply String.eqb_eq in E. split; [exact E | reflexivity].
Qed.

Lemma business_rule_4_vip td action reasoning :
  td !! "user_type" = Some (VStr "vip") →
  business_rule_4 td ("BLOCK", reasoning)
    = ("VERIFY", reasoning ++ ["VIP user - downgraded to verification"]) ∧
  fst (business_rule_4 td (action, reasoning)) ≠ "BLOCK".
Proof.
  intros Hvip. unfold business_rule_4, get. rewrite Hvip. split; [reflexivity |].
  change (py_eq (VStr "vip") (VStr "vip")) with true. cbn [andb].
  destruct (String.eqb action "BLOCK") eqn:E; [discriminate |].
  apply String.eqb_neq in E. exact E.
Qed.

(** The body of [_apply_business_rules] on a context, rule by rule. *)
Lemma apply_business_rules_Ok_inv float_repr base score td action reasoning :
  _apply_business_rules float_repr base score (Some td) = Ok (action, reasoning) →
  ∃ st1 st2 st3 st5,
    business_rule_1 (get td "amount" (VInt 0)) (get td "avg_amount_last_week" (VInt 0))
      (base, ["Fraud score: " +:+ format_score float_repr score]) = Ok st1 ∧
    business_rule_2 td (get td "amount" (VInt 0)) st1 = Ok st2 ∧
    business_rule_3 td st2 = Ok st3 ∧
    business_rule_5 td (get td "amount" (VInt 0)) (business_rule_4 td st3) = Ok st5 ∧
    action = fst st5 ∧
    reasoning = join " | " (snd st5 ++ ["Final action: " +:+ fst st5]).
Proof.
  unfold _apply_business_rules. intros H.
  bind_inv H. bind_inv H. bind_inv H. bind_inv H. destruct a2 as [final reasons].
  injection H as <- <-. exists a, a0, a1, (final, reasons). repeat split; assumption.
Qed.

(** ** VIP protection *)

(** C5. For a context whose [user_type] is "vip": rule 4 takes BLOCK down
    to VERIFY; the other rules keep the action or raise it, so rule 4 is the
    only one that lowers it; rule 5, the only later rule, never produces
    BLOCK from another action; hence no decision [make_decision] returns for
    such a context has action BLOCK. *)
Theorem vip_never_blocked (float_repr : num → string) (now_iso : string)
    (thresholds : dict) (score : value) (td : dict) :
  td !! "user_type" = Some (VStr "vip") →
  (∀ reasoning,
      business_rule_4 td ("BLOCK", reasoning)
      = ("VERIFY", reasoning ++ ["VIP user - downgraded to verification"])) ∧
  (∀ amount avg_amount st st',
      business_rule_1 amount avg_amount st = Ok st' →
      keeps_or_escalates (fst st) (fst st')) ∧
  (∀ amount st st',
      business_rule_2 td amount st = Ok st' → keeps_or_escalates (fst st) (fst st')) ∧
  (∀ st st', business_rule_3 td st = Ok st' → keeps_or_escalates (fst st) (fst st')) ∧
  (∀ amount st st',
      business_rule_5 td amount st = Ok st' →
      keeps_or_escalates (fst st) (fst st') ∧ (fst st ≠ "BLOCK" → fst st' ≠ "BLOCK")) ∧
  (∀ r, make_decision float_repr now_iso thresholds score (Some td) = Ok r →
        d_action r ≠ "BLOCK").
Proof.
  intros Hvip.
  assert (H5 : ∀ amount st st',
             business_rule_5 td amount st = Ok st' →
             keeps_or_escalates (fst st) (fst st') ∧ (fst st ≠ "BLOCK" → fst st' ≠ "BLOCK")).
  { intros amount st st' H. pose proof (business_rule_5_moves _ _ _ _ H) as Hm.
    split; [apply keeps_or_verifies_escalates; exact Hm |].
    intros Hnb. destruct Hm as [-> | [_ ->]]; [exact Hnb | discriminate]. }
  split; [intros reasoning; apply (business_rule_4_vip td "BLOCK" reasoning Hvip) |].
  split; [intros amount avg st st' H;
          apply keeps_or_verifies_escalates, (business_rule_1_moves _ _ _ _ H) |].
  split; [intros amount st st' H;
          apply keeps_or_verifies_escalates, (business_rule_2_moves _ _ _ _ H) |].
  split; [intros st st' H; apply (business_rule_3_moves _ _ _ H) |].
  split; [exact H5 |].
  intros r Hr.
  destruct (make_decision_Ok_inv _ _ _ _ _ _ Hr) as (x & base & _ & _ & _ & _ & Hrules & _).
  destruct (apply_business_rules_Ok_inv _ _ _ _ _ _ Hrules)
    as (st1 & st2 & st3 & st5 & _ & _ & _ & Hr5 & -> & _).
  apply (H5 _ _ _ Hr5). destruct st3 as [action reasoning].
  apply (business_rule_4_vip td action reasoning Hvip).
Qed.

Lemma vip_never_blocked_witness :
  ∃ r, make_decision (fun _ => "") "" FRAUD_THRESHOLDS (VFloat (Fin (9 # 10)))
         (Some vip_transaction) = Ok r ∧
       d_action r = "VERIFY" ∧ d_action r ≠ "BLOCK".
Proof.
  eexists. split; [vm_compute; reflexivity |]. split; [reflexivity |].
  apply (vip_never_blocked (fun _ => "") "" FRAUD_THRESHOLDS (VFloat (Fin (9 # 10)))
           vip_transaction eq_refl).
  vm_compute. reflexivity.
Defined.

(** ** The risk-indicator tally *)

Lemma count_if_fst hit reason t :
  fst (count_if hit reason t) = (fst t + count_true [hit])%nat.
Proof. destruct hit, t; unfold count_true; simpl; lia. Qed.

Lemma count_risk_indicators_counts (td : dict) (reasoning : list string)
    (far often risky : bool) :
  py_gt (get td "geo_distance_from_last_txn" (VInt 0)) (VInt 100) = Ok far →
  py_gt (get td "transaction_frequency_last_24h" (VInt 0)) (VInt 10) = Ok often →
  py_gt (get td "receiver_fraud_reports" (VInt 0)) (VInt 3) = Ok risky →
  ∃ rs, count_risk_indicators td reasoning
        = Ok (count_true [unusual_hour_signal td; device_signal td; far; often; risky], rs).
Proof.
  intros Hfar Hoften Hrisky.
  unfold count_risk_indicators, check_location, check_frequency, check_receiver.
  rewrite Hfar. cbn [bind]. rewrite Hoften. cbn [bind]. rewrite Hrisky. cbn [bind].
  unfold check_unusual_hour, check_new_device.
  fold (unusual_hour_signal td). fold (device_signal td).
  destruct (unusual_hour_signal td), (device_signal td), far, often, risky;
    eexists; reflexivity.
Qed.

(** C3, as stated, fails: the two escalations of rule 3 are the branches of
    one [if]/[elif], so an action that enters as ALLOW with four indicators
    leaves as VERIFY, not as BLOCK. *)
Lemma tally_allow_not_blocked :
  ¬ (∀ (td : dict) (reasoning : list string) (n : nat) (rs : list string),
        count_risk_indicators td reasoning = Ok (n, rs) → (4 <= n)%nat →
        ∃ rs', business_rule_3 td ("ALLOW", reasoning) = Ok ("BLOCK", rs')).
Proof.
  intros H.
  destruct (H four_indicator_context [] 4%nat
              ["Unusual transaction hour"; "Distant location";
               "High transaction frequency"; "High-risk receiver"])
    as [rs' Hrs'].
  - vm_compute. reflexivity.
  - lia.
  - vm_compute in Hrs'. discriminate.
Qed.

(** C3, amended. Rule 3 counts the five signals (unusual hour, device
    mismatch, distance over 100, more than 10 transactions in 24 hours, more
    than 3 fraud reports on the receiver) and then takes one of two
    exclusive branches: with at least three indicators an ALLOW becomes
    VERIFY; otherwise, with at least four indicators a VERIFY becomes
    BLOCK; in every other case the action stays.  So an action that enters
    as ALLOW with three or more indicators, four included, leaves as
    VERIFY. *)
Theorem risk_indicator_rule (td : dict) (action : string) (reasoning : list string)
    (far often risky : bool) :
  py_gt (get td "geo_distance_from_last_txn" (VInt 0)) (VInt 100) = Ok far →
  py_gt (get td "transaction_frequency_last_24h" (VInt 0)) (VInt 10) = Ok often →
  py_gt (get td "receiver_fraud_reports" (VInt 0)) (VInt 3) = Ok risky →
  ∃ (n : nat) (rs : list string) (action' : string) (rs' : list string),
    n = count_true [unusual_hour_signal td; device_signal td; far; often; risky] ∧
    count_risk_indicators td reasoning = Ok (n, rs) ∧
    business_rule_3 td (action, reasoning) = Ok (action', rs') ∧
    (action = "ALLOW" → (3 <= n)%nat → action' = "VERIFY") ∧
    (action = "VERIFY" → (4 <= n)%nat → action' = "BLOCK") ∧
    (¬ (action = "ALLOW" ∧ (3 <= n)%nat) → ¬ (action = "VERIFY" ∧ (4 <= n)%nat) → action' = action).
Proof.
  intros Hfar Hoften Hrisky.
  destruct (count_risk_indicators_counts td reasoning far often risky Hfar Hoften Hrisky)
    as [rs Hcount].
  set (n := count_true _) in *.
  assert (Hrule : ∃ action' rs',
             business_rule_3 td (action, reasoning) = Ok (action', rs') ∧
             action' = if (3 <=? n)%nat && String.eqb action "ALLOW" then "VERIFY"
                       else if (4 <=? n)%nat && String.eqb action "VERIFY" then "BLOCK"
                       else action).
  { unfold business_rule_3. rewrite Hcount. cbn [bind].
    destruct ((3 <=? n)%nat && String.eqb action "ALLOW");
      [| destruct ((4 <=? n)%nat && String.eqb action "VERIFY")];
      do 2 eexists; split; reflexivity. }
  destruct Hrule as (action' & rs' & Hrule & Haction).
  exists n, rs, action', rs'.
  split; [reflexivity |]. split; [exact Hcount |]. split; [exact Hrule |].
  subst action'. split; [| split].
  - intros -> H3. apply Nat.leb_le in H3. rewrite H3. reflexivity.
  - intros -> H4. apply Nat.leb_le in H4. rewrite H4.
    rewrite andb_false_r. reflexivity.
  - intros N1 N2.
    destruct (3 <=? n)%nat eqn:E3, (String.eqb action "ALLOW") eqn:EA; cbn [andb].
    1: { exfalso. apply N1. apply String.eqb_eq in EA. apply Nat.leb_le in E3. done. }
    all: destruct (4 <=? n)%nat eqn:E4, (String.eqb action "VERIFY") eqn:EV; cbn [andb];
      try reflexivity.
    all: exfalso; apply N2; apply String.eqb_eq in EV; apply Nat.leb_le in E4; done.
Qed.

Lemma risk_indicator_rule_witness :
  ∃ (rs' : list string),
    business_rule_3 four_indicator_context ("ALLOW", []) = Ok ("VERIFY", rs').
Proof.
  destruct (risk_indicator_rule four_indicator_context "ALLOW" [] true true true
              eq_refl eq_refl eq_refl)
    as (n & rs & action' & rs' & Hn & _ & Hrule & Hallow & _).
  exists rs'. rewrite Hrule. rewrite (Hallow eq_refl); [reflexivity |].
  rewrite Hn. vm_compute. lia.
Defined.

Example four_indicators_from_allow (float_repr : num → string) (now_iso : string) :
  ∃ r, make_decision float_repr now_iso FRAUD_THRESHOLDS (VFloat (Fin (3 # 10)))
         (Some four_indicator_context) = Ok r ∧
       d_action r = "VERIFY".
Proof. eexists. split; [vm_compute; reflexivity | reflexivity]. Qed.

(** ** The device signal *)

(** A check that is not the device check never adds the device reason. *)
Lemma count_if_other (hit : bool) (reason : string) (t : tally) (r : string) :
  reason ≠ r → r ∈ snd (count_if hit reason t) → r ∈ snd t.
Proof.
  intros Hne. destruct hit, t as [n rs]; simpl; [| auto].
  intros H. apply elem_of_app in H as [H | H]; [exact H |].
  apply list_elem_of_singleton in H. congruence.
Qed.

Lemma count_if_keeps (hit : bool) (reason : string) (t : tally) (r : string) :
  r ∈ snd t → r ∈ snd (count_if hit reason t).
Proof.
  destruct hit, t as [n rs]; simpl; [| auto]. intros H. apply elem_of_app. left. exact H.
Qed.

Lemma count_if_grows (hit : bool) (reason : string) (t : tally) :
  (fst t <= fst (count_if hit reason t))%nat.
Proof. destruct hit, t; simpl; lia. Qed.

(** What the three later checks leave of a tally. *)
Lemma later_checks (td : dict) (t t' : tally) :
  (let* t1 := check_location td t in
   let* t2 := check_frequency td t1 in
   check_receiver td t2) = Ok t' →
  (fst t <= fst t')%nat ∧
  (∀ r, r ∈ snd t → r ∈ snd t') ∧
  ("New/different device" ∈ snd t' → "New/different device" ∈ snd t).
Proof.
  unfold check_location, check_frequency, check_receiver. intros H.
  repeat match goal with Hb : bind _ _ = Ok _ |- _ => bind_inv Hb end.
  simplify_eq.
  split; [| split].
  - etransitivity; [| apply count_if_grows]. etransitivity; [| apply count_if_grows].
    apply count_if_grows.
  - intros r Hr. do 3 apply count_if_keeps. exact Hr.
  - intros Hr. do 3 (apply count_if_other in Hr; [| discriminate]). exact Hr.
Qed.

(** C10. The device check adds one indicator, and the reason
    "New/different device", exactly when [device_id] and [preferred_device],
    each read as [None] when its key is absent, differ.  So a context that
    has a device id (a value other than [None]) and no [preferred_device]
    key gets the indicator and the reason in every tally that completes,
    and a context with neither key gets nothing from this check. *)
Theorem device_mismatch_indicator (td : dict) (t : tally) :
  (device_signal td = true →
     check_new_device td t = (S (fst t), snd t ++ ["New/different device"])) ∧
  (device_signal td = false → check_new_device td t = t) ∧
  (∀ v, td !! "device_id" = Some v → v ≠ VNone → td !! "preferred_device" = None →
        device_signal td = true ∧
        ∀ reasoning n rs,
          count_risk_indicators td reasoning = Ok (n, rs) →
          (1 <= n)%nat ∧ "New/different device" ∈ rs) ∧
  (td !! "device_id" = None → td !! "preferred_device" = None →
     device_signal td = false ∧
     ∀ reasoning n rs,
       count_risk_indicators td reasoning = Ok (n, rs) →
       "New/different device" ∉ reasoning → "New/different device" ∉ rs).
Proof.
  split; [| split; [| split]].
  - intros H. unfold check_new_device. fold (device_signal td). rewrite H. reflexivity.
  - intros H. unfold check_new_device. fold (device_signal td). rewrite H. reflexivity.
  - intros v Hdev Hv Hpref.
    assert (Hsig : device_signal td = true).
    { unfold device_signal, get. rewrite Hdev, Hpref. destruct v; try reflexivity.
      contradiction. }
    split; [exact Hsig |]. intros reasoning n rs Hcount.
    unfold count_risk_indicators in Hcount.
    apply later_checks in Hcount as (Hn & Hkeep & _).
    unfold check_new_device in Hn, Hkeep. fold (device_signal td) in Hn, Hkeep.
    rewrite Hsig in Hn, Hkeep. cbn [count_if fst snd] in Hn, Hkeep.
    split; [simpl in Hn; lia |].
    apply Hkeep. apply elem_of_app. right. apply list_elem_of_singleton. reflexivity.
  - intros Hdev Hpref.
    assert (Hsig : device_signal td = false).
    { unfold device_signal, get. rewrite Hdev, Hpref. reflexivity. }
    split; [exact Hsig |]. intros reasoning n rs Hcount Hfresh Hin.
    unfold count_risk_indicators in Hcount.
    apply later_checks in Hcount as (_ & _ & Hback).
    apply Hback in Hin. unfold check_new_device in Hin. fold (device_signal td) in Hin.
    rewrite Hsig in Hin. cbn [count_if] in Hin.
    unfold check_unusual_hour in Hin.
    apply count_if_other in Hin; [| discriminate]. exact (Hfresh Hin).
Qed.

Lemma device_mismatch_indicator_witness :
  count_risk_indicators plain_transaction [] = Ok (1%nat, ["New/different device"]) ∧
  (1 <= 1)%nat ∧ "New/different device" ∈ ["New/different device"].
Proof.
  split; [vm_compute; reflexivity |].
  refine (proj2 (proj1 (proj2 (proj2 (device_mismatch_indicator plain_transaction (0%nat, []))))
                   (VStr "device_123") eq_refl _ eq_refl) [] 1%nat _ _).
  - discriminate.
  - vm_compute. reflexivity.
Defined.

(** ** Threshold updates *)

Lemma contains_is_Some (d : dict) (k : string) : contains d k = true ↔ is_Some (d !! k).
Proof.
  unfold contains. destruct (d !! k); split; try done; intros [? ?]; done.
Qed.

Lemma known_keys_valid_iff (current supplied : dict) :
  known_keys_valid current supplied = true ↔
  ∀ k v, supplied !! k = Some v → is_Some (current !! k) → number_in_unit v = true.
Proof.
  unfold known_keys_valid. rewrite forallb_forall. split.
  - intros H k v Hk Hc. specialize (H (k, v)). cbn beta iota in H.
    apply contains_is_Some in Hc. rewrite Hc in H. apply H.
    apply list_elem_of_In, elem_of_map_to_list. exact Hk.
  - intros H [k v] Hin. apply list_elem_of_In, elem_of_map_to_list in Hin.
    destruct (contains current k) eqn:Hc; [| reflexivity].
    apply (H k v Hin). apply contains_is_Some. exact Hc.
Qed.

Lemma number_in_unit_num (v : value) :
  number_in_unit v = true → ∃ x, as_num v = Some x ∧ in_unit_interval x = true.
Proof.
  unfold number_in_unit. intros H. apply andb_true_iff in H as [_ H].
  destruct (as_num v) as [x |]; [eauto | discriminate].
Qed.

Lemma updated_numeric (current supplied : dict) (k : string) (v0 : value) (x0 : num) :
  known_keys_in_unit current supplied →
  current !! k = Some v0 → as_num v0 = Some x0 →
  ∃ v x, updated current supplied !! k = Some v ∧ as_num v = Some x.
Proof.
  intros Hkeys Hk Hx. unfold updated.
  destruct (supplied !! k) as [v |] eqn:Hs.
  - destruct (number_in_unit_num v (Hkeys k v Hs (mk_is_Some _ _ Hk))) as (x & Hv & _).
    exists v, x. split; [| exact Hv]. apply lookup_union_Some_l. exact Hs.
  - exists v0, x0. split; [| exact Hx]. rewrite lookup_union_r; assumption.
Qed.

(** The answer of [_validate_thresholds] on a dict payload. *)
Lemma validate_thresholds_dict (current supplied : dict) :
  numeric_thresholds current →
  ∃ ok, _validate_thresholds current (PDict supplied) = Ok ok ∧
        (ok = true ↔ known_keys_in_unit current supplied ∧ ordered (updated current supplied)).
Proof.
  intros (va & vb & a & b & Ha & Hva & Hb & Hvb).
  unfold _validate_thresholds.
  destruct (known_keys_valid current supplied) eqn:Hk; cbn [negb].
  - pose proof (proj1 (known_keys_valid_iff current supplied) Hk) as Hkeys.
    clear Hk. rename Hkeys into Hk. fold (known_keys_in_unit current supplied) in Hk.
    destruct (updated_numeric current supplied "allow" va a Hk Ha Hva) as (va' & a' & Ha' & Hva').
    destruct (updated_numeric current supplied "block" vb b Hk Hb Hvb) as (vb' & b' & Hb' & Hvb').
    unfold getitem. rewrite Ha', Hb'. cbn [bind].
    rewrite (py_lt_num va' vb' a' b' Hva' Hvb').
    exists (num_ltb a' b'). split; [reflexivity |]. split.
    + intros Hlt. split; [exact Hk |]. exists va', vb', a', b'. done.
    + intros [_ (va2 & vb2 & a2 & b2 & Ha2 & Hva2 & Hb2 & Hvb2 & Hlt)]. congruence.
  - exists false. split; [reflexivity |]. split; [discriminate |].
    intros [Hkeys _].
    pose proof (proj2 (known_keys_valid_iff current supplied) Hkeys). congruence.
Qed.

(** C4, as stated, fails: a supplied key that is not a key of the stored
    thresholds is not checked; the update goes through and the key is
    stored, whatever its value. *)
Lemma unknown_key_not_validated :
  ¬ (∀ (current supplied : dict) (k : string) (v : value),
        supplied !! k = Some v → number_in_unit v = false →
        update_thresholds current (PDict supplied) = (Ok false, current)).
Proof.
  intros H.
  specialize (H FRAUD_THRESHOLDS
                (<["allow" := VFloat (Fin (3 # 10))]> (<["limit" := VInt 5]> ∅))
                "limit" (VInt 5) eq_refl eq_refl).
  apply (f_equal fst) in H. vm_compute in H. discriminate.
Qed.

(** C4, amended. [update_thresholds] checks that every supplied key that is
    already a key of the stored thresholds holds a number in [0, 1] (a
    supplied key that is not one of them is not checked) and that the
    resulting configuration has allow < block.  If a check fails, or the
    payload is no dict, it answers [False] and the stored thresholds are
    what they were; otherwise it answers [True] and every supplied key is
    stored with its value, the other keys keeping theirs.  The update
    {allow: 0.8, block: 0.3} is rejected and leaves the state as it was. *)
Theorem update_thresholds_all_or_nothing (current supplied : dict) :
  numeric_thresholds current →
  ∃ ok : bool,
    fst (update_thresholds current (PDict supplied)) = Ok ok ∧
    (ok = true ↔ known_keys_in_unit current supplied ∧ ordered (updated current supplied)) ∧
    (ok = false → snd (update_thresholds current (PDict supplied)) = current) ∧
    (ok = true →
       (∀ k v, supplied !! k = Some v →
               snd (update_thresholds current (PDict supplied)) !! k = Some v) ∧
       (∀ k, supplied !! k = None →
             snd (update_thresholds current (PDict supplied)) !! k = current !! k) ∧
       numeric_thresholds (snd (update_thresholds current (PDict supplied)))) ∧
    (∀ v, update_thresholds current (PValue v) = (Ok false, current)) ∧
    update_thresholds current
      (PDict (<["allow" := VFloat (Fin (8 # 10))]> (<["block" := VFloat (Fin (3 # 10))]> ∅)))
    = (Ok false, current).
Proof.
  intros Hwf.
  destruct (validate_thresholds_dict current supplied Hwf) as (ok & Hval & Hiff).
  exists ok. unfold update_thresholds. rewrite Hval.
  split; [destruct ok; reflexivity |]. split; [exact Hiff |].
  split; [intros ->; reflexivity |]. split; [| split].
  - intros ->. cbn [snd]. split; [| split].
    + intros k v Hk. unfold updated. apply lookup_union_Some_l. exact Hk.
    + intros k Hk. unfold updated. apply lookup_union_r. exact Hk.
    + destruct Hiff as [Hiff _]. destruct (Hiff eq_refl) as [_ Hord].
      destruct Hord as (va & vb & a & b & Ha & Hva & Hb & Hvb & _).
      exists va, vb, a, b. done.
  - intros v. reflexivity.
  - set (p := <["allow" := VFloat (Fin (8 # 10))]> (<["block" := VFloat (Fin (3 # 10))]> ∅)).
    destruct (validate_thresholds_dict current p Hwf) as (ok' & Hval' & Hiff').
    rewrite Hval'. destruct ok'; [exfalso | reflexivity].
    destruct Hiff' as [Hiff' _]. destruct (Hiff' eq_refl) as [_ Hord].
    destruct Hord as (va & vb & a & b & Ha & Hva & Hb & Hvb & Hlt).
    unfold updated in Ha, Hb.
    rewrite (lookup_union_Some_l p current "allow" (VFloat (Fin (8 # 10))) eq_refl) in Ha.
    rewrite (lookup_union_Some_l p current "block" (VFloat (Fin (3 # 10))) eq_refl) in Hb.
    injection Ha as <-. injection Hb as <-.
    injection Hva as <-. injection Hvb as <-. vm_compute in Hlt. discriminate.
Qed.

Lemma default_thresholds_numeric : numeric_thresholds FRAUD_THRESHOLDS.
Proof.
  exists (VFloat (Fin (4 # 10))), (VFloat (Fin (7 # 10))), (Fin (4 # 10)), (Fin (7 # 10)).
  repeat split; reflexivity.
Defined.

Lemma update_thresholds_all_or_nothing_witness :
  update_thresholds FRAUD_THRESHOLDS
    (PDict (<["allow" := VFloat (Fin (8 # 10))]> (<["block" := VFloat (Fin (3 # 10))]> ∅)))
  = (Ok false, FRAUD_THRESHOLDS).
Proof.
  destruct (update_thresholds_all_or_nothing FRAUD_THRESHOLDS ∅ default_thresholds_numeric)
    as (ok & _ & _ & _ & _ & _ & H).
  exact H.
Defined.

(** ** The pipeline: failures and the fail-safe response *)

Section PipelineFailSafe.

Variable float_repr : num → string.
Variable now_iso : string.
Variable now_stamp : string.
Variable features : Type.
Variable preprocess_single_transaction : dict → res features.
Variable predict_fraud_probability : features → res num.

#[local] Abbreviation run_steps :=
  (predict_fraud_steps float_repr now_iso now_stamp features
     preprocess_single_transaction predict_fraud_probability).
#[local] Abbreviation fails :=
  (step_fails float_repr now_iso features
     preprocess_single_transaction predict_fraud_probability).

Lemma step_fails_steps (p : pipeline) (td : dict) (e : exn) :
  fails p td e → run_steps p td = Raise e.
Proof.
  unfold predict_fraud_steps.
  intros [Hv | Hv Hp | X Hv Hp Hs | X s Hv Hp Hs Hd].
  - rewrite Hv. reflexivity.
  - rewrite Hv, Hp. reflexivity.
  - rewrite Hv, Hp. cbn [bind]. rewrite Hs. reflexivity.
  - rewrite Hv, Hp. cbn [bind]. rewrite Hs. cbn [bind]. rewrite Hd. reflexivity.
Qed.

Lemma steps_fail (p : pipeline) (td : dict) (e : exn) :
  run_steps p td = Raise e → fails p td e.
Proof.
  unfold predict_fraud_steps. intros H.
  destruct (_validate_transaction_data td) as [[] | e1] eqn:Hv;
    [| injection H as ->; apply validation_fails; exact Hv].
  cbn [bind] in H.
  destruct (preprocess_single_transaction td) as [X | e2] eqn:Hp;
    [| injection H as ->; apply preprocessing_fails; assumption].
  cbn [bind] in H.
  destruct (predict_fraud_probability X) as [s | e3] eqn:Hs;
    [| injection H as ->; eapply scoring_fails; eassumption].
  cbn [bind] in H.
  destruct (make_decision _ _ _ _ _) as [d | e4] eqn:Hd; [discriminate |].
  injection H as ->. eapply decision_fails; eassumption.
Qed.

(** The clamp sends every float, the non-finite ones included, to a finite
    number of [0, 1]. *)
Lemma clamp_score_finite (s : num) :
  ∃ q, clamp_score s = Fin q ∧ (0 <= q <= 1)%Q.
Proof.
  unfold clamp_score, py_min, py_max.
  destruct s as [q | | |]; cbn [num_ltb].
  - destruct (Qlt_bool q 1) eqn:E1; cbn [num_ltb].
    + destruct (Qlt_bool 0 q) eqn:E0.
      * exists q. apply Qlt_bool_iff in E1, E0. split; [reflexivity | lra].
      * exists 0%Q. split; [reflexivity | lra].
    + exists 1%Q. split; [reflexivity | lra].
  - exists 1%Q. split; [reflexivity | lra].
  - exists 0%Q. split; [reflexivity | lra].
  - exists 1%Q. split; [reflexivity | lra].
Qed.

#[local] Abbreviation run :=
  (predict_fraud float_repr now_iso now_stamp features
     preprocess_single_transaction predict_fraud_probability).

(** C2, amended. On a loaded pipeline [predict_fraud] raises nothing,
    whatever the transaction dict, the preprocessor and the model do:
    whenever the validation, the preprocessing, the scoring or the decision
    raises, the result is the error response, whose action is BLOCK and
    which carries the message of the exception, and an error response comes
    from nothing else.  A score the model returns is no failure, finite or
    not: it is clamped into [0, 1] and decided like any other score. *)
Theorem predict_fraud_fail_safe (p : pipeline) (td : dict) :
  is_loaded p = true →
  (∃ r, run p td = Ok r) ∧
  (∀ e, fails p td e →
        ∃ r, run p td = Ok r ∧ is_error_response r = true ∧
             ar_action (result_response r) = "BLOCK" ∧
             result_error r = Some (str_exn e)) ∧
  (∀ r, run p td = Ok r → is_error_response r = true → ∃ e, fails p td e) ∧
  (∀ X fraud_score,
      _validate_transaction_data td = Ok tt →
      preprocess_single_transaction td = Ok X →
      predict_fraud_probability X = Ok fraud_score →
      ∃ q, clamp_score fraud_score = Fin q ∧ (0 <= q <= 1)%Q ∧
           ∀ d, make_decision float_repr now_iso (thresholds p) (VFloat (Fin q)) (Some td)
                = Ok d →
                run p td
                = Ok (FinalResult (get td "transaction_id" (VStr "unknown")) d
                        (process_action now_stamp d) now_iso)).
Proof.
  intros Hloaded. unfold predict_fraud. rewrite Hloaded. cbn [negb].
  split; [| split; [| split]].
  - destruct (run_steps p td); eexists; reflexivity.
  - intros e He. rewrite (step_fails_steps p td e He).
    eexists. split; [reflexivity |]. repeat split.
  - intros r Hr Herr. destruct (run_steps p td) as [r' | e] eqn:Hsteps.
    + injection Hr as ->. exfalso.
      unfold predict_fraud_steps in Hsteps.
      repeat match goal with Hb : bind _ _ = Ok _ |- _ => bind_inv Hb end.
      injection Hsteps as <-. discriminate.
    + exists e. apply steps_fail. exact Hsteps.
  - intros X s Hv Hp Hs. destruct (clamp_score_finite s) as (q & Hq & Hrange).
    exists q. split; [exact Hq |]. split; [exact Hrange |]. intros d Hd.
    unfold predict_fraud_steps. rewrite Hv, Hp. cbn [bind]. rewrite Hs. cbn [bind].
    rewrite Hq, Hd. reflexivity.
Qed.

End PipelineFailSafe.

(** C2, as stated, fails: a model that returns minus infinity makes no
    step raise; the clamp turns the score into 0.0 and the transaction is
    allowed. *)
Lemma non_finite_score_not_blocked :
  ¬ (∀ (features : Type) (preprocess : dict → res features) (model : features → res num)
       (p : pipeline) (td : dict) (X : features) (fraud_score : num),
        is_loaded p = true →
        preprocess td = Ok X → model X = Ok fraud_score →
        fraud_score = NaN ∨ fraud_score = PInf ∨ fraud_score = NInf →
        ∃ r, predict_fraud (fun _ => "") "" "" features preprocess model p td = Ok r ∧
             is_error_response r = true ∧ ar_action (result_response r) = "BLOCK").
Proof.
  intros H.
  destruct (H unit (fun _ => Ok tt) (fun _ => Ok NInf) default_pipeline plain_transaction
              tt NInf eq_refl eq_refl eq_refl) as (r & Hr & Herr & _).
  - right. right. reflexivity.
  - vm_compute in Hr. injection Hr as <-. discriminate.
Qed.

(** What the pipeline returns there: an ALLOW. *)
Example minus_infinity_allowed :
  ∃ r, predict_fraud (fun _ => "") "" "" unit (fun _ => Ok tt) (fun _ => Ok NInf)
         default_pipeline plain_transaction = Ok r ∧
       is_error_response r = false ∧ ar_action (result_response r) = "ALLOW".
Proof. eexists. split; [vm_compute; reflexivity |]. split; reflexivity. Qed.

Lemma predict_fraud_fail_safe_witness :
  ∃ r, predict_fraud (fun _ => "") "" "" unit
         (fun _ => Raise (OtherError "scaler not fitted")) (fun _ => Ok (Fin 0))
         default_pipeline plain_transaction = Ok r ∧
       is_error_response r = true ∧
       ar_action (result_response r) = "BLOCK" ∧
       result_error r = Some "scaler not fitted".
Proof.
  apply (proj1 (proj2 (predict_fraud_fail_safe (fun _ => "") "" "" unit
                         (fun _ => Raise (OtherError "scaler not fitted"))
                         (fun _ => Ok (Fin 0)) default_pipeline plain_transaction eq_refl))
           (OtherError "scaler not fitted")).
  apply preprocessing_fails; [vm_compute |]; reflexivity.
Defined.

(** ** Batches *)

Lemma first_index_NoDup (items : list loc) (j : nat) (l : loc) :
  NoDup items → items !! j = Some l → first_index l items = j.
Proof.
  intros Hnd. revert j. induction Hnd as [| x rest Hx Hnd IH]; intros j Hj; [done |].
  simpl. destruct j as [| j]; simpl in Hj.
  - injection Hj as ->. rewrite decide_True; done.
  - rewrite decide_False; [f_equal; apply IH; exact Hj |].
    intros ->. apply Hx. eapply list_elem_of_lookup_2. exact Hj.
Qed.

Lemma add_transaction_id_has_id (i : nat) (d : dict) :
  contains (add_transaction_id i d) "transaction_id" = true.
Proof.
  unfold add_transaction_id. destruct (contains d "transaction_id") eqn:E; [exact E |].
  unfold contains. rewrite lookup_insert_eq. reflexivity.
Qed.

Lemma add_transaction_id_twice (i j : nat) (d : dict) :
  add_transaction_id j (add_transaction_id i d) = add_transaction_id i d.
Proof.
  unfold add_transaction_id at 1. rewrite add_transaction_id_has_id. reflexivity.
Qed.

Lemma add_transaction_id_present (i : nat) (d : dict) :
  is_Some (d !! "transaction_id") → add_transaction_id i d = d.
Proof.
  intros H. unfold add_transaction_id.
  rewrite (proj2 (contains_is_Some d "transaction_id") H). reflexivity.
Qed.

Lemma add_transaction_id_absent (i : nat) (d : dict) :
  d !! "transaction_id" = None →
  add_transaction_id i d = <["transaction_id" := VStr (batch_id i)]> d.
Proof.
  intros H. unfold add_transaction_id, contains. rewrite H. reflexivity.
Qed.

Lemma add_transaction_id_other (i : nat) (d : dict) (k : string) :
  k ≠ "transaction_id" → add_transaction_id i d !! k = d !! k.
Proof.
  intros Hk. unfold add_transaction_id. destruct (contains d "transaction_id"); [reflexivity |].
  apply lookup_insert_ne. congruence.
Qed.

(** *** Reading the ids back *)

Lemma zeros_S (k : nat) :
  String.concat "" (replicate (S k) "0") = "0" +:+ String.concat "" (replicate k "0").
Proof. destruct k; reflexivity. Qed.









Section Batch.

Variable float_repr : num → string.
Variable now_iso : string.
Variable now_stamp : string.
Variable features : Type.
Variable preprocess_single_transaction : dict → res features.
Variable predict_fraud_probability : features → res num.

#[local] Abbreviation loop :=
  (batch_loop float_repr now_iso now_stamp features
     preprocess_single_transaction predict_fraud_probability).
#[local] Abbreviation item :=
  (batch_item float_repr now_iso now_stamp features
     preprocess_single_transaction predict_fraud_probability).
#[local] Abbreviation batch :=
  (batch_predict float_repr now_iso now_stamp features
     preprocess_single_transaction predict_fraud_probability).
#[local] Abbreviation steps :=
  (predict_fraud_steps float_repr now_iso now_stamp features
     preprocess_single_transaction predict_fraud_probability).

Lemma batch_loop_cons (p : pipeline) (i : nat) (l : loc) (rest : list loc) (σ : store) :
  loop p i (l :: rest) σ =
    (item p (add_transaction_id i (σ l))
       :: fst (loop p (S i) rest (<[l := add_transaction_id i (σ l)]> σ)),
     snd (loop p (S i) rest (<[l := add_transaction_id i (σ l)]> σ))).
Proof.
  cbn [batch_loop]. rewrite fn_lookup_insert.
  destruct (loop p (S i) rest _) as [results σ2]. reflexivity.
Qed.

Lemma batch_loop_length (p : pipeline) (items : list loc) (i : nat) (σ : store) :
  length (fst (loop p i items σ)) = length items.
Proof.
  revert i σ. induction items as [| l rest IH]; intros i σ; [reflexivity |].
  rewrite batch_loop_cons. cbn [fst length]. f_equal. apply IH.
Qed.

(** The result at a position is the result for the item there, with the id
    it got at its first position in the batch. *)
Lemma batch_loop_lookup (p : pipeline) (items : list loc) (i : nat) (σ : store)
    (j : nat) (l : loc) :
  items !! j = Some l →
  fst (loop p i items σ) !! j
  = Some (item p (add_transaction_id (i + first_index l items) (σ l))).
Proof.
  revert i σ j. induction items as [| x rest IH]; intros i σ j Hj; [done |].
  rewrite batch_loop_cons. cbn [fst first_index].
  destruct j as [| j]; simpl in Hj.
  - injection Hj as ->. rewrite decide_True by done. rewrite Nat.add_0_r. reflexivity.
  - cbn [lookup list_lookup]. rewrite (IH _ _ _ Hj).
    destruct (decide (x = l)) as [-> | Hne].
    + rewrite fn_lookup_insert, add_transaction_id_twice, Nat.add_0_r. reflexivity.
    + rewrite fn_lookup_insert_ne by exact Hne.
      replace (S i + first_index l rest)%nat with (i + S (first_index l rest))%nat by lia.
      reflexivity.
Qed.

(** The store the loop leaves: an object of the batch has the id it got at
    its first position, every other object is as it was. *)
Lemma batch_loop_store (p : pipeline) (items : list loc) (i : nat) (σ : store) (l : loc) :
  snd (loop p i items σ) l
  = if decide (l ∈ items) then add_transaction_id (i + first_index l items) (σ l)
    else σ l.
Proof.
  revert i σ. induction items as [| x rest IH]; intros i σ.
  - cbn [batch_loop snd]. rewrite decide_False; [reflexivity | apply not_elem_of_nil].
  - rewrite batch_loop_cons. cbn [snd first_index]. rewrite IH.
    destruct (decide (x = l)) as [-> | Hne].
    + rewrite fn_lookup_insert, Nat.add_0_r.
      rewrite (decide_True (P := l ∈ l :: rest)) by apply list_elem_of_here.
      destruct (decide (l ∈ rest)); [apply add_transaction_id_twice | reflexivity].
    + rewrite fn_lookup_insert_ne by exact Hne.
      destruct (decide (l ∈ rest)) as [Hin | Hnin].
      * rewrite decide_True by (apply list_elem_of_further; exact Hin).
        replace (S i + first_index l rest)%nat with (i + S (first_index l rest))%nat by lia.
        reflexivity.
      * rewrite decide_False; [reflexivity |].
        intros H. apply elem_of_cons in H as [-> | H]; [apply Hne; reflexivity | exact (Hnin H)].
Qed.

(** The id of a result is the id of the item it is for. *)
Lemma batch_item_id (p : pipeline) (d : dict) :
  result_transaction_id (item p d) = get d "transaction_id" (VStr "unknown").
Proof.
  unfold batch_item, predict_fraud. destruct (negb (is_loaded p)); [reflexivity |].
  destruct (steps p d) as [r | e] eqn:Hsteps; [| reflexivity].
  unfold predict_fraud_steps in Hsteps.
  repeat match goal with Hb : bind _ _ = Ok _ |- _ => bind_inv Hb end.
  injection Hsteps as <-. reflexivity.
Qed.



(** C9, amended. [batch_predict] leaves every object outside the batch, and
    every item that has a transaction id, as it was; to an item without one
    it adds the key [transaction_id], with the batch id of the item's
    position, and changes no other key.  It adds no timestamp.
    ([predict_fraud] is given the transaction to read and writes nothing to
    it: the store is the same before and after its call in the loop.) *)
Theorem batch_predict_frame (p : pipeline) (items : list loc) (σ : store) (l : loc) :
  (∀ k, k ≠ "transaction_id" → snd (batch p items σ) l !! k = σ l !! k) ∧
  (l ∉ items → snd (batch p items σ) l = σ l) ∧
  (is_Some (σ l !! "transaction_id") → snd (batch p items σ) l = σ l) ∧
  (l ∈ items → σ l !! "transaction_id" = None →
     snd (batch p items σ) l
     = <["transaction_id" := VStr (batch_id (first_index l items))]> (σ l)).
Proof.
  unfold batch_predict. rewrite batch_loop_store. cbn [Nat.add].
  split; [| split; [| split]].
  - intros k Hk. destruct (decide (l ∈ items)); [| reflexivity].
    apply add_transaction_id_other. exact Hk.
  - intros Hnin. rewrite decide_False by exact Hnin. reflexivity.
  - intros Hid. destruct (decide (l ∈ items)); [| reflexivity].
    apply add_transaction_id_present. exact Hid.
  - intros Hin Hnone. rewrite decide_True by exact Hin.
    apply add_transaction_id_absent. exact Hnone.
Qed.

End Batch.

(** C9, as stated, fails: the key that [batch_predict] adds to the caller's
    transaction is [transaction_id], not a timestamp. *)
Lemma transaction_id_written :
  ¬ (∀ (features : Type) (preprocess : dict → res features) (model : features → res num)
       (p : pipeline) (items : list loc) (σ : store) (l : loc) (k : string),
        k ≠ "timestamp" →
        snd (batch_predict (fun _ => "") "" "" features preprocess model p items σ) l !! k
        = σ l !! k).
Proof.
  intros H.
  specialize (H unit (fun _ => Ok tt) (fun _ => Ok (Fin (1 # 10))) default_pipeline
                [0%nat] plain_store 0%nat "transaction_id").
  vm_compute in H. specialize (H ltac:(discriminate)). discriminate.
Qed.

Lemma batch_predict_frame_witness :
  snd (batch_predict (fun _ => "") "" "" unit (fun _ => Ok tt) (fun _ => Ok (Fin (1 # 10)))
         default_pipeline [0%nat; 1%nat] plain_store) 1%nat
  = <["transaction_id" := VStr "BATCH_0002"]> plain_transaction.
Proof.
  apply (proj2 (proj2 (proj2
           (batch_predict_frame (fun _ => "") "" "" unit (fun _ => Ok tt)
              (fun _ => Ok (Fin (1 # 10))) default_pipeline [0%nat; 1%nat] plain_store 1%nat)))).
  - apply list_elem_of_further, list_elem_of_here.
  - reflexivity.
Defined.


(** A batch of three: the second item lacks a required field. *)
Example batch_of_three :
  let broken : dict := delete "amount" plain_transaction in
  let σ : store := fun l => if decide (l = 1%nat) then broken else plain_transaction in
  let results :=
    fst (batch_predict (fun _ => "") "" "" unit (fun _ => Ok tt)
           (fun _ => Ok (Fin (1 # 10))) default_pipeline [0%nat; 1%nat; 2%nat] σ) in
  map is_error_response results = [false; true; false] ∧
  map result_transaction_id results
  = [VStr "BATCH_0001"; VStr "BATCH_0002"; VStr "BATCH_0003"] ∧
  map result_error results
  = [None; Some "Missing required fields: ['amount']"; None].
Proof. vm_compute. repeat split; reflexivity. Qed.

(** * Further properties of the engine and the pipeline *)

Ltac bind_as H a Ha := apply bind_Ok_inv in H; destruct H as (a & Ha & H).

(** ** The range of a decision *)

Lemma get_base_action_valid (thresholds : dict) (score : value) (a : string) :
  _get_base_action thresholds score = Ok a → valid_action a.
Proof.
  unfold _get_base_action, valid_action. intros H.
  bind_as H vallow Hallow. bind_as H c1 Hc1. destruct c1; [injection H as <-; auto |].
  bind_as H vblock Hblock. bind_as H c2 Hc2. destruct c2; injection H as <-; auto.
Qed.

Lemma first_band_level (score : value) (found : option string) :
  first_band RISK_LEVELS score = Ok found →
  found = None ∨ ∃ l, found = Some l ∧ valid_level l.
Proof.
  unfold RISK_LEVELS, first_band, valid_level. intros H.
  bind_as H lo1 Hlo1. bind_as H in1 Hin1. destruct in1; [injection H as <-; right; eauto |].
  bind_as H lo2 Hlo2. bind_as H in2 Hin2. destruct in2; [injection H as <-; right; eauto |].
  bind_as H lo3 Hlo3. bind_as H in3 Hin3.
  destruct in3; injection H as <-; [right; eauto | left; reflexivity].
Qed.

Lemma get_risk_level_valid (score : value) (l : string) :
  _get_risk_level score = Ok l → valid_level l.
Proof.
  unfold _get_risk_level. intros H. bind_as H found Hfound.
  destruct (first_band_level score found Hfound) as [-> | (l' & -> & Hl')];
    injection H as <-; [right; right; reflexivity | exact Hl'].
Qed.

Lemma keeps_or_escalates_valid (a a' : string) :
  keeps_or_escalates a a' → valid_action a → valid_action a'.
Proof.
  unfold valid_action. intros [-> | [[_ ->] | [_ ->]]] H; auto.
Qed.

Lemma business_rule_4_valid (td : dict) (st : rule_state) :
  valid_action (fst st) → valid_action (fst (business_rule_4 td st)).
Proof.
  intros H. destruct (business_rule_4_moves td st) as [-> | [_ ->]]; [exact H |].
  right. left. reflexivity.
Qed.

(** The action chain of a decision: the base action and the action after
    each rule. *)
Lemma decision_chain float_repr now_iso thresholds score ctx r :
  make_decision float_repr now_iso thresholds score ctx = Ok r →
  ∃ base, _get_base_action thresholds score = Ok base ∧
    match ctx with
    | None => d_action r = base
    | Some td =>
        ∃ st1 st2 st3 st5 : rule_state,
          keeps_or_verifies base (fst st1) ∧
          keeps_or_verifies (fst st1) (fst st2) ∧
          business_rule_3 td st2 = Ok st3 ∧
          keeps_or_verifies (fst (business_rule_4 td st3)) (fst st5) ∧
          d_action r = fst st5
    end.
Proof.
  intros Hr.
  destruct (make_decision_Ok_inv _ _ _ _ _ _ Hr) as (x & base & _ & _ & Hbase & _ & Hrules & _).
  exists base. split; [exact Hbase |]. destruct ctx as [td |].
  - destruct (apply_business_rules_Ok_inv _ _ _ _ _ _ Hrules)
      as (st1 & st2 & st3 & st5 & H1 & H2 & H3 & H5 & -> & _).
    exists st1, st2, st3, st5.
    split; [apply (business_rule_1_moves _ _ _ _ H1) |].
    split; [apply (business_rule_2_moves _ _ _ _ H2) |].
    split; [exact H3 |].
    split; [apply (business_rule_5_moves _ _ _ _ H5) | reflexivity].
  - cbn in Hrules. injection Hrules as <- _. reflexivity.
Qed.

Lemma decision_action_valid float_repr now_iso thresholds score ctx r :
  make_decision float_repr now_iso thresholds score ctx = Ok r →
  valid_action (d_action r).
Proof.
  intros Hr.
  destruct (decision_chain _ _ _ _ _ _ Hr) as (base & Hbase & Hchain).
  pose proof (get_base_action_valid _ _ _ Hbase) as Hv.
  destruct ctx as [td |]; [| rewrite Hchain; exact Hv].
  destruct Hchain as (st1 & st2 & st3 & st5 & H1 & H2 & H3 & H5 & ->).
  apply (keeps_or_escalates_valid _ _ (keeps_or_verifies_escalates _ _ H5)).
  apply business_rule_4_valid.
  apply (keeps_or_escalates_valid _ _ (business_rule_3_moves _ _ _ H3)).
  apply (keeps_or_escalates_valid _ _ (keeps_or_verifies_escalates _ _ H2)).
  apply (keeps_or_escalates_valid _ _ (keeps_or_verifies_escalates _ _ H1)).
  exact Hv.
Qed.

(** X1. Every decision [make_decision] returns has one of the three
    actions ALLOW, VERIFY, BLOCK and one of the three risk levels LOW,
    MEDIUM, HIGH, whatever the thresholds and the context. *)
Theorem decision_range (float_repr : num → string) (now_iso : string)
    (thresholds : dict) (score : value) (ctx : option dict) (r : decision) :
  make_decision float_repr now_iso thresholds score ctx = Ok r →
  valid_action (d_action r) ∧ valid_level (d_risk_level r).
Proof.
  intros Hr. split.
  - apply (decision_action_valid _ _ _ _ _ _ Hr).
  - destruct (make_decision_Ok_inv _ _ _ _ _ _ Hr) as (x & base & _ & _ & _ & Hl & _).
    apply (get_risk_level_valid _ _ Hl).
Qed.

Lemma decision_range_witness :
  ∃ r, make_decision (fun _ => "") "" FRAUD_THRESHOLDS (VFloat (Fin (9 # 10)))
         (Some vip_transaction) = Ok r ∧
       valid_action (d_action r) ∧ valid_level (d_risk_level r).
Proof.
  eexists. split; [vm_compute; reflexivity |].
  apply (decision_range (fun _ => "") "" FRAUD_THRESHOLDS (VFloat (Fin (9 # 10)))
           (Some vip_transaction)).
  vm_compute. reflexivity.
Defined.

(** ** What the rules can and cannot undo *)

Lemma keeps_or_verifies_allow (a a' : string) :
  keeps_or_verifies a a' → a' = "ALLOW" → a = "ALLOW".
Proof. intros [-> | [_ ->]]; [auto | discriminate]. Qed.

Lemma keeps_or_escalates_allow (a a' : string) :
  keeps_or_escalates a a' → a' = "ALLOW" → a = "ALLOW".
Proof. intros [-> | [[_ ->] | [_ ->]]]; [auto | discriminate | discriminate]. Qed.

Lemma business_rule_4_allow (td : dict) (st : rule_state) :
  fst (business_rule_4 td st) = "ALLOW" → fst st = "ALLOW".
Proof.
  destruct (business_rule_4_moves td st) as [-> | [_ ->]]; [auto | discriminate].
Qed.

Lemma decision_allow_base float_repr now_iso thresholds score ctx r :
  make_decision float_repr now_iso thresholds score ctx = Ok r →
  d_action r = "ALLOW" → _get_base_action thresholds score = Ok "ALLOW".
Proof.
  intros Hr Hallow.
  destruct (decision_chain _ _ _ _ _ _ Hr) as (base & Hbase & Hchain).
  assert (Hb : base = "ALLOW"); [| congruence].
  destruct ctx as [td |]; [| congruence].
  destruct Hchain as (st1 & st2 & st3 & st5 & H1 & H2 & H3 & H5 & Heq).
  rewrite Heq in Hallow.
  apply (keeps_or_verifies_allow _ _ H1), (keeps_or_verifies_allow _ _ H2).
  apply (keeps_or_escalates_allow _ _ (business_rule_3_moves _ _ _ H3)).
  apply (business_rule_4_allow td), (keeps_or_verifies_allow _ _ H5). exact Hallow.
Qed.

(** X2. The business rules never relax a decision to ALLOW: a decision
    with action ALLOW has base action ALLOW, that is, its score is below the
    [allow] threshold. *)
Theorem allow_needs_low_score (float_repr : num → string) (now_iso : string)
    (thresholds : dict) (score : value) (ctx : option dict) (r : decision) :
  make_decision float_repr now_iso thresholds score ctx = Ok r →
  d_action r = "ALLOW" →
  _get_base_action thresholds score = Ok "ALLOW" ∧
  ∃ allow, thresholds !! "allow" = Some allow ∧ py_lt score allow = Ok true.
Proof.
  intros Hr Hallow.
  pose proof (decision_allow_base _ _ _ _ _ _ Hr Hallow) as Hbase.
  split; [exact Hbase |].
  unfold _get_base_action, getitem in Hbase.
  destruct (thresholds !! "allow") as [allow |]; [| discriminate].
  exists allow. split; [reflexivity |]. cbn [bind] in Hbase.
  destruct (py_lt score allow) as [[] | e]; [reflexivity | | discriminate].
  cbn [bind] in Hbase. bind_as Hbase vblock Hblock. bind_as Hbase c Hc.
  destruct c; discriminate.
Qed.

Lemma allow_needs_low_score_witness :
  _get_base_action FRAUD_THRESHOLDS (VFloat (Fin (2 # 10))) = Ok "ALLOW" ∧
  ∃ allow, FRAUD_THRESHOLDS !! "allow" = Some allow ∧
           py_lt (VFloat (Fin (2 # 10))) allow = Ok true.
Proof.
  apply (allow_needs_low_score (fun _ => "") "" FRAUD_THRESHOLDS (VFloat (Fin (2 # 10))) None
           {| d_fraud_score := Fin (Qround_dec (2 # 10) 4);
              d_risk_level := "LOW";
              d_action := "ALLOW";
              d_reasoning := "Fraud score: 0.2000 | Base action: ALLOW";
              d_timestamp := "";
              d_confidence := Fin (Qround_dec 1 3) |}).
  - vm_compute. reflexivity.
  - reflexivity.
Defined.

Lemma keeps_or_verifies_severity (a a' : string) :
  keeps_or_verifies a a' → (severity a <= severity a')%nat.
Proof. intros [-> | [-> ->]]; [lia | vm_compute; lia]. Qed.

Lemma keeps_or_escalates_severity (a a' : string) :
  keeps_or_escalates a a' → (severity a <= severity a')%nat.
Proof. intros [-> | [[-> ->] | [-> ->]]]; [lia | vm_compute; lia | vm_compute; lia]. Qed.

Lemma business_rule_4_not_vip (td : dict) (st : rule_state) :
  not_vip (Some td) → business_rule_4 td st = st.
Proof.
  unfold not_vip, business_rule_4. intros H. destruct st as [a rs]. rewrite H. reflexivity.
Qed.

Lemma severity_block (a : string) : valid_action a → (2 <= severity a)%nat → a = "BLOCK".
Proof. intros [-> | [-> | ->]]; vm_compute; intros H; [lia | lia | reflexivity]. Qed.

(** X3. Unless the context names a VIP user, the business rules never
    lower the action: the action of a decision is at least as severe as the
    base action of its score, and a score whose base action is BLOCK is
    blocked. *)
Theorem no_downgrade_without_vip (float_repr : num → string) (now_iso : string)
    (thresholds : dict) (score : value) (ctx : option dict) (r : decision) (base : string) :
  not_vip ctx →
  make_decision float_repr now_iso thresholds score ctx = Ok r →
  _get_base_action thresholds score = Ok base →
  (severity base <= severity (d_action r))%nat ∧
  (base = "BLOCK" → d_action r = "BLOCK").
Proof.
  intros Hvip Hr Hbase.
  assert (Hsev : (severity base <= severity (d_action r))%nat).
  { destruct (decision_chain _ _ _ _ _ _ Hr) as (base' & Hbase' & Hchain).
    assert (base' = base) as -> by congruence.
    destruct ctx as [td |]; [| rewrite Hchain; lia].
    destruct Hchain as (st1 & st2 & st3 & st5 & H1 & H2 & H3 & H5 & ->).
    rewrite (business_rule_4_not_vip td st3 Hvip) in H5.
    pose proof (keeps_or_verifies_severity _ _ H1).
    pose proof (keeps_or_verifies_severity _ _ H2).
    pose proof (keeps_or_escalates_severity _ _ (business_rule_3_moves _ _ _ H3)).
    pose proof (keeps_or_verifies_severity _ _ H5). lia. }
  split; [exact Hsev |]. intros ->.
  apply severity_block; [apply (decision_action_valid _ _ _ _ _ _ Hr) | exact Hsev].
Qed.

Lemma no_downgrade_without_vip_witness :
  ∃ r, make_decision (fun _ => "") "" FRAUD_THRESHOLDS (VFloat (Fin (8 # 10)))
         (Some four_indicator_context) = Ok r ∧
       d_action r = "BLOCK".
Proof.
  eexists. split; [vm_compute; reflexivity |].
  apply (no_downgrade_without_vip (fun _ => "") "" FRAUD_THRESHOLDS (VFloat (Fin (8 # 10)))
           (Some four_indicator_context) _ "BLOCK"); vm_compute; reflexivity.
Defined.

(** ** The final action as a function of the base action *)

Lemma business_rule_1_step (td : dict) (st st' : rule_state) :
  business_rule_1 (get td "amount" (VInt 0)) (get td "avg_amount_last_week" (VInt 0)) st
    = Ok st' →
  fst st' = step_up (high_amount_fired td) (fst st).
Proof.
  destruct st as [a rs]. unfold business_rule_1, high_amount_fired, step_up. intros H.
  bind_as H limit Hlimit. bind_as H high Hhigh. rewrite Hlimit. cbn [bind]. rewrite Hhigh.
  cbn [res_or fst]. destruct (high && String.eqb a "ALLOW"); injection H as <-; reflexivity.
Qed.

Lemma business_rule_2_step (td : dict) (st st' : rule_state) :
  business_rule_2 td (get td "amount" (VInt 0)) st = Ok st' →
  fst st' = step_up (new_receiver_fired td) (fst st).
Proof.
  destruct st as [a rs]. unfold business_rule_2, new_receiver_fired, step_up. intros H.
  bind_as H young Hyoung. bind_as H large Hlarge. rewrite Hyoung. cbn [bind]. rewrite Hlarge.
  cbn [res_or fst]. destruct (large && String.eqb a "ALLOW"); injection H as <-; reflexivity.
Qed.

Lemma business_rule_5_step (td : dict) (st st' : rule_state) :
  business_rule_5 td (get td "amount" (VInt 0)) st = Ok st' →
  fst st' = step_up (micro_night_fired td) (fst st).
Proof.
  destruct st as [a rs]. unfold business_rule_5, micro_night_fired, step_up. intros H.
  bind_as H micro Hmicro. bind_as H night Hnight. rewrite Hmicro. cbn [bind]. rewrite Hnight.
  cbn [res_or fst]. destruct (night && String.eqb a "ALLOW"); injection H as <-; reflexivity.
Qed.

(** The count of rule 3 does not depend on the reasons collected so far. *)
Lemma count_risk_indicators_total (td : dict) (reasoning : list string) (t : tally) :
  count_risk_indicators td reasoning = Ok t → fst t = indicator_total td.
Proof.
  intros H. unfold indicator_total.
  assert (Hinv : ∃ far often risky,
             py_gt (get td "geo_distance_from_last_txn" (VInt 0)) (VInt 100) = Ok far ∧
             py_gt (get td "transaction_frequency_last_24h" (VInt 0)) (VInt 10) = Ok often ∧
             py_gt (get td "receiver_fraud_reports" (VInt 0)) (VInt 3) = Ok risky).
  { unfold count_risk_indicators, check_location, check_frequency, check_receiver in H.
    bind_as H t1 H1. bind_as H1 far Hfar. bind_as H t2 H2. bind_as H2 often Hoften.
    bind_as H risky Hrisky. exists far, often, risky. auto. }
  destruct Hinv as (far & often & risky & Hfar & Hoften & Hrisky).
  destruct (count_risk_indicators_counts td reasoning far often risky Hfar Hoften Hrisky)
    as [rs Hrs].
  destruct (count_risk_indicators_counts td [] far often risky Hfar Hoften Hrisky)
    as [rs0 Hrs0].
  rewrite Hrs0. cbn [bind res_or fst]. rewrite Hrs in H. injection H as <-. reflexivity.
Qed.

Lemma business_rule_3_step (td : dict) (st st' : rule_state) :
  business_rule_3 td st = Ok st' → fst st' = tally_step (indicator_total td) (fst st).
Proof.
  destruct st as [a rs]. unfold business_rule_3, tally_step. intros H.
  bind_as H t Ht. rewrite <- (count_risk_indicators_total td rs t Ht).
  destruct t as [n rs']. cbn [fst].
  destruct ((3 <=? n)%nat && String.eqb a "ALLOW"); [injection H as <-; reflexivity |].
  destruct ((4 <=? n)%nat && String.eqb a "VERIFY"); injection H as <-; reflexivity.
Qed.

Lemma business_rule_4_step (td : dict) (st : rule_state) :
  fst (business_rule_4 td st) = vip_step (is_vip td) (fst st).
Proof.
  destruct st as [a rs]. unfold business_rule_4, vip_step, is_vip. cbn [fst].
  destruct (py_eq _ _ && String.eqb a "BLOCK"); reflexivity.
Qed.

(** The action the rules end with is [context_overlay] of the base
    action. *)
Lemma apply_business_rules_overlay float_repr base score td action reasoning :
  _apply_business_rules float_repr base score (Some td) = Ok (action, reasoning) →
  action = context_overlay td base.
Proof.
  intros H.
  destruct (apply_business_rules_Ok_inv _ _ _ _ _ _ H)
    as (st1 & st2 & st3 & st5 & H1 & H2 & H3 & H5 & -> & _).
  unfold context_overlay, overlay.
  rewrite (business_rule_5_step td _ _ H5), business_rule_4_step.
  rewrite (business_rule_3_step td _ _ H3), (business_rule_2_step td _ _ H2).
  rewrite (business_rule_1_step td _ _ H1). reflexivity.
Qed.

Lemma overlay_monotone (c1 c2 : bool) (n : nat) (vip c5 : bool) (a1 a2 : string) :
  valid_action a1 → valid_action a2 → (severity a1 <= severity a2)%nat →
  (severity (overlay c1 c2 n vip c5 a1) <= severity (overlay c1 c2 n vip c5 a2))%nat.
Proof.
  unfold overlay, tally_step.
  intros [-> | [-> | ->]] [-> | [-> | ->]];
    destruct c1, c2, vip, c5, (3 <=? n)%nat, (4 <=? n)%nat; vm_compute; lia.
Qed.

Lemma py_lt_num_inv (score v : value) (x : num) (c : bool) :
  as_num score = Some x → py_lt score v = Ok c →
  ∃ y, as_num v = Some y ∧ c = num_ltb x y.
Proof.
  intros Hs H. unfold py_lt, py_compare in H. rewrite Hs in H.
  destruct (as_num v) as [y |] eqn:Hv.
  - injection H as <-. exists y. split; reflexivity.
  - destruct score; discriminate.
Qed.

Lemma num_ltb_below (q1 q2 : Q) (y : num) :
  (q1 <= q2)%Q → num_ltb (Fin q2) y = true → num_ltb (Fin q1) y = true.
Proof.
  intros Hq. destruct y as [q | | |]; cbn [num_ltb]; try done.
  rewrite !Qlt_bool_iff. lra.
Qed.

Lemma base_action_monotone (thresholds : dict) (s1 s2 : value) (q1 q2 : Q) (b1 b2 : string) :
  as_num s1 = Some (Fin q1) → as_num s2 = Some (Fin q2) → (q1 <= q2)%Q →
  _get_base_action thresholds s1 = Ok b1 → _get_base_action thresholds s2 = Ok b2 →
  (severity b1 <= severity b2)%nat.
Proof.
  intros Hs1 Hs2 Hq H1 H2. unfold _get_base_action in H1, H2.
  bind_as H1 vallow Hallow. rewrite Hallow in H2. cbn [bind] in H2.
  bind_as H1 c1 Hc1. bind_as H2 c2 Hc2.
  destruct (py_lt_num_inv _ _ _ _ Hs1 Hc1) as (a & Ha & ->).
  destruct (py_lt_num_inv _ _ _ _ Hs2 Hc2) as (a' & Ha' & ->).
  assert (a' = a) as -> by congruence.
  destruct (num_ltb (Fin q1) a) eqn:E1; [injection H1 as <-; vm_compute; lia |].
  destruct (num_ltb (Fin q2) a) eqn:E2;
    [rewrite (num_ltb_below q1 q2 a Hq E2) in E1; discriminate |].
  bind_as H1 vblock Hblock. rewrite Hblock in H2. cbn [bind] in H2.
  bind_as H1 d1 Hd1. bind_as H2 d2 Hd2.
  destruct (py_lt_num_inv _ _ _ _ Hs1 Hd1) as (b & Hb & ->).
  destruct (py_lt_num_inv _ _ _ _ Hs2 Hd2) as (b' & Hb' & ->).
  assert (b' = b) as -> by congruence.
  destruct (num_ltb (Fin q2) b) eqn:F2.
  - rewrite (num_ltb_below q1 q2 b Hq F2) in H1. injection H1 as <-. injection H2 as <-. lia.
  - injection H2 as <-. destruct (num_ltb (Fin q1) b); injection H1 as <-; vm_compute; lia.
Qed.

Lemma decision_action_overlay float_repr now_iso thresholds score td r :
  make_decision float_repr now_iso thresholds score (Some td) = Ok r →
  ∃ base, _get_base_action thresholds score = Ok base ∧
          d_action r = context_overlay td base.
Proof.
  intros Hr.
  destruct (make_decision_Ok_inv _ _ _ _ _ _ Hr) as (x & base & _ & _ & Hbase & _ & Hrules & _).
  exists base. split; [exact Hbase |]. apply (apply_business_rules_overlay _ _ _ _ _ _ Hrules).
Qed.

(** X4. For fixed thresholds and a fixed context, the decision is monotone
    in the score: of two scores, the higher one never gets the less severe
    action. *)
Theorem decision_monotone_in_score (float_repr : num → string) (now_iso : string)
    (thresholds : dict) (ctx : option dict) (s1 s2 : value) (q1 q2 : Q)
    (r1 r2 : decision) :
  as_num s1 = Some (Fin q1) → as_num s2 = Some (Fin q2) → (q1 <= q2)%Q →
  make_decision float_repr now_iso thresholds s1 ctx = Ok r1 →
  make_decision float_repr now_iso thresholds s2 ctx = Ok r2 →
  (severity (d_action r1) <= severity (d_action r2))%nat.
Proof.
  intros Hs1 Hs2 Hq H1 H2. destruct ctx as [td |].
  - destruct (decision_action_overlay _ _ _ _ _ _ H1) as (b1 & Hb1 & ->).
    destruct (decision_action_overlay _ _ _ _ _ _ H2) as (b2 & Hb2 & ->).
    apply overlay_monotone.
    + apply (get_base_action_valid _ _ _ Hb1).
    + apply (get_base_action_valid _ _ _ Hb2).
    + apply (base_action_monotone thresholds s1 s2 q1 q2 b1 b2); assumption.
  - destruct (decision_chain _ _ _ _ _ _ H1) as (b1 & Hb1 & ->).
    destruct (decision_chain _ _ _ _ _ _ H2) as (b2 & Hb2 & ->).
    apply (base_action_monotone thresholds s1 s2 q1 q2 b1 b2); assumption.
Qed.

Lemma decision_monotone_in_score_witness :
  ∃ r1 r2,
    make_decision (fun _ => "") "" FRAUD_THRESHOLDS (VFloat (Fin (3 # 10)))
      (Some four_indicator_context) = Ok r1 ∧
    make_decision (fun _ => "") "" FRAUD_THRESHOLDS (VFloat (Fin (5 # 10)))
      (Some four_indicator_context) = Ok r2 ∧
    (severity (d_action r1) <= severity (d_action r2))%nat.
Proof.
  do 2 eexists. split; [vm_compute; reflexivity |]. split; [vm_compute; reflexivity |].
  apply (decision_monotone_in_score (fun _ => "") "" FRAUD_THRESHOLDS
           (Some four_indicator_context) (VFloat (Fin (3 # 10))) (VFloat (Fin (5 # 10)))
           (3 # 10) (5 # 10)); try reflexivity.
  discriminate.
Defined.

(** ** Escalations stick *)

Lemma overlay_not_allow (c1 c2 : bool) (n : nat) (vip c5 : bool) (a : string) :
  c1 = true ∨ c2 = true ∨ (3 <= n)%nat ∨ c5 = true →
  valid_action a → overlay c1 c2 n vip c5 a ≠ "ALLOW".
Proof.
  unfold overlay, tally_step. intros Hfired [-> | [-> | ->]];
    destruct c1, c2, vip, c5, (3 <=? n)%nat eqn:E3, (4 <=? n)%nat; vm_compute; try discriminate;
    exfalso; apply Nat.leb_gt in E3;
    destruct Hfired as [? | [? | [? | ?]]]; try discriminate; lia.
Qed.

(** A context in which one of the four escalating rules fires gets no
    ALLOW. *)
Lemma fired_not_allowed float_repr now_iso thresholds score td r :
  high_amount_fired td = true ∨ new_receiver_fired td = true ∨
  (3 <= indicator_total td)%nat ∨ micro_night_fired td = true →
  make_decision float_repr now_iso thresholds score (Some td) = Ok r →
  d_action r ≠ "ALLOW".
Proof.
  intros Hfired Hr.
  destruct (decision_action_overlay _ _ _ _ _ _ Hr) as (base & Hbase & ->).
  apply overlay_not_allow; [exact Hfired | apply (get_base_action_valid _ _ _ Hbase)].
Qed.

(** X5. A context whose amount exceeds five times its average amount of
    the last week (an absent average counting as 0) is never allowed,
    whatever the score and the other rules.  The product is the one Python
    forms: of ints an int, of a float the nearest double, an infinity
    beyond the doubles; and where an int is compared with a float, the int
    is at most 2^53 in magnitude. *)
Theorem high_amount_never_allowed (float_repr : num → string) (now_iso : string)
    (thresholds : dict) (score : value) (td : dict) (limit : value) (r : decision) :
  py_mul_int (get td "avg_amount_last_week" (VInt 0)) 5 = Ok limit →
  compared_exactly (get td "amount" (VInt 0)) limit →
  py_gt (get td "amount" (VInt 0)) limit = Ok true →
  make_decision float_repr now_iso thresholds score (Some td) = Ok r →
  d_action r ≠ "ALLOW".
Proof.
  intros Hlimit _ Hgt Hr.
  apply (fired_not_allowed float_repr now_iso thresholds score td r); [left | exact Hr].
  unfold high_amount_fired. rewrite Hlimit. cbn [bind]. rewrite Hgt. reflexivity.
Qed.

Lemma high_amount_never_allowed_witness :
  py_mul_int (VFloat (Fin (20004 # 100))) 5 = Ok (VFloat (Fin (10001999999999999 # 10000000000000))) ∧
  (∃ r, make_decision (fun _ => "") "" FRAUD_THRESHOLDS (VFloat (Fin (3 # 10)))
          (Some rounded_limit_context) = Ok r ∧
        d_action r ≠ "ALLOW") ∧
  ∃ r, make_decision (fun _ => "") "" FRAUD_THRESHOLDS (VFloat (Fin (3 # 10)))
         (Some high_amount_context) = Ok r ∧
       d_action r ≠ "ALLOW".
Proof.
  split; [vm_compute; reflexivity |]. split.
  - eexists. split; [vm_compute; reflexivity |].
    apply (high_amount_never_allowed (fun _ => "") "" FRAUD_THRESHOLDS
             (VFloat (Fin (3 # 10))) rounded_limit_context
             (VFloat (Fin (10001999999999999 # 10000000000000))));
      vm_compute; reflexivity.
  - eexists. split; [vm_compute; reflexivity |].
    apply (high_amount_never_allowed (fun _ => "") "" FRAUD_THRESHOLDS
             (VFloat (Fin (3 # 10))) high_amount_context (VInt 5000));
      vm_compute; reflexivity.
Defined.

(** Five times an average of 1e308 is the float infinity, which no amount
    exceeds: rule 1 does not fire. *)
Example overflowing_average_allows :
  py_mul_int (VFloat (Fin (10 ^ 308))) 5 = Ok (VFloat PInf) ∧
  ∃ r, make_decision (fun _ => "") "" FRAUD_THRESHOLDS (VFloat (Fin (3 # 10)))
         (Some (<["amount" := VInt (10 ^ 400)]>
                  (<["avg_amount_last_week" := VFloat (Fin (10 ^ 308))]> ∅))) = Ok r ∧
       d_action r = "ALLOW".
Proof. split; [vm_compute; reflexivity |]. eexists. split; vm_compute; reflexivity. Qed.

(** X6. A context whose receiver is younger than 7 days and whose amount
    exceeds 10000 is never allowed. *)
Theorem new_receiver_never_allowed (float_repr : num → string) (now_iso : string)
    (thresholds : dict) (score : value) (td : dict) (r : decision) :
  py_lt (get td "receiver_age_days" (VInt 365)) (VInt 7) = Ok true →
  py_gt (get td "amount" (VInt 0)) (VInt 10000) = Ok true →
  make_decision float_repr now_iso thresholds score (Some td) = Ok r →
  d_action r ≠ "ALLOW".
Proof.
  intros Hage Hgt Hr.
  apply (fired_not_allowed float_repr now_iso thresholds score td r); [right; left | exact Hr].
  unfold new_receiver_fired. rewrite Hage. cbn [bind]. rewrite Hgt. reflexivity.
Qed.

Lemma new_receiver_never_allowed_witness :
  ∃ r, make_decision (fun _ => "") "" FRAUD_THRESHOLDS (VFloat (Fin (3 # 10)))
         (Some new_receiver_context) = Ok r ∧
       d_action r ≠ "ALLOW".
Proof.
  eexists. split; [vm_compute; reflexivity |].
  apply (new_receiver_never_allowed (fun _ => "") "" FRAUD_THRESHOLDS
           (VFloat (Fin (3 # 10))) new_receiver_context); vm_compute; reflexivity.
Defined.

(** X7. A context whose amount is below 50 and whose transaction hour is
    at most 5 or at least 23 is never allowed. *)
Theorem micro_night_never_allowed (float_repr : num → string) (now_iso : string)
    (thresholds : dict) (score : value) (td : dict) (r : decision) :
  py_lt (get td "amount" (VInt 0)) (VInt 50) = Ok true →
  py_le (get td "transaction_time" (VInt 12)) (VInt 5) = Ok true ∨
  (py_le (get td "transaction_time" (VInt 12)) (VInt 5) = Ok false ∧
   py_ge (get td "transaction_time" (VInt 12)) (VInt 23) = Ok true) →
  make_decision float_repr now_iso thresholds score (Some td) = Ok r →
  d_action r ≠ "ALLOW".
Proof.
  intros Hmicro Hnight Hr.
  apply (fired_not_allowed float_repr now_iso thresholds score td r); [right; right; right | exact Hr].
  unfold micro_night_fired. rewrite Hmicro. cbn [bind].
  destruct Hnight as [-> | [-> ->]]; reflexivity.
Qed.

Lemma micro_night_never_allowed_witness :
  ∃ r, make_decision (fun _ => "") "" FRAUD_THRESHOLDS (VFloat (Fin (1 # 10)))
         (Some micro_night_context) = Ok r ∧
       d_action r ≠ "ALLOW".
Proof.
  eexists. split; [vm_compute; reflexivity |].
  apply (micro_night_never_allowed (fun _ => "") "" FRAUD_THRESHOLDS
           (VFloat (Fin (1 # 10))) micro_night_context);
    [| left |]; vm_compute; reflexivity.
Defined.

(** X8. A context with three or more risk indicators is never allowed. *)
Theorem three_indicators_never_allowed (float_repr : num → string) (now_iso : string)
    (thresholds : dict) (score : value) (td : dict) (reasoning : list string)
    (t : tally) (r : decision) :
  count_risk_indicators td reasoning = Ok t → (3 <= fst t)%nat →
  make_decision float_repr now_iso thresholds score (Some td) = Ok r →
  d_action r ≠ "ALLOW".
Proof.
  intros Hcount Hn Hr.
  apply (fired_not_allowed float_repr now_iso thresholds score td r); [right; right; left | exact Hr].
  rewrite <- (count_risk_indicators_total td reasoning t Hcount). exact Hn.
Qed.

Lemma three_indicators_never_allowed_witness :
  ∃ r, make_decision (fun _ => "") "" FRAUD_THRESHOLDS (VFloat (Fin (3 # 10)))
         (Some four_indicator_context) = Ok r ∧
       d_action r ≠ "ALLOW".
Proof.
  eexists. split; [vm_compute; reflexivity |].
  apply (three_indicators_never_allowed (fun _ => "") "" FRAUD_THRESHOLDS
           (VFloat (Fin (3 # 10))) four_indicator_context []
           (4%nat, ["Unusual transaction hour"; "Distant location";
                    "High transaction frequency"; "High-risk receiver"]));
    [vm_compute; reflexivity | vm_compute; lia | vm_compute; reflexivity].
Defined.

(** ** The action processor *)

Lemma process_action_valid (now_stamp : string) (d : decision) :
  valid_action (d_action d) → reports (process_action now_stamp d) d.
Proof.
  unfold process_action, reports. intros [H | [H | H]]; rewrite H; cbn;
    repeat split; try (intros [? ?]; discriminate); try discriminate; eauto.
Qed.

(** X9. [process_action] reports the decision it is given when the action
    is one of ALLOW, VERIFY, BLOCK: same action, score and risk level, a
    support reference exactly for BLOCK, verification methods exactly for
    VERIFY, and the status success, pending or blocked.  For any other
    action it answers action UNKNOWN with status error. *)
Theorem process_action_reports (now_stamp : string) (d : decision) :
  ar_status (process_action now_stamp d) = status_of (d_action d) ∧
  (valid_action (d_action d) → reports (process_action now_stamp d) d) ∧
  (¬ valid_action (d_action d) →
     ar_action (process_action now_stamp d) = "UNKNOWN" ∧
     ar_next_steps (process_action now_stamp d) = ["retry_later"; "contact_support"]).
Proof.
  split; [| split].
  - unfold process_action, status_of.
    destruct (String.eqb (d_action d) "ALLOW"); [reflexivity |].
    destruct (String.eqb (d_action d) "VERIFY"); [reflexivity |].
    destruct (String.eqb (d_action d) "BLOCK"); reflexivity.
  - apply process_action_valid.
  - intros Hn. unfold process_action.
    destruct (String.eqb (d_action d) "ALLOW") eqn:EA;
      [apply String.eqb_eq in EA; exfalso; apply Hn; left; exact EA |].
    destruct (String.eqb (d_action d) "VERIFY") eqn:EV;
      [apply String.eqb_eq in EV; exfalso; apply Hn; right; left; exact EV |].
    destruct (String.eqb (d_action d) "BLOCK") eqn:EB;
      [apply String.eqb_eq in EB; exfalso; apply Hn; right; right; exact EB |].
    split; reflexivity.
Qed.

Lemma process_action_reports_witness :
  reports
    (process_action "20260101120000"
       {| d_fraud_score := Fin (8 # 10); d_risk_level := "HIGH"; d_action := "BLOCK";
          d_reasoning := ""; d_timestamp := ""; d_confidence := Fin (1 # 2) |})
    {| d_fraud_score := Fin (8 # 10); d_risk_level := "HIGH"; d_action := "BLOCK";
       d_reasoning := ""; d_timestamp := ""; d_confidence := Fin (1 # 2) |}.
Proof.
  apply (proj1 (proj2 (process_action_reports "20260101120000" _))).
  right. right. reflexivity.
Defined.


(** ** Validation of a transaction *)

Lemma missing_fields_nil (td : dict) :
  List.filter (fun field => negb (contains td field)) required_fields = [] ↔
  ∀ field, field ∈ required_fields → is_Some (td !! field).
Proof.
  split.
  - intros H field Hin. apply contains_is_Some.
    destruct (contains td field) eqn:E; [reflexivity | exfalso].
    assert (Hf : In field (List.filter (fun f => negb (contains td f)) required_fields)).
    { apply filter_In. split; [apply list_elem_of_In; exact Hin | rewrite E; reflexivity]. }
    rewrite H in Hf. exact Hf.
  - intros H.
    assert (Hall : ∀ f, In f required_fields → negb (contains td f) = false).
    { intros f Hf. apply negb_false_iff, contains_is_Some, H, list_elem_of_In, Hf. }
    clear H. induction required_fields as [| f rest IH]; [reflexivity |].
    cbn [List.filter]. rewrite (Hall f (or_introl eq_refl)).
    apply IH. intros g Hg. apply Hall. right. exact Hg.
Qed.

Lemma compare_raises_type_error op fnum fstr (a b : value) (e : exn) :
  py_compare op fnum fstr a b = Raise e → ∃ msg, e = TypeError msg.
Proof.
  unfold py_compare, compare_error. intros H.
  destruct (as_num a), (as_num b), a, b; try discriminate; injection H as <-; eauto.
Qed.

Lemma validation_accepted (td : dict) :
  _validate_transaction_data td = Ok tt ↔ accepted_transaction td.
Proof.
  unfold _validate_transaction_data, accepted_transaction.
  destruct (List.filter _ required_fields) as [| f rest] eqn:Hmissing.
  - pose proof (proj1 (missing_fields_nil td) Hmissing) as Hall.
    destruct (Hall "amount") as [amount Hamount]; [set_solver |].
    destruct (Hall "transaction_time") as [hour Hhour]; [set_solver |].
    unfold getitem. rewrite Hamount, Hhour. cbn [bind].
    split.
    + intros H. split; [exact Hall |]. exists amount, hour.
      destruct (is_number amount) eqn:Hnum; cbn [negb bind] in H; [| discriminate].
      destruct (py_le amount (VInt 0)) as [[] | e1]; cbn [bind] in H; try discriminate.
      destruct (py_le (VInt 0) hour) as [[] | e2]; cbn [bind] in H; try discriminate.
      destruct (py_le hour (VInt 23)) as [[] | e3]; cbn [bind negb] in H; try discriminate.
      repeat split; reflexivity.
    + intros (_ & amount' & hour' & Ha & Hnum & Hle & Hh & Hlo & Hhi).
      assert (amount' = amount) as -> by congruence.
      assert (hour' = hour) as -> by congruence.
      rewrite Hnum. cbn [negb]. rewrite Hle. cbn [bind]. rewrite Hlo. cbn [bind].
      rewrite Hhi. reflexivity.
  - split; [discriminate |]. intros [Hall _].
    apply missing_fields_nil in Hall. congruence.
Qed.

(** X10. [_validate_transaction_data] accepts a transaction exactly when
    its six required keys are present, its amount is a number that is not
    [<= 0] and its hour lies between 0 and 23; what it raises otherwise is
    a [ValueError] or, for an amount or hour of the wrong type, a
    [TypeError], never a [KeyError]. *)
Theorem validation_accepts_exactly (td : dict) :
  (_validate_transaction_data td = Ok tt ↔ accepted_transaction td) ∧
  (∀ e, _validate_transaction_data td = Raise e →
        (∃ msg, e = ValueError msg) ∨ (∃ msg, e = TypeError msg)).
Proof.
  split; [apply validation_accepted |].
  unfold _validate_transaction_data.
  destruct (List.filter _ required_fields) as [| f rest] eqn:Hmissing;
    [| intros e [= <-]; left; eauto].
  pose proof (proj1 (missing_fields_nil td) Hmissing) as Hall.
  destruct (Hall "amount") as [amount Hamount]; [set_solver |].
  destruct (Hall "transaction_time") as [hour Hhour]; [set_solver |].
  unfold getitem. rewrite Hamount, Hhour. cbn [bind].
  intros e H.
  destruct (is_number amount) eqn:Hnum; cbn [negb bind] in H;
    [| injection H as <-; left; eauto].
  destruct (py_le amount (VInt 0)) as [[] | e1] eqn:H1; cbn [bind] in H.
  - injection H as <-. left. eauto.
  - destruct (py_le (VInt 0) hour) as [[] | e2] eqn:H2; cbn [bind] in H.
    + destruct (py_le hour (VInt 23)) as [[] | e3] eqn:H3; cbn [bind negb] in H.
      * discriminate.
      * injection H as <-. left. eauto.
      * injection H as <-. right. apply (compare_raises_type_error _ _ _ _ _ _ H3).
    + injection H as <-. left. eauto.
    + injection H as <-. right. apply (compare_raises_type_error _ _ _ _ _ _ H2).
  - injection H as <-. right. apply (compare_raises_type_error _ _ _ _ _ _ H1).
Qed.

Lemma validation_accepts_exactly_witness :
  _validate_transaction_data plain_transaction = Ok tt ∧
  accepted_transaction plain_transaction.
Proof.
  split; [vm_compute; reflexivity |].
  apply (proj1 (proj1 (validation_accepts_exactly plain_transaction))).
  vm_compute. reflexivity.
Defined.

Lemma contains_insert_present (td : dict) (k : string) (v : value) (field : string) :
  is_Some (td !! k) → contains (<[k := v]> td) field = contains td field.
Proof.
  intros Hk. unfold contains. destruct (decide (k = field)) as [-> | Hne].
  - rewrite lookup_insert_eq. destruct Hk as [w ->]. reflexivity.
  - rewrite lookup_insert_ne by exact Hne. reflexivity.
Qed.

(** X11. The validation looks at the values of [amount] and
    [transaction_time] only: giving any other key that is present a new
    value, whatever it is ([None] and the empty string included), changes
    neither the acceptance nor the error. *)
Theorem validation_reads_amount_and_hour (td : dict) (k : string) (v : value) :
  is_Some (td !! k) → k ≠ "amount" → k ≠ "transaction_time" →
  _validate_transaction_data (<[k := v]> td) = _validate_transaction_data td.
Proof.
  intros Hk Hamount Hhour. unfold _validate_transaction_data.
  assert (Hfilter : List.filter (fun field => negb (contains (<[k := v]> td) field))
                      required_fields
                    = List.filter (fun field => negb (contains td field)) required_fields).
  { induction required_fields as [| f rest IH]; [reflexivity |].
    cbn [List.filter]. rewrite (contains_insert_present td k v f Hk), IH. reflexivity. }
  rewrite Hfilter. unfold getitem.
  rewrite !lookup_insert_ne by assumption. reflexivity.
Qed.

Lemma validation_reads_amount_and_hour_witness :
  _validate_transaction_data (<["sender_id" := VStr ""]> plain_transaction) = Ok tt.
Proof.
  rewrite (validation_reads_amount_and_hour plain_transaction "sender_id" (VStr "")).
  - vm_compute. reflexivity.
  - vm_compute. eauto.
  - discriminate.
  - discriminate.
Defined.

(** ** Results of the pipeline *)

Lemma num_leb_not_ltb (a : num) : num_leb a (Fin 1) = true → num_ltb (Fin 1) a = false.
Proof.
  destruct a as [q | | |]; cbn [num_leb num_ltb]; try done.
  intros H. unfold Qlt_bool. rewrite H. reflexivity.
Qed.

Section PipelineResults.

Variable float_repr : num → string.
Variable now_iso : string.
Variable now_stamp : string.
Variable features : Type.
Variable preprocess_single_transaction : dict → res features.
Variable predict_fraud_probability : features → res num.

#[local] Abbreviation run :=
  (predict_fraud float_repr now_iso now_stamp features
     preprocess_single_transaction predict_fraud_probability).
#[local] Abbreviation run_steps :=
  (predict_fraud_steps float_repr now_iso now_stamp features
     preprocess_single_transaction predict_fraud_probability).
#[local] Abbreviation batch :=
  (batch_predict float_repr now_iso now_stamp features
     preprocess_single_transaction predict_fraud_probability).

(** How a result of a loaded pipeline came about. *)
Lemma predict_fraud_inv (p : pipeline) (td : dict) (r : pipeline_result) :
  run p td = Ok r →
  is_loaded p = true ∧
  ((∃ e, run_steps p td = Raise e ∧
         r = _create_error_response now_iso (str_exn e) td) ∨
   (∃ X fraud_score d,
       _validate_transaction_data td = Ok tt ∧
       preprocess_single_transaction td = Ok X ∧
       predict_fraud_probability X = Ok fraud_score ∧
       make_decision float_repr now_iso (thresholds p) (VFloat (clamp_score fraud_score))
         (Some td) = Ok d ∧
       r = FinalResult (get td "transaction_id" (VStr "unknown")) d
             (process_action now_stamp d) now_iso)).
Proof.
  unfold predict_fraud. destruct (is_loaded p); cbn [negb]; [| discriminate].
  intros H. split; [reflexivity |].
  destruct (run_steps p td) as [r' | e] eqn:Hsteps.
  - right. injection H as ->. unfold predict_fraud_steps in Hsteps.
    bind_as Hsteps u Hv. destruct u. bind_as Hsteps X Hp. bind_as Hsteps s Hs.
    bind_as Hsteps d Hd. injection Hsteps as <-. exists X, s, d. auto.
  - left. injection H as <-. exists e. auto.
Qed.

(** X12. A result of [predict_fraud] carries the transaction's id (or
    "unknown" when it has none), and its action response is never UNKNOWN:
    an error response has action BLOCK, and the response of a final result
    reports the decision of that result. *)
Theorem predict_fraud_result_shape (p : pipeline) (td : dict) (r : pipeline_result) :
  run p td = Ok r →
  result_transaction_id r = get td "transaction_id" (VStr "unknown") ∧
  valid_action (ar_action (result_response r)) ∧
  (is_error_response r = true → ar_action (result_response r) = "BLOCK") ∧
  (∀ d, result_decision r = Some d → reports (result_response r) d).
Proof.
  intros Hr.
  destruct (predict_fraud_inv p td r Hr)
    as (_ & [(e & _ & ->) | (X & s & d & _ & _ & _ & Hd & ->)]).
  - cbn. split; [reflexivity |]. split; [right; right; reflexivity |].
    split; [reflexivity | discriminate].
  - pose proof (process_action_valid now_stamp d (decision_action_valid _ _ _ _ _ _ Hd))
      as Hrep.
    cbn. split; [reflexivity |]. split; [| split].
    + destruct Hrep as (-> & _). apply (decision_action_valid _ _ _ _ _ _ Hd).
    + discriminate.
    + intros d' [= <-]. exact Hrep.
Qed.

(** X13. Whatever the model returns, the fraud score of a final result is
    a finite number in [0, 1]. *)
Theorem predict_fraud_score_in_unit (p : pipeline) (td : dict) (r : pipeline_result)
    (d : decision) :
  run p td = Ok r → result_decision r = Some d →
  ∃ q, d_fraud_score d = Fin q ∧ (0 <= q <= 1)%Q.
Proof.
  intros Hr Hd.
  destruct (predict_fraud_inv p td r Hr)
    as (_ & [(e & _ & ->) | (X & s & d' & _ & _ & _ & Hdec & ->)]); [discriminate |].
  injection Hd as <-.
  destruct (clamp_score_finite s) as (q & Hq & Hrange). rewrite Hq in Hdec.
  rewrite (make_decision_in_range float_repr now_iso (thresholds p) (VFloat (Fin q))
             (Some td) (Fin q) eq_refl (proj2 (out_of_range_Fin q) Hrange)) in Hdec.
  bind_as Hdec base Hbase. bind_as Hdec level Hlevel. bind_as Hdec ar Hrules.
  destruct ar as [action reasoning]. bind_as Hdec c Hc. injection Hdec as <-.
  cbn [d_fraud_score round_score as_num]. unfold py_round. cbn [decode].
  destruct (to_double_unit q Hrange) as [Hdouble Hunit]. rewrite Hdouble.
  exists (Qround_dec (double_value q) 4). split; [reflexivity |].
  apply Qround_dec_unit; [right; reflexivity | exact Hunit].
Qed.

(** X14. A model score of 1 or more, plus infinity or NaN is never
    allowed when the [allow] threshold is a number of at most 1: the result
    is a BLOCK, or a VERIFY by one of the rules. *)
Theorem high_or_undefined_score_never_allowed (p : pipeline) (td : dict)
    (r : pipeline_result) (X : features) (fraud_score : num) (vallow : value) (a : num) :
  thresholds p !! "allow" = Some vallow → as_num vallow = Some a →
  num_leb a (Fin 1) = true →
  preprocess_single_transaction td = Ok X →
  predict_fraud_probability X = Ok fraud_score →
  num_ltb fraud_score (Fin 1) = false →
  run p td = Ok r →
  ar_action (result_response r) ≠ "ALLOW".
Proof.
  intros Hallow Ha Hle Hp Hs Hhigh Hr.
  destruct (predict_fraud_inv p td r Hr)
    as (_ & [(e & _ & ->) | (X' & s & d & _ & Hp' & Hs' & Hd & ->)]); [discriminate |].
  assert (X' = X) as -> by congruence. assert (s = fraud_score) as -> by congruence.
  cbn [result_response].
  destruct (process_action_valid now_stamp d (decision_action_valid _ _ _ _ _ _ Hd))
    as (-> & _).
  intros Hact.
  pose proof (decision_allow_base _ _ _ _ _ _ Hd Hact) as Hbase.
  assert (Hclamp : clamp_score fraud_score = Fin 1).
  { unfold clamp_score, py_min. rewrite Hhigh. reflexivity. }
  rewrite Hclamp in Hbase.
  unfold _get_base_action, getitem in Hbase. rewrite Hallow in Hbase.
  cbn [bind] in Hbase.
  rewrite (py_lt_num (VFloat (Fin 1)) vallow (Fin 1) a eq_refl Ha) in Hbase.
  rewrite (num_leb_not_ltb a Hle) in Hbase. cbn [bind] in Hbase.
  bind_as Hbase vblock Hblock. bind_as Hbase c Hc. destruct c; discriminate.
Qed.

Lemma positive_amount (x : num) :
  x ≠ NaN → num_leb x (Fin 0) = false → num_ltb (Fin 0) x = true.
Proof.
  destruct x as [q | | |]; cbn [num_leb num_ltb]; try done.
  intros _ H. unfold Qlt_bool. rewrite H. reflexivity.
Qed.

(** X15. A transaction without the key [avg_amount_last_week] is never
    allowed by [predict_fraud] (its amount not being NaN): rule 1 reads the
    absent average as 0, and the validation has let only a positive amount
    through. *)
Theorem missing_average_never_allowed (p : pipeline) (td : dict) (r : pipeline_result) :
  td !! "avg_amount_last_week" = None →
  (∀ v, td !! "amount" = Some v → as_num v ≠ Some NaN) →
  run p td = Ok r →
  ar_action (result_response r) ≠ "ALLOW".
Proof.
  intros Havg Hnan Hr.
  destruct (predict_fraud_inv p td r Hr)
    as (_ & [(e & _ & ->) | (X & s & d & Hv & _ & _ & Hd & ->)]); [discriminate |].
  cbn [result_response].
  destruct (process_action_valid now_stamp d (decision_action_valid _ _ _ _ _ _ Hd))
    as (-> & _).
  apply (fired_not_allowed float_repr now_iso (thresholds p)
           (VFloat (clamp_score s)) td d); [left | exact Hd].
  apply validation_accepted in Hv.
  destruct Hv as (_ & amount & hour & Hamount & Hnum & Hle & _).
  destruct (is_number_as_num amount Hnum) as [x Hx].
  rewrite (py_le_num amount (VInt 0) x (Fin 0) Hx eq_refl) in Hle. injection Hle as Hle.
  assert (Hpos : num_ltb (Fin 0) x = true).
  { apply positive_amount; [| exact Hle]. intros ->. exact (Hnan amount Hamount Hx). }
  unfold high_amount_fired, get. rewrite Havg, Hamount. cbn [py_mul_int bind].
  rewrite (py_gt_num amount (VInt (0 * 5)) x (Fin 0) Hx eq_refl). cbn [res_or]. exact Hpos.
Qed.

(** X16. On a pipeline whose models did not load, [predict_fraud] raises a
    [RuntimeError], while [batch_predict] returns for every item the error
    response with that error's message and action BLOCK. *)
Theorem unloaded_pipeline_blocks (p : pipeline) :
  is_loaded p = false →
  (∀ td, run p td = Raise (RuntimeError "Fraud detection pipeline not properly loaded")) ∧
  (∀ items σ j l, items !! j = Some l →
     ∃ r, fst (batch p items σ) !! j = Some r ∧
          result_error r = Some "Fraud detection pipeline not properly loaded" ∧
          ar_action (result_response r) = "BLOCK").
Proof.
  intros Hload. split.
  - intros td. unfold predict_fraud. rewrite Hload. reflexivity.
  - intros items σ j l Hj. unfold batch_predict.
    rewrite (batch_loop_lookup float_repr now_iso now_stamp features
               preprocess_single_transaction predict_fraud_probability p items 0 σ j l Hj).
    eexists. split; [reflexivity |].
    unfold batch_item, predict_fraud. rewrite Hload. cbn. split; reflexivity.
Qed.

(** X17. Running [batch_predict] again on the same batch changes nothing
    more: the store stays as the first run left it (every item has its id
    by then), and, the clock and the answers of the model being the same,
    the results are those of the first run, ids included. *)
Theorem batch_predict_idempotent (p : pipeline) (items : list loc) (σ : store) :
  fst (batch p items (snd (batch p items σ))) = fst (batch p items σ) ∧
  ∀ l, snd (batch p items (snd (batch p items σ))) l = snd (batch p items σ) l.
Proof.
  unfold batch_predict. split.
  - apply list_eq. intros j. destruct (items !! j) as [l |] eqn:Hj.
    + rewrite !(batch_loop_lookup float_repr now_iso now_stamp features
                  preprocess_single_transaction predict_fraud_probability p items 0 _ j l Hj).
      rewrite batch_loop_store.
      rewrite decide_True by (eapply list_elem_of_lookup_2; exact Hj).
      rewrite add_transaction_id_twice. reflexivity.
    + apply lookup_ge_None in Hj.
      rewrite !(proj2 (lookup_ge_None _ _)); [reflexivity | |];
        rewrite batch_loop_length; exact Hj.
  - intros l. rewrite !batch_loop_store.
    destruct (decide (l ∈ items)); [apply add_transaction_id_twice | reflexivity].
Qed.

End PipelineResults.

Lemma predict_fraud_result_shape_witness :
  ∃ r, predict_fraud (fun _ => "") "" "" unit (fun _ => Ok tt) (fun _ => Ok (Fin (1 # 10)))
         default_pipeline plain_transaction = Ok r ∧
       result_transaction_id r = VStr "unknown" ∧
       valid_action (ar_action (result_response r)).
Proof.
  eexists. split; [vm_compute; reflexivity |].
  destruct (predict_fraud_result_shape (fun _ => "") "" "" unit (fun _ => Ok tt)
              (fun _ => Ok (Fin (1 # 10))) default_pipeline plain_transaction _
              ltac:(vm_compute; reflexivity)) as (Hid & Hvalid & _).
  split; [exact Hid | exact Hvalid].
Defined.

Lemma predict_fraud_score_in_unit_witness :
  ∃ r d, predict_fraud (fun _ => "") "" "" unit (fun _ => Ok tt) (fun _ => Ok PInf)
           default_pipeline plain_transaction = Ok r ∧
         result_decision r = Some d ∧
         ∃ q, d_fraud_score d = Fin q ∧ (0 <= q <= 1)%Q.
Proof.
  do 2 eexists. split; [vm_compute; reflexivity |]. split; [reflexivity |].
  apply (predict_fraud_score_in_unit (fun _ => "") "" "" unit (fun _ => Ok tt)
           (fun _ => Ok PInf) default_pipeline plain_transaction _ _
           ltac:(vm_compute; reflexivity) eq_refl).
Defined.

Lemma high_or_undefined_score_never_allowed_witness :
  ∃ r, predict_fraud (fun _ => "") "" "" unit (fun _ => Ok tt) (fun _ => Ok NaN)
         default_pipeline plain_transaction = Ok r ∧
       ar_action (result_response r) ≠ "ALLOW".
Proof.
  eexists. split; [vm_compute; reflexivity |].
  apply (high_or_undefined_score_never_allowed (fun _ => "") "" "" unit (fun _ => Ok tt)
           (fun _ => Ok NaN) default_pipeline plain_transaction _ tt NaN
           (VFloat (Fin (4 # 10))) (Fin (4 # 10)));
    reflexivity.
Defined.

Lemma missing_average_never_allowed_witness :
  ∃ r, predict_fraud (fun _ => "") "" "" unit (fun _ => Ok tt) (fun _ => Ok (Fin (1 # 10)))
         default_pipeline (delete "avg_amount_last_week" plain_transaction) = Ok r ∧
       ar_action (result_response r) ≠ "ALLOW".
Proof.
  eexists. split; [vm_compute; reflexivity |].
  apply (missing_average_never_allowed (fun _ => "") "" "" unit (fun _ => Ok tt)
           (fun _ => Ok (Fin (1 # 10))) default_pipeline
           (delete "avg_amount_last_week" plain_transaction)).
  - reflexivity.
  - intros v Hv. vm_compute in Hv. injection Hv as <-. discriminate.
  - vm_compute. reflexivity.
Defined.

Lemma unloaded_pipeline_blocks_witness :
  predict_fraud (fun _ => "") "" "" unit (fun _ => Ok tt) (fun _ => Ok (Fin (1 # 10)))
    unloaded_pipeline plain_transaction
  = Raise (RuntimeError "Fraud detection pipeline not properly loaded").
Proof.
  apply (proj1 (unloaded_pipeline_blocks (fun _ => "") "" "" unit (fun _ => Ok tt)
                  (fun _ => Ok (Fin (1 # 10))) unloaded_pipeline eq_refl)).
Defined.

(** ** Confidence, thresholds and their updates *)

Lemma to_double_nonneg_cases (q : Q) :
  (0 <= q)%Q → (∃ d, to_double q = Fin d ∧ (0 <= d)%Q) ∨ to_double q = PInf.
Proof.
  intros H. destruct (to_double q) as [d | | |] eqn:E.
  - left. exists d. split; [reflexivity | apply (to_double_nonneg q d E H)].
  - right. reflexivity.
  - exfalso. revert E. unfold to_double. rewrite (proj2 (Qle_bool_iff 0 q) H).
    destruct (Qeq_bool q 0); [discriminate |]. destruct (Qle_bool _ _); discriminate.
  - exfalso. revert E. unfold to_double.
    destruct (Qeq_bool q 0); [discriminate |].
    destruct (Qle_bool _ _); [destruct (Qle_bool 0 q) |]; discriminate.
Qed.

(** What the engine divides by 0.2 is an absolute value: NaN, plus
    infinity or a float that is not negative; and so is the quotient. *)
Lemma ratio_cases (y : num) :
  let r := float_div_pos (num_abs y) (2 # 10) in
  r = NaN ∨ r = PInf ∨ ∃ h d, r = Fin h ∧ to_double h = Fin d ∧ (0 <= d)%Q.
Proof.
  unfold float_div_pos. rewrite to_double_fifth.
  destruct y as [q | | |]; cbn [num_abs decode]; try (right; left; reflexivity);
    [| left; reflexivity].
  destruct (to_double_nonneg_cases (Qabs q) (Qabs_nonneg q)) as [(d & -> & Hd) | ->];
    [| right; left; reflexivity].
  assert (Hq : (0 <= d / (3602879701896397 # 18014398509481984))%Q)
    by (apply Qle_shift_div_l; [reflexivity | lra]).
  destruct (to_double_nonneg_cases _ Hq) as [(d' & Hd' & H0) | ->];
    [| right; left; reflexivity].
  rewrite Hd'. cbn [literal]. right. right. exists (shortest d'), d'.
  split; [reflexivity |]. split; [| exact H0].
  apply shortest_denotes, (to_double_idem _ _ Hd').
Qed.

Lemma rounded_ratio_unit (r : num) :
  r = NaN ∨ r = PInf ∨ (∃ h d, r = Fin h ∧ to_double h = Fin d ∧ (0 <= d)%Q) →
  ∃ c, py_round (py_min (Fin 1) r) 3 = Fin c ∧ (0 <= c <= 1)%Q.
Proof.
  intros [-> | [-> | (h & d & -> & Hd & H0)]].
  - eexists. split; [vm_compute; reflexivity | split; vm_compute; discriminate].
  - eexists. split; [vm_compute; reflexivity | split; vm_compute; discriminate].
  - destruct (py_min_one h d Hd H0) as (ht & dt & -> & Hdt & Hvt).
    unfold py_round. cbn [decode]. rewrite Hdt. exists (Qround_dec dt 3).
    split; [reflexivity |]. apply Qround_dec_unit; [left; reflexivity |].
    rewrite Hvt. split; [apply Q.min_glb; [discriminate | exact H0] | apply Q.le_min_l].
Qed.

(** A number that passed the range check of [make_decision] is a float
    operand. *)
Lemma as_float_in_range (score : value) (x : num) :
  as_num score = Some x → out_of_range x = false → ∃ x', as_float score = Some (Ok x').
Proof.
  intros Hs Hr. destruct score as [| b | z | y | s]; try discriminate.
  - destruct b; eexists; vm_compute; reflexivity.
  - injection Hs as <-. apply out_of_range_Fin in Hr.
    destruct (unit_int z Hr) as [-> | ->]; eexists; vm_compute; reflexivity.
  - eexists. reflexivity.
Qed.

Lemma to_double_not_nan (q : Q) : to_double q ≠ NaN.
Proof.
  unfold to_double. destruct (Qeq_bool q 0); [discriminate |].
  destruct (Qle_bool _ _); [destruct (Qle_bool 0 q) |]; discriminate.
Qed.

(** The difference of a float of [0, 1] with itself is the float 0. *)
Lemma float_sub_self (t : Q) : (0 <= t <= 1)%Q → float_sub (Fin t) (Fin t) = Fin 0.
Proof.
  intros Ht. unfold float_sub. cbn [decode].
  rewrite (proj1 (to_double_unit t Ht)). cbn [num_opp double_add].
  rewrite (to_double_zero (double_value t + - double_value t)) by ring.
  reflexivity.
Qed.

(** Only NaN makes a difference with a float of [0, 1] NaN. *)
Lemma float_sub_not_nan (t : Q) (b : num) :
  (0 <= t <= 1)%Q → b ≠ NaN → float_sub (Fin t) b ≠ NaN.
Proof.
  intros Ht Hb. unfold float_sub. cbn [decode]. rewrite (proj1 (to_double_unit t Ht)).
  destruct b as [q | | |]; cbn [decode]; try discriminate; [| contradiction].
  pose proof (to_double_not_nan q) as Hq.
  destruct (to_double q) as [d | | |]; try discriminate; [| contradiction].
  cbn [num_opp double_add]. pose proof (to_double_not_nan (double_value t + - d)) as Hd.
  destruct (to_double (double_value t + - d)); try discriminate. contradiction.
Qed.

Lemma abs_not_below (y : num) (q : Q) : (q <= 0)%Q → num_ltb (num_abs y) (Fin q) = false.
Proof.
  intros Hq. destruct y as [x | | |]; try reflexivity. cbn [num_abs num_ltb].
  unfold Qlt_bool. apply negb_false_iff, Qle_bool_iff.
  apply (Qle_trans _ 0); [exact Hq | apply Qabs_nonneg].
Qed.

(** A distance that is zero gives the confidence 0. *)
Lemma zero_distance_confidence (q : Q) :
  (q == 0)%Q →
  ∃ c, py_round (py_min (Fin 1) (float_div_pos (Fin q) (2 # 10))) 3 = Fin c ∧ (c == 0)%Q.
Proof.
  intros Hq. unfold float_div_pos. cbn [decode]. rewrite (to_double_zero q Hq).
  eexists. split; [vm_compute; reflexivity | reflexivity].
Qed.

(** On a threshold the confidence is 0, unless the other distance is NaN
    and comes first. *)
Lemma confidence_on_threshold (thresholds : dict) (allow block : num) (t : Q) :
  thresholds !! "allow" = Some (VFloat allow) →
  thresholds !! "block" = Some (VFloat block) →
  (0 <= t <= 1)%Q →
  allow = Fin t ∨ (block = Fin t ∧ allow ≠ NaN) →
  ∃ c, _calculate_confidence thresholds (VFloat (Fin t)) = Ok (Fin c) ∧ (c == 0)%Q.
Proof.
  intros Ha Hb Ht Hon.
  unfold _calculate_confidence, getitem. rewrite Ha, Hb. cbn [bind].
  unfold py_sub. cbn [as_int as_float bind py_abs py_min_list].
  rewrite (py_lt_num (VFloat (num_abs (float_sub (Fin t) block)))
             (VFloat (num_abs (float_sub (Fin t) allow))) _ _ eq_refl eq_refl).
  cbn [bind].
  assert (Hmin : ∃ q, (if num_ltb (num_abs (float_sub (Fin t) block))
                            (num_abs (float_sub (Fin t) allow))
                       then VFloat (num_abs (float_sub (Fin t) block))
                       else VFloat (num_abs (float_sub (Fin t) allow)))
                      = VFloat (Fin q) ∧ (q == 0)%Q).
  { destruct Hon as [-> | [-> Hnan]].
    - rewrite (float_sub_self t Ht). cbn [num_abs].
      rewrite abs_not_below by discriminate. exists (Qabs 0). split; reflexivity.
    - rewrite (float_sub_self t Ht).
      pose proof (float_sub_not_nan t allow Ht Hnan) as Hsub.
      destruct (float_sub (Fin t) allow) as [q | | |]; cbn [num_abs num_ltb];
        [| exists (Qabs 0); split; reflexivity .. | contradiction].
      destruct (Qlt_bool (Qabs 0) (Qabs q)) eqn:L; [exists (Qabs 0); split; reflexivity |].
      exists (Qabs q). split; [reflexivity |].
      unfold Qlt_bool in L. apply negb_false_iff, Qle_bool_iff in L.
      apply Qle_antisym; [exact L | apply Qabs_nonneg]. }
  destruct Hmin as (q & -> & Hq). unfold py_div_pos. cbn [as_float bind].
  destruct (zero_distance_confidence q Hq) as (c & Hc & H0).
  rewrite Hc. exists c. split; [reflexivity | exact H0].
Qed.

(** X18. Whatever floats the thresholds [allow] and [block] hold, infinite
    ones and NaN included, the confidence of a score that passed the range
    check of [make_decision] is a number in [0, 1]; and it is 0 for a float
    score that sits on [allow], or on [block] when [allow] is not NaN. *)
Theorem confidence_bounds (thresholds : dict) (allow block : num) (score : value)
    (x : num) :
  thresholds !! "allow" = Some (VFloat allow) →
  thresholds !! "block" = Some (VFloat block) →
  as_num score = Some x → out_of_range x = false →
  ∃ c : Q, _calculate_confidence thresholds score = Ok (Fin c) ∧ (0 <= c <= 1)%Q ∧
           (∀ t, score = VFloat (Fin t) →
                 allow = Fin t ∨ (block = Fin t ∧ allow ≠ NaN) → (c == 0)%Q).
Proof.
  intros Ha Hb Hs Hr.
  assert (Hconf : ∃ c : Q, _calculate_confidence thresholds score = Ok (Fin c) ∧
                           (0 <= c <= 1)%Q).
  { destruct (as_float_in_range score x Hs Hr) as [x' Hf].
    assert (Hsub : ∀ t, py_sub score (VFloat t) = Ok (VFloat (float_sub x' t))).
    { intros t. unfold py_sub. rewrite Hf. cbn [as_int as_float bind].
      destruct (as_int score); reflexivity. }
    unfold _calculate_confidence, getitem. rewrite Ha, Hb. cbn [bind].
    rewrite !Hsub. cbn [bind py_abs py_min_list].
    rewrite (py_lt_num (VFloat (num_abs (float_sub x' block)))
               (VFloat (num_abs (float_sub x' allow))) _ _ eq_refl eq_refl).
    cbn [bind].
    set (y := if num_ltb (num_abs (float_sub x' block)) (num_abs (float_sub x' allow))
              then float_sub x' block else float_sub x' allow).
    assert (Hy : (if num_ltb (num_abs (float_sub x' block)) (num_abs (float_sub x' allow))
                  then VFloat (num_abs (float_sub x' block))
                  else VFloat (num_abs (float_sub x' allow)))
                 = VFloat (num_abs y)).
    { unfold y. destruct (num_ltb _ _); reflexivity. }
    rewrite Hy. unfold py_div_pos. cbn [as_float bind].
    destruct (rounded_ratio_unit _ (ratio_cases y)) as (c & Hc & Hrange).
    exists c. rewrite Hc. split; [reflexivity | exact Hrange]. }
  destruct Hconf as (c & Hc & Hrange). exists c.
  split; [exact Hc |]. split; [exact Hrange |].
  intros t -> Hon. injection Hs as <-. apply out_of_range_Fin in Hr.
  destruct (confidence_on_threshold thresholds allow block t Ha Hb Hr Hon) as (c0 & E & H0).
  rewrite E in Hc. injection Hc as <-. exact H0.
Qed.

Lemma confidence_bounds_witness :
  (∃ c : Q,
     _calculate_confidence
       (<["allow" := VFloat NaN]> (<["block" := VFloat PInf]> ∅)) (VInt 1) = Ok (Fin c) ∧
     (0 <= c <= 1)%Q) ∧
  (∃ c : Q,
     _calculate_confidence FRAUD_THRESHOLDS (VFloat (Fin (7 # 10))) = Ok (Fin c) ∧
     (c == 0)%Q).
Proof.
  split.
  - destruct (confidence_bounds (<["allow" := VFloat NaN]> (<["block" := VFloat PInf]> ∅))
                NaN PInf (VInt 1) (Fin 1)) as (c & Hc & Hrange & _); try reflexivity.
    exists c. split; assumption.
  - destruct (confidence_bounds FRAUD_THRESHOLDS (Fin (4 # 10)) (Fin (7 # 10))
                (VFloat (Fin (7 # 10))) (Fin (7 # 10))) as (c & Hc & _ & Hzero);
      try reflexivity.
    exists c. split; [exact Hc |]. apply (Hzero (7 # 10)); [reflexivity |].
    right. split; [reflexivity | discriminate].
Defined.

Lemma getitem_insert_other (thresholds : dict) (k key : string) (v : value) :
  k ≠ key → getitem (<[k := v]> thresholds) key = getitem thresholds key.
Proof. intros H. unfold getitem. rewrite lookup_insert_ne by exact H. reflexivity. Qed.

(** X19. A decision depends on the thresholds [allow] and [block] only:
    setting any other key of the thresholds, [verify] included, to any
    value changes no decision. *)
Theorem decision_ignores_other_thresholds (float_repr : num → string) (now_iso : string)
    (thresholds : dict) (k : string) (v : value) (score : value) (ctx : option dict) :
  k ≠ "allow" → k ≠ "block" →
  make_decision float_repr now_iso (<[k := v]> thresholds) score ctx
  = make_decision float_repr now_iso thresholds score ctx.
Proof.
  intros Ha Hb.
  assert (Hbase : _get_base_action (<[k := v]> thresholds) score
                  = _get_base_action thresholds score).
  { unfold _get_base_action. rewrite !getitem_insert_other by assumption. reflexivity. }
  assert (Hconf : _calculate_confidence (<[k := v]> thresholds) score
                  = _calculate_confidence thresholds score).
  { unfold _calculate_confidence. rewrite !getitem_insert_other by assumption. reflexivity. }
  unfold make_decision. rewrite Hbase, Hconf. reflexivity.
Qed.

Lemma decision_ignores_other_thresholds_witness :
  make_decision (fun _ => "") "" (<["verify" := VFloat (Fin (1 # 10))]> FRAUD_THRESHOLDS)
    (VFloat (Fin (5 # 10))) None
  = make_decision (fun _ => "") "" FRAUD_THRESHOLDS (VFloat (Fin (5 # 10))) None.
Proof.
  apply (decision_ignores_other_thresholds (fun _ => "") "" FRAUD_THRESHOLDS "verify");
    discriminate.
Defined.

Lemma updated_in_unit (current supplied : dict) (k : string) (v0 : value) (x0 : num) :
  known_keys_in_unit current supplied →
  current !! k = Some v0 → as_num v0 = Some x0 → in_unit_interval x0 = true →
  ∃ v x, updated current supplied !! k = Some v ∧ as_num v = Some x ∧
         in_unit_interval x = true.
Proof.
  intros Hkeys Hk Hx Hunit. unfold updated.
  destruct (supplied !! k) as [v |] eqn:Hs.
  - destruct (number_in_unit_num v (Hkeys k v Hs (mk_is_Some _ _ Hk))) as (x & Hv & Hu).
    exists v, x. split; [| split; assumption]. apply lookup_union_Some_l. exact Hs.
  - exists v0, x0. split; [| split; assumption]. rewrite lookup_union_r; assumption.
Qed.

Lemma sound_numeric (current : dict) : sound_thresholds current → numeric_thresholds current.
Proof.
  intros (va & vb & a & b & Ha & Hva & Hb & Hvb & _). exists va, vb, a, b. auto.
Qed.

(** X20. The thresholds stay sound under [update_thresholds]: if [allow]
    and [block] are numbers of [0, 1] with allow < block before a call,
    they are so after it, whatever the payload and whether or not it was
    accepted. *)
Theorem update_thresholds_keeps_sound (current : dict) (new_thresholds : payload) :
  sound_thresholds current →
  sound_thresholds (snd (update_thresholds current new_thresholds)).
Proof.
  intros Hsound. destruct new_thresholds as [supplied | v]; [| exact Hsound].
  destruct (validate_thresholds_dict current supplied (sound_numeric current Hsound))
    as (ok & Hval & Hiff).
  unfold update_thresholds. rewrite Hval. destruct ok; [| exact Hsound].
  cbn [snd]. destruct (proj1 Hiff eq_refl) as [Hkeys Hord].
  destruct Hsound as (va & vb & a & b & Ha & Hva & Hb & Hvb & Hua & Hub & _).
  destruct (updated_in_unit current supplied "allow" va a Hkeys Ha Hva Hua)
    as (va' & a' & Ha' & Hva' & Hua').
  destruct (updated_in_unit current supplied "block" vb b Hkeys Hb Hvb Hub)
    as (vb' & b' & Hb' & Hvb' & Hub').
  destruct Hord as (va2 & vb2 & a2 & b2 & Ha2 & Hva2 & Hb2 & Hvb2 & Hlt).
  exists va', vb', a', b'. repeat split; try assumption.
  assert (a2 = a') as <- by congruence. assert (b2 = b') as <- by congruence. exact Hlt.
Qed.

Lemma default_thresholds_sound : sound_thresholds FRAUD_THRESHOLDS.
Proof.
  exists (VFloat (Fin (4 # 10))), (VFloat (Fin (7 # 10))), (Fin (4 # 10)), (Fin (7 # 10)).
  repeat split; reflexivity.
Defined.

Lemma update_thresholds_keeps_sound_witness :
  sound_thresholds
    (snd (update_thresholds FRAUD_THRESHOLDS
            (PDict (<["allow" := VFloat (Fin (3 # 10))]>
                      (<["block" := VFloat (Fin (8 # 10))]> ∅))))).
Proof.
  apply (update_thresholds_keeps_sound FRAUD_THRESHOLDS _ default_thresholds_sound).
Defined.

Lemma updated_twice (current supplied : dict) :
  updated (updated current supplied) supplied = updated current supplied.
Proof.
  unfold updated. apply map_eq. intros i. rewrite !lookup_union.
  destruct (supplied !! i), (current !! i); reflexivity.
Qed.

(** X21. Sending a payload to [update_thresholds] a second time changes
    nothing more: the thresholds after the second call are those after the
    first.  The answer can differ, though: a payload with a new key is
    accepted once and, the key being stored then, checked and rejected the
    second time. *)
Theorem update_thresholds_twice (current : dict) (new_thresholds : payload) :
  snd (update_thresholds (snd (update_thresholds current new_thresholds)) new_thresholds)
  = snd (update_thresholds current new_thresholds) ∧
  ∃ (st : dict) (p : payload),
    fst (update_thresholds st p) = Ok true ∧
    fst (update_thresholds (snd (update_thresholds st p)) p) = Ok false.
Proof.
  split.
  - unfold update_thresholds at 2 3.
    destruct (_validate_thresholds current new_thresholds) as [[] | e] eqn:Hfirst;
      destruct new_thresholds as [supplied | v]; cbn [snd];
      try (unfold update_thresholds; rewrite Hfirst; reflexivity).
    unfold update_thresholds.
    destruct (_validate_thresholds (updated current supplied) (PDict supplied)) as [[] | e];
      cbn [snd]; [apply updated_twice | reflexivity | reflexivity].
  - exists FRAUD_THRESHOLDS,
      (PDict (<["allow" := VFloat (Fin (3 # 10))]> (<["limit" := VInt 5]> ∅))).
    split; vm_compute; reflexivity.
Qed.

(** X22. Under the default thresholds the two tables agree: for every
    score in [0, 1] the base action is the action [RISK_LEVELS] lists for
    the score's risk level. *)
Theorem band_action_is_base_action (score : value) (q : Q) :
  as_num score = Some (Fin q) → (0 <= q <= 1)%Q →
  ∃ level band,
    _get_risk_level score = Ok level ∧
    (level, band) ∈ RISK_LEVELS ∧
    _get_base_action FRAUD_THRESHOLDS score = Ok (band_action band).
Proof.
  intros Hs [H0 H1].
  destruct (Qlt_le_dec q (4 # 10)) as [Hlow | Hmid];
    [| destruct (Qlt_le_dec q (7 # 10)) as [Hmed | Hhigh]].
  - destruct (default_band_outcome (fun _ => "") "" score q "ALLOW" "LOW" Hs)
      as (Hbase & Hlevel & _); [left; done |].
    eexists "LOW", _. split; [exact Hlevel |]. split; [apply list_elem_of_here | exact Hbase].
  - destruct (default_band_outcome (fun _ => "") "" score q "VERIFY" "MEDIUM" Hs)
      as (Hbase & Hlevel & _); [right; left; done |].
    eexists "MEDIUM", _. split; [exact Hlevel |].
    split; [apply list_elem_of_further, list_elem_of_here | exact Hbase].
  - destruct (default_band_outcome (fun _ => "") "" score q "BLOCK" "HIGH" Hs)
      as (Hbase & Hlevel & _); [right; right; done |].
    eexists "HIGH", _. split; [exact Hlevel |].
    split; [do 2 apply list_elem_of_further; apply list_elem_of_here | exact Hbase].
Qed.

Lemma band_action_is_base_action_witness :
  ∃ level band,
    _get_risk_level (VInt 1) = Ok level ∧
    (level, band) ∈ RISK_LEVELS ∧
    _get_base_action FRAUD_THRESHOLDS (VInt 1) = Ok (band_action band).
Proof.
  apply (band_action_is_base_action (VInt 1) 1 eq_refl). split; discriminate.
Defined.

(** ** The tally and its reasons *)

Lemma count_if_adds (hit : bool) (reason : string) (t : tally) :
  count_if hit reason t
  = ((fst t + (if hit then 1 else 0))%nat, snd t ++ (if hit then [reason] else [])).
Proof.
  destruct hit, t as [n rs]; cbn [count_if fst snd].
  - f_equal. lia.
  - rewrite Nat.add_0_r, app_nil_r. reflexivity.
Qed.

(** X23. Rule 3 counts at most five indicators, and it adds exactly one
    reason per indicator it counts, each after the reasons collected
    before and each one of the five reasons of its checks. *)
Theorem tally_counts_reasons (td : dict) (reasoning : list string) (n : nat)
    (rs : list string) :
  count_risk_indicators td reasoning = Ok (n, rs) →
  (n <= 5)%nat ∧
  ∃ added, rs = reasoning ++ added ∧ length added = n ∧
           ∀ reason, reason ∈ added → reason ∈ indicator_reasons.
Proof.
  unfold count_risk_indicators, check_location, check_frequency, check_receiver,
    check_unusual_hour, check_new_device.
  intros H. bind_as H t1 H1. bind_as H1 far Hfar. bind_as H t2 H2. bind_as H2 often Hoften.
  bind_as H risky Hrisky.
  injection H1 as <-. injection H2 as <-.
  rewrite !count_if_adds in H. cbn [fst snd] in H.
  injection H as <- <-. split.
  - destruct (py_eq _ _), (py_ne _ _), far, often, risky; cbn; lia.
  - eexists. split; [rewrite <- !app_assoc; reflexivity |]. split.
    + destruct (py_eq _ _), (py_ne _ _), far, often, risky; reflexivity.
    + intros reason Hin. apply list_elem_of_In in Hin. revert reason Hin.
      refine (proj1 (List.Forall_forall (fun r => r ∈ indicator_reasons) _) _).
      unfold indicator_reasons.
      destruct (py_eq _ _), (py_ne _ _), far, often, risky; cbn [app];
        repeat constructor;
        repeat first [apply list_elem_of_here | apply list_elem_of_further].
Qed.

Lemma tally_counts_reasons_witness :
  ∃ added, ["Fraud score: 0.3000"; "Unusual transaction hour"; "Distant location";
            "High transaction frequency"; "High-risk receiver"]
           = ["Fraud score: 0.3000"] ++ added ∧ length added = 4%nat.
Proof.
  destruct (tally_counts_reasons four_indicator_context ["Fraud score: 0.3000"] 4%nat
              ["Fraud score: 0.3000"; "Unusual transaction hour"; "Distant location";
               "High transaction frequency"; "High-risk receiver"])
    as (_ & added & Hadded & Hlen & _).
  - vm_compute. reflexivity.
  - exists added. split; assumption.
Defined.

(** ** Contexts on which no rule raises *)

Lemma numeric_get (td : dict) (k : string) (default : value) :
  numeric_context td → k ∈ numeric_keys → is_number default = true →
  is_number (get td k default) = true.
Proof.
  intros Hctx Hk Hd. unfold get. destruct (td !! k) as [v |] eqn:Hv; [| exact Hd].
  apply (Hctx k v Hk Hv).
Qed.

Lemma py_compare_numbers op fnum fstr (a b : value) :
  is_number a = true → is_number b = true →
  ∃ c, py_compare op fnum fstr a b = Ok c.
Proof.
  intros Ha Hb. destruct (is_number_as_num a Ha) as [x Hx].
  destruct (is_number_as_num b Hb) as [y Hy].
  exists (fnum x y). apply py_compare_num; assumption.
Qed.

Lemma py_mul_int_number (v : value) :
  is_number v = true → ∃ w, py_mul_int v 5 = Ok w ∧ is_number w = true.
Proof.
  destruct v as [| b | z | x | s]; try discriminate; intros _;
    [eexists; split; reflexivity .. |].
  unfold py_mul_int. replace (float_of_int 5) with (Ok (Fin 5)) by (vm_compute; reflexivity).
  cbn [bind]. eexists. split; reflexivity.
Qed.

Lemma apply_business_rules_numeric float_repr (base : string) (score : value) (td : dict) :
  numeric_context td →
  ∃ out, _apply_business_rules float_repr base score (Some td) = Ok out.
Proof.
  intros Hctx.
  assert (Hk : ∀ k d, k ∈ numeric_keys → is_number d = true →
                      is_number (get td k d) = true)
    by (intros k d Hin Hd; apply numeric_get; assumption).
  pose proof (Hk "amount" (VInt 0) ltac:(set_solver) eq_refl) as Hamount.
  pose proof (Hk "avg_amount_last_week" (VInt 0) ltac:(set_solver) eq_refl) as Havg.
  pose proof (Hk "receiver_age_days" (VInt 365) ltac:(set_solver) eq_refl) as Hage.
  pose proof (Hk "geo_distance_from_last_txn" (VInt 0) ltac:(set_solver) eq_refl) as Hgeo.
  pose proof (Hk "transaction_frequency_last_24h" (VInt 0) ltac:(set_solver) eq_refl)
    as Hfreq.
  pose proof (Hk "receiver_fraud_reports" (VInt 0) ltac:(set_solver) eq_refl) as Hrep.
  pose proof (Hk "transaction_time" (VInt 12) ltac:(set_solver) eq_refl) as Hhour.
  destruct (py_mul_int_number _ Havg) as (limit & Hlimit & Hlnum).
  destruct (py_compare_numbers ">" (fun x y => num_ltb y x) (fun s t => String.ltb t s)
              _ _ Hamount Hlnum) as [c1 Hc1].
  destruct (py_compare_numbers "<" num_ltb String.ltb _ (VInt 7) Hage eq_refl) as [young Hy].
  destruct (py_compare_numbers ">" (fun x y => num_ltb y x) (fun s t => String.ltb t s)
              _ (VInt 10000) Hamount eq_refl) as [c2 Hc2].
  destruct (py_compare_numbers ">" (fun x y => num_ltb y x) (fun s t => String.ltb t s)
              _ (VInt 100) Hgeo eq_refl) as [far Hfar].
  destruct (py_compare_numbers ">" (fun x y => num_ltb y x) (fun s t => String.ltb t s)
              _ (VInt 10) Hfreq eq_refl) as [often Hoften].
  destruct (py_compare_numbers ">" (fun x y => num_ltb y x) (fun s t => String.ltb t s)
              _ (VInt 3) Hrep eq_refl) as [risky Hrisky].
  destruct (py_compare_numbers "<" num_ltb String.ltb _ (VInt 50) Hamount eq_refl)
    as [micro Hmicro].
  destruct (py_compare_numbers "<=" num_leb String.leb _ (VInt 5) Hhour eq_refl)
    as [early Hearly].
  destruct (py_compare_numbers ">=" (fun x y => num_leb y x) (fun s t => String.leb t s)
              _ (VInt 23) Hhour eq_refl) as [late Hlate].
  fold py_gt in Hc1, Hc2, Hfar, Hoften, Hrisky. fold py_lt in Hy, Hmicro.
  fold py_le in Hearly. fold py_ge in Hlate.
  unfold _apply_business_rules, business_rule_1, business_rule_2, business_rule_3,
    business_rule_5, count_risk_indicators, check_location, check_frequency,
    check_receiver.
  rewrite Hlimit. cbn [bind]. rewrite Hc1. cbn [bind].
  destruct (c1 && String.eqb base "ALLOW"); cbn [bind];
    rewrite Hy; cbn [bind];
    (destruct young; [rewrite Hc2 |]; cbn [bind]);
    match goal with |- context [if ?b then Ok (?x, ?y) else _] => destruct b end;
    cbn [bind]; rewrite Hfar; cbn [bind]; rewrite Hoften; cbn [bind];
    rewrite Hrisky; cbn [bind];
    match goal with |- context [count_if risky ?r ?t] => destruct (count_if risky r t) end;
    cbn [bind];
    repeat match goal with
           | |- context [if ?b then Ok (?x, ?y) else _] => destruct b; cbn [bind]
           end;
    match goal with |- context [business_rule_4 td ?st] => destruct (business_rule_4 td st) end;
    rewrite Hmicro; cbn [bind];
    (destruct micro; [rewrite Hearly; cbn [bind]; destruct early; [| rewrite Hlate] |]);
    cbn [bind];
    repeat match goal with
           | |- context [if ?b then Ok (?x, ?y) else _] => destruct b; cbn [bind]
           end;
    eexists; reflexivity.
Qed.

(** X24. No rule raises on a context whose numeric fields are numbers:
    with thresholds [allow] and [block] that are numbers of [0, 1], a score
    in [0, 1] and a context in which each of the seven keys the rules
    compare with numbers is absent or holds a number, [make_decision]
    returns a decision, whatever the other keys hold. *)
Theorem numeric_context_decided (float_repr : num → string) (now_iso : string)
    (thresholds : dict) (score : value) (q : Q) (td : dict) :
  unit_thresholds thresholds →
  unit_number score q →
  numeric_context td →
  ∃ r, make_decision float_repr now_iso thresholds score (Some td) = Ok r.
Proof.
  intros Hthr Hs Hctx.
  destruct Hthr as (va & vb & a & b & Ha & Hva & Hb & Hvb).
  rewrite (make_decision_in_range float_repr now_iso thresholds score (Some td) (Fin q)
             (proj1 Hs) (proj2 (out_of_range_Fin q) (proj2 Hs))).
  rewrite (base_action_num thresholds score va vb (Fin q) (Fin a) (Fin b) Ha Hb
             (proj1 Hs) (proj1 Hva) (proj1 Hvb)).
  rewrite (risk_level_default score q (proj1 Hs)). cbn [bind].
  destruct (apply_business_rules_numeric float_repr
              (if num_ltb (Fin q) (Fin a) then "ALLOW"
               else if num_ltb (Fin q) (Fin b) then "VERIFY" else "BLOCK") score td Hctx)
    as [[action reasoning] Hrules].
  rewrite Hrules. cbn [bind].
  rewrite (calculate_confidence_unit thresholds va vb score a b q Ha Hva Hb Hvb Hs).
  cbn [bind]. eexists. reflexivity.
Qed.

Lemma numeric_context_decided_witness :
  ∃ r, make_decision (fun _ => "") "" FRAUD_THRESHOLDS (VFloat (Fin (3 # 10)))
         (Some (<["user_type" := VInt 7]> four_indicator_context)) = Ok r.
Proof.
  apply (numeric_context_decided (fun _ => "") "" FRAUD_THRESHOLDS
           (VFloat (Fin (3 # 10))) (3 # 10)).
  - exists (VFloat (Fin (4 # 10))), (VFloat (Fin (7 # 10))), (4 # 10)%Q, (7 # 10)%Q.
    repeat split; (reflexivity || discriminate).
  - split; [reflexivity | split; discriminate].
  - intros k v Hk Hv. apply list_elem_of_In in Hk. unfold numeric_keys in Hk.
    cbn [In] in Hk.
    repeat (destruct Hk as [<- | Hk];
            [vm_compute in Hv; try discriminate; injection Hv as <-; reflexivity |]).
    contradiction.
Defined.

(** ** The sample transaction *)

Lemma inject_Z_leb (a b : Z) : (a <= b)%Z → Qle_bool (inject_Z a) (inject_Z b) = true.
Proof. intros H. apply Qle_bool_iff. rewrite <- Zle_Qle. exact H. Qed.

(** X25. The sample transaction of the pipeline can be used at any time of
    day: whatever the clock shows, it passes the validation, and no business
    rule applies to it, so that its decision has the base action of its
    score. *)
Theorem sample_transaction_plain (float_repr : num → string) (now_iso : string)
    (now_stamp : string) (now_hour : Z) (now_text : string) :
  (0 <= now_hour <= 23)%Z →
  _validate_transaction_data (create_sample_transaction now_stamp now_hour now_text) = Ok tt ∧
  ∀ thresholds score r,
    make_decision float_repr now_iso thresholds score
      (Some (create_sample_transaction now_stamp now_hour now_text)) = Ok r →
    _get_base_action thresholds score = Ok (d_action r).
Proof.
  intros [Hlo Hhi]. split.
  - apply validation_accepted. split.
    + intros field Hin. apply list_elem_of_In in Hin. unfold required_fields in Hin.
      cbn [In] in Hin.
      repeat (destruct Hin as [<- | Hin]; [vm_compute; eauto |]). contradiction.
    + exists (VFloat (Fin 2500)), (VInt now_hour).
      split; [vm_compute; reflexivity |]. split; [reflexivity |].
      split; [reflexivity |]. split; [vm_compute; reflexivity |].
      rewrite (py_le_num (VInt 0) (VInt now_hour) _ _ eq_refl eq_refl).
      rewrite (py_le_num (VInt now_hour) (VInt 23) _ _ eq_refl eq_refl).
      cbn [num_leb]. rewrite !inject_Z_leb by assumption. split; reflexivity.
  - intros thresholds score r Hr.
    destruct (decision_action_overlay _ _ _ _ _ _ Hr) as (base & Hbase & Haction).
    rewrite Hbase, Haction. unfold context_overlay.
    assert (H1 : high_amount_fired (create_sample_transaction now_stamp now_hour now_text)
                 = false) by (vm_compute; reflexivity).
    assert (H2 : new_receiver_fired (create_sample_transaction now_stamp now_hour now_text)
                 = false) by (vm_compute; reflexivity).
    assert (H3 : indicator_total (create_sample_transaction now_stamp now_hour now_text)
                 = 1%nat) by (vm_compute; reflexivity).
    assert (H4 : is_vip (create_sample_transaction now_stamp now_hour now_text)
                 = false) by (vm_compute; reflexivity).
    assert (H5 : micro_night_fired (create_sample_transaction now_stamp now_hour now_text)
                 = false) by (vm_compute; reflexivity).
    rewrite H1, H2, H3, H4, H5. reflexivity.
Qed.

Lemma sample_transaction_plain_witness :
  _validate_transaction_data
    (create_sample_transaction "20240101023000" 2 "2024-01-01 02:30:00") = Ok tt.
Proof.
  apply (sample_transaction_plain (fun _ => "") "" "20240101023000" 2 "2024-01-01 02:30:00").
  split; discriminate.
Defined.

(** ** The ids a batch hands out *)

Lemma pretty_N_go_ne_zero (x : N) (s rest : string) :
  (0 < x)%N → pretty_N_go x s ≠ "0" +:+ rest.
Proof.
  revert s. induction (N.lt_wf_0 x) as [x _ IH]. intros s Hx.
  rewrite pretty_N_go_step by exact Hx.
  destruct (decide (x `div` 10 = 0)%N) as [E | E].
  - rewrite E, pretty_N_go_0.
    assert (Hsmall : (x < 10)%N) by (apply N.div_small_iff in E; lia).
    rewrite N.mod_small by exact Hsmall.
    assert (x = 1 ∨ x = 2 ∨ x = 3 ∨ x = 4 ∨ x = 5 ∨ x = 6 ∨ x = 7 ∨ x = 8 ∨ x = 9)%N
      as Hcases by lia.
    repeat (destruct Hcases as [-> | Hcases]; [discriminate |]). subst x. discriminate.
  - apply IH; [apply N.div_lt; lia | apply N.neq_0_lt_0; exact E].
Qed.

(** The decimal numeral of a positive number does not start with a zero. *)
Lemma pretty_nat_ne_zero (n : nat) (rest : string) :
  (0 < n)%nat → pretty n ≠ "0" +:+ rest.
Proof.
  intros Hn. unfold pretty, pretty_nat, pretty, pretty_N.
  rewrite decide_False by lia. apply pretty_N_go_ne_zero. lia.
Qed.

Lemma zero_padding_inj (k1 k2 : nat) (s1 s2 : string) :
  (∀ rest, s1 ≠ "0" +:+ rest) → (∀ rest, s2 ≠ "0" +:+ rest) →
  String.concat "" (replicate k1 "0") +:+ s1 = String.concat "" (replicate k2 "0") +:+ s2 →
  s1 = s2.
Proof.
  intros H1 H2. revert k2. induction k1 as [| k1 IH]; intros [| k2]; rewrite ?zeros_S.
  - intros H. exact H.
  - intros H. destruct (H1 _ H).
  - intros H. symmetry in H. destruct (H2 _ H).
  - intros [= E]. apply (IH k2 E).
Qed.

Lemma batch_id_inj (i j : nat) : batch_id i = batch_id j → i = j.
Proof.
  unfold batch_id. intros [= H]. unfold zfill in H.
  apply zero_padding_inj in H;
    [| intros rest; apply pretty_nat_ne_zero; lia ..].
  apply pretty_nat_inj in H. lia.
Qed.

Section BatchIds.

Variable float_repr : num → string.
Variable now_iso : string.
Variable now_stamp : string.
Variable features : Type.
Variable preprocess_single_transaction : dict → res features.
Variable predict_fraud_probability : features → res num.

#[local] Abbreviation run_batch :=
  (batch_predict float_repr now_iso now_stamp features
     preprocess_single_transaction predict_fraud_probability).

(** X26. The ids a batch hands out do not collide: the zero-padded ids of
    two positions are equal only if the positions are, so that in a batch
    of distinct objects none of which brings a transaction id, the results
    at two different positions carry different transaction ids. *)
Theorem batch_ids_distinct (p : pipeline) (items : list loc) (σ : store)
    (j k : nat) (rj rk : pipeline_result) :
  NoDup items →
  (∀ l, l ∈ items → σ l !! "transaction_id" = None) →
  fst (run_batch p items σ) !! j = Some rj →
  fst (run_batch p items σ) !! k = Some rk →
  j ≠ k →
  result_transaction_id rj ≠ result_transaction_id rk.
Proof.
  intros Hnd Hnone Hj Hk Hjk. unfold batch_predict in Hj, Hk.
  destruct (items !! j) as [lj |] eqn:Ej;
    [| apply lookup_ge_None in Ej; apply lookup_lt_Some in Hj;
       rewrite batch_loop_length in Hj; lia].
  destruct (items !! k) as [lk |] eqn:Ek;
    [| apply lookup_ge_None in Ek; apply lookup_lt_Some in Hk;
       rewrite batch_loop_length in Hk; lia].
  rewrite (batch_loop_lookup float_repr now_iso now_stamp features
             preprocess_single_transaction predict_fraud_probability p items 0 σ j lj Ej)
    in Hj.
  rewrite (batch_loop_lookup float_repr now_iso now_stamp features
             preprocess_single_transaction predict_fraud_probability p items 0 σ k lk Ek)
    in Hk.
  injection Hj as <-. injection Hk as <-. rewrite !batch_item_id. cbn [Nat.add].
  rewrite (first_index_NoDup items j lj Hnd Ej), (first_index_NoDup items k lk Hnd Ek).
  rewrite (add_transaction_id_absent j (σ lj))
    by (apply Hnone; eapply list_elem_of_lookup_2; exact Ej).
  rewrite (add_transaction_id_absent k (σ lk))
    by (apply Hnone; eapply list_elem_of_lookup_2; exact Ek).
  unfold get. rewrite !lookup_insert_eq. intros E. apply Hjk, batch_id_inj. congruence.
Qed.

End BatchIds.

Lemma batch_ids_distinct_witness :
  ∃ rj rk,
    fst (batch_predict (fun _ => "") "" "" unit (fun _ => Ok tt) (fun _ => Ok (Fin (1 # 10)))
           default_pipeline [0%nat; 1%nat] plain_store) !! 0%nat = Some rj ∧
    fst (batch_predict (fun _ => "") "" "" unit (fun _ => Ok tt) (fun _ => Ok (Fin (1 # 10)))
           default_pipeline [0%nat; 1%nat] plain_store) !! 1%nat = Some rk ∧
    result_transaction_id rj ≠ result_transaction_id rk.
Proof.
  eexists _, _. split; [vm_compute; reflexivity |]. split; [vm_compute; reflexivity |].
  apply (batch_ids_distinct (fun _ => "") "" "" unit (fun _ => Ok tt)
           (fun _ => Ok (Fin (1 # 10))) default_pipeline [0%nat; 1%nat] plain_store
           0%nat 1%nat).
  - apply NoDup_cons_2;
      [| apply NoDup_cons_2; [apply not_elem_of_nil | apply NoDup_nil_2]].
    intros H. apply list_elem_of_singleton in H. discriminate.
  - intros l _. reflexivity.
  - vm_compute. reflexivity.
  - vm_compute. reflexivity.
  - discriminate.
Defined.
